(** * prisma-nest-reletions: the relationship-consistent CRUD service layer

    A shallow embedding of the four entity services of the application
    (src/users/users.service.ts, src/posts/posts.service.ts,
    src/categories/categories.service.ts, src/comments/comments.service.ts)
    over an in-memory model of the relational store they reach through the
    ORM client.

    - Rows are records; a table is the list of its rows in insertion order.
    - A service method is a computation [M A]: it reads and writes the store
      and either returns a value or throws an exception (JavaScript [throw],
      a rejected promise).
    - The ORM client is modelled in [Module Prisma]; the services are
      transcribed call by call on top of it. *)

From Stdlib Require Import List ZArith Bool String Lia Permutation Sorted.
From Stdlib Require Import DecimalString.
Import ListNotations.

Local Open Scope string_scope.
Local Open Scope list_scope.
Local Open Scope Z_scope.

(* ------------------------------------------------------------------ *)
(** ** Data model *)

(** Modelled from the spec: the schema file (prisma/schema.prisma) is not
    among the sources; the six row types below follow the attribute table of
    the specification, section 3, and the schema excerpts of README.md.
    Optional columns ([name?], [bio?], ...) are [option]s, [DateTime]
    columns are integers (a clock reading). *)
Record User := mkUser {
  user_id : Z;
  user_email : string;
  user_name : option string;
  user_createdAt : Z;
  user_updatedAt : Z }.

Record Profile := mkProfile {
  profile_id : Z;
  profile_bio : option string;
  profile_avatar : option string;
  profile_website : option string;
  profile_userId : Z }.

Record Post := mkPost {
  post_id : Z;
  post_title : string;
  post_content : option string;
  post_published : bool;
  post_authorId : Z;
  post_createdAt : Z;
  post_updatedAt : Z }.

Record Category := mkCategory {
  category_id : Z;
  category_name : string;
  category_slug : string }.

Record PostCategory := mkPostCategory {
  pc_id : Z;
  pc_postId : Z;
  pc_categoryId : Z;
  pc_createdAt : Z }.

Record Comment := mkComment {
  comment_id : Z;
  comment_content : string;
  comment_postId : Z;
  comment_authorId : Z;
  comment_createdAt : Z;
  comment_updatedAt : Z }.

(** The store: six tables, the autoincrement counter of each, and the
    reading of the store's clock ([now()], [@updatedAt]). *)
Record DB := mkDB {
  users : list User;
  profiles : list Profile;
  posts : list Post;
  categories : list Category;
  postCategories : list PostCategory;
  comments : list Comment;
  nextUserId : Z;
  nextProfileId : Z;
  nextPostId : Z;
  nextCategoryId : Z;
  nextPostCategoryId : Z;
  nextCommentId : Z;
  now : Z }.

Definition emptyDB : DB :=
  mkDB [] [] [] [] [] [] 1 1 1 1 1 1 0.

(** The store's clock moves on its own; [tick] is how a scenario lets time
    pass between two requests. *)
Definition tick (d : Z) (db : DB) : DB :=
  mkDB (users db) (profiles db) (posts db) (categories db)
       (postCategories db) (comments db)
       (nextUserId db) (nextProfileId db) (nextPostId db)
       (nextCategoryId db) (nextPostCategoryId db) (nextCommentId db)
       (now db + d).

Definition set_users (v : list User) (n : Z) (db : DB) : DB :=
  mkDB v (profiles db) (posts db) (categories db)
       (postCategories db) (comments db)
       n (nextProfileId db) (nextPostId db)
       (nextCategoryId db) (nextPostCategoryId db) (nextCommentId db)
       (now db).

Definition set_profiles (v : list Profile) (n : Z) (db : DB) : DB :=
  mkDB (users db) v (posts db) (categories db)
       (postCategories db) (comments db)
       (nextUserId db) n (nextPostId db)
       (nextCategoryId db) (nextPostCategoryId db) (nextCommentId db)
       (now db).

Definition set_posts (v : list Post) (n : Z) (db : DB) : DB :=
  mkDB (users db) (profiles db) v (categories db)
       (postCategories db) (comments db)
       (nextUserId db) (nextProfileId db) n
       (nextCategoryId db) (nextPostCategoryId db) (nextCommentId db)
       (now db).

Definition set_categories (v : list Category) (n : Z) (db : DB) : DB :=
  mkDB (users db) (profiles db) (posts db) v
       (postCategories db) (comments db)
       (nextUserId db) (nextProfileId db) (nextPostId db)
       n (nextPostCategoryId db) (nextCommentId db)
       (now db).

Definition set_postCategories (v : list PostCategory) (n : Z) (db : DB) : DB :=
  mkDB (users db) (profiles db) (posts db) (categories db)
       v (comments db)
       (nextUserId db) (nextProfileId db) (nextPostId db)
       (nextCategoryId db) n (nextCommentId db)
       (now db).

Definition set_comments (v : list Comment) (n : Z) (db : DB) : DB :=
  mkDB (users db) (profiles db) (posts db) (categories db)
       (postCategories db) v
       (nextUserId db) (nextProfileId db) (nextPostId db)
       (nextCategoryId db) (nextPostCategoryId db) n
       (now db).

(* ------------------------------------------------------------------ *)
(** ** Exceptions and the service monad *)

(** What a service method can throw: the two domain exceptions of
    @nestjs/common that the services construct, and the ORM client's
    known-request error, which carries a [code] string. *)
Inductive Exception :=
| NotFoundException (message : string)
| ConflictException (message : string)
| PrismaClientKnownRequestError (code : string).

(** [error.code] as the [catch] blocks read it: only the client's error has
    the property. *)
Definition error_code (error : Exception) : option string :=
  match error with
  | PrismaClientKnownRequestError c => Some c
  | _ => None
  end.

Definition code_is (error : Exception) (c : string) : bool :=
  match error_code error with
  | Some c' => String.eqb c' c
  | None => false
  end.

(** The status the framework's exception filter answers with. *)
Definition httpStatus (error : Exception) : Z :=
  match error with
  | NotFoundException _ => 404
  | ConflictException _ => 409
  | PrismaClientKnownRequestError _ => 500
  end.

Inductive Result (A : Type) :=
| Ok (a : A)
| Err (e : Exception).
Arguments Ok {A} a.
Arguments Err {A} e.

Definition M (A : Type) : Type := DB -> Result A * DB.

Definition ret {A} (a : A) : M A := fun db => (Ok a, db).

Definition throw {A} (e : Exception) : M A := fun db => (Err e, db).

Definition bind {A B} (m : M A) (k : A -> M B) : M B :=
  fun db =>
    match m db with
    | (Ok a, db') => k a db'
    | (Err e, db') => (Err e, db')
    end.

(** [try { return await m } catch (error) { h error }] *)
Definition try_catch {A} (m : M A) (h : Exception -> M A) : M A :=
  fun db =>
    match m db with
    | (Ok a, db') => (Ok a, db')
    | (Err e, db') => h e db'
    end.

Definition get : M DB := fun db => (Ok db, db).

Declare Scope svc_scope.
Delimit Scope svc_scope with svc.
Notation "x <- m ;; k" := (bind m (fun x => k))
  (at level 100, m at next level, right associativity) : svc_scope.
Notation "m ;;; k" := (bind m (fun _ => k))
  (at level 100, right associativity) : svc_scope.

(** [`... ${n} ...`]: a number inside a template literal. *)
Definition string_of_Z (z : Z) : string :=
  NilZero.string_of_int (Z.to_int z).

(** [opt ?? cur]: an omitted ([undefined]) field of an update's [data]
    leaves the column as it is. *)
Definition orKeep {A} (new : option A) (cur : A) : A :=
  match new with
  | Some v => v
  | None => cur
  end.

(* ------------------------------------------------------------------ *)
(** ** The store engine's ordering *)

(** [orderBy: { k: 'desc' }] asks the store for its rows in descending order
    of [k]; the order of rows with equal keys is the engine's choice.  The
    engine's sort is therefore a parameter of the model, and [EngineOk] is
    what [ORDER BY k DESC] promises of it. *)
Record Engine := mkEngine {
  sortDesc : forall A : Type, (A -> Z) -> list A -> list A }.
Arguments sortDesc E {A} key l : rename.

Definition descBy {A} (key : A -> Z) (a b : A) : Prop := key b <= key a.

Record EngineOk (E : Engine) : Prop := mkEngineOk {
  sortDesc_perm :
    forall (A : Type) (key : A -> Z) (l : list A),
      Permutation l (sortDesc E key l);
  sortDesc_sorted :
    forall (A : Type) (key : A -> Z) (l : list A),
      StronglySorted (descBy key) (sortDesc E key l) }.

(** Two engines.  [insertDesc] puts a row in front of the first row whose
    key is not above its own, so [stableEngine] keeps rows with equal keys in
    table order; [reverseEngine] sorts the reversed table and returns them in
    the opposite order. *)
Fixpoint insertDesc {A} (key : A -> Z) (x : A) (l : list A) : list A :=
  match l with
  | [] => [x]
  | y :: l' => if key y <=? key x then x :: y :: l'
               else y :: insertDesc key x l'
  end.

Definition isortDesc {A} (key : A -> Z) (l : list A) : list A :=
  fold_right (insertDesc key) [] l.

Definition stableEngine : Engine :=
  mkEngine (fun A key l => isortDesc key l).

Definition reverseEngine : Engine :=
  mkEngine (fun A key l => isortDesc key (rev l)).

(** [take: n]: the first [n] rows for [n >= 0], the last [-n] for a negative
    [n]. *)
Definition take {A} (n : Z) (l : list A) : list A :=
  if 0 <=? n then firstn (Z.to_nat n) l
  else skipn (List.length l - Z.to_nat (- n)) l.

(* ------------------------------------------------------------------ *)
(** ** The ORM client *)

(** The client calls the services make, over the tables of [DB].  A failed
    call throws the client's known-request error and writes nothing (each
    call is one atomic statement):
    - [P2002]: a unique constraint would be violated ([User.email],
      [Profile.userId], [Category.name], [Category.slug],
      [PostCategory.(postId, categoryId)]);
    - [P2003]: a foreign key names no row;
    - [P2025]: [update]/[delete] found no row for its [where].
    [findUnique] answers [null] ([None]) when no row matches.
    Deletes cascade to the dependent rows, as the schema's
    [onDelete: Cascade] declares (see the comments above the [remove]
    methods of the services). *)
Module Prisma.

Definition P2002 : string := "P2002".
Definition P2003 : string := "P2003".
Definition P2025 : string := "P2025".

Definition fail {A} (code : string) : M A :=
  throw (PrismaClientKnownRequestError code).

Definition reads {A} (f : DB -> A) : M A := fun db => (Ok (f db), db).

(** *** Argument shapes (the [data] objects of the service signatures) *)

Record UserCreateInput := mkUserCreateInput {
  uc_email : string;
  uc_name : option string }.

Record UserUpdateInput := mkUserUpdateInput {
  uu_email : option string;
  uu_name : option string }.

Record ProfileData := mkProfileData {
  pd_bio : option string;
  pd_avatar : option string;
  pd_website : option string }.

Record PostUpdateInput := mkPostUpdateInput {
  pu_title : option string;
  pu_content : option string;
  pu_published : option bool }.

Record CategoryCreateInput := mkCategoryCreateInput {
  cc_name : string;
  cc_slug : string }.

Record CategoryUpdateInput := mkCategoryUpdateInput {
  cu_name : option string;
  cu_slug : option string }.

Record CommentCreateInput := mkCommentCreateInput {
  cmc_content : string;
  cmc_postId : Z;
  cmc_authorId : Z }.

(** An optional column written from an optional field: an omitted field
    keeps the stored value. *)
Definition orKeepOpt {A} (new : option A) (cur : option A) : option A :=
  match new with
  | Some v => Some v
  | None => cur
  end.

(** *** Row lookups *)

Definition userById (db : DB) (id : Z) : option User :=
  find (fun u => user_id u =? id) (users db).

Definition userByEmail (db : DB) (email : string) : option User :=
  find (fun u => String.eqb (user_email u) email) (users db).

Definition profileOfUser (db : DB) (userId : Z) : option Profile :=
  find (fun p => profile_userId p =? userId) (profiles db).

Definition postById (db : DB) (id : Z) : option Post :=
  find (fun p => post_id p =? id) (posts db).

Definition categoryById (db : DB) (id : Z) : option Category :=
  find (fun c => category_id c =? id) (categories db).

Definition commentById (db : DB) (id : Z) : option Comment :=
  find (fun c => comment_id c =? id) (comments db).

Definition postsOfAuthor (db : DB) (authorId : Z) : list Post :=
  filter (fun p => post_authorId p =? authorId) (posts db).

Definition commentsOfPost (db : DB) (postId : Z) : list Comment :=
  filter (fun c => comment_postId c =? postId) (comments db).

Definition commentsOfAuthor (db : DB) (authorId : Z) : list Comment :=
  filter (fun c => comment_authorId c =? authorId) (comments db).

Definition joinsOfPost (db : DB) (postId : Z) : list PostCategory :=
  filter (fun j => pc_postId j =? postId) (postCategories db).

Definition joinsOfCategory (db : DB) (categoryId : Z) : list PostCategory :=
  filter (fun j => pc_categoryId j =? categoryId) (postCategories db).

(** The unique index on [(postId, categoryId)]. *)
Definition hasPair (l : list PostCategory) (postId categoryId : Z) : bool :=
  existsb (fun j => (pc_postId j =? postId) && (pc_categoryId j =? categoryId)) l.

(** *** user *)

Definition user_create (data : UserCreateInput) : M User :=
  fun db =>
    if existsb (fun u => String.eqb (user_email u) (uc_email data)) (users db)
    then fail P2002 db
    else
      let u := mkUser (nextUserId db) (uc_email data) (uc_name data)
                      (now db) (now db) in
      (Ok u, set_users (users db ++ [u]) (nextUserId db + 1) db).

Definition user_update (id : Z) (data : UserUpdateInput) : M User :=
  fun db =>
    match userById db id with
    | None => fail P2025 db
    | Some u =>
        let taken :=
          match uu_email data with
          | Some e => existsb (fun x => String.eqb (user_email x) e
                                        && negb (user_id x =? id)) (users db)
          | None => false
          end in
        if taken then fail P2002 db
        else
          let u' := mkUser (user_id u)
                           (orKeep (uu_email data) (user_email u))
                           (orKeepOpt (uu_name data) (user_name u))
                           (user_createdAt u) (now db) in
          (Ok u',
           set_users (map (fun x => if user_id x =? id then u' else x)
                          (users db))
                     (nextUserId db) db)
    end.

(** Deleting a user takes its profile, its posts, its comments, and the
    comments and join rows under those posts. *)
Definition user_delete (id : Z) : M User :=
  fun db =>
    match userById db id with
    | None => fail P2025 db
    | Some u =>
        let gone (postId : Z) :=
          existsb (fun p => post_id p =? postId) (postsOfAuthor db id) in
        (Ok u,
         mkDB (filter (fun x => negb (user_id x =? id)) (users db))
              (filter (fun p => negb (profile_userId p =? id)) (profiles db))
              (filter (fun p => negb (post_authorId p =? id)) (posts db))
              (categories db)
              (filter (fun j => negb (gone (pc_postId j))) (postCategories db))
              (filter (fun c => negb (comment_authorId c =? id)
                                && negb (gone (comment_postId c)))
                      (comments db))
              (nextUserId db) (nextProfileId db) (nextPostId db)
              (nextCategoryId db) (nextPostCategoryId db) (nextCommentId db)
              (now db))
    end.

(** *** profile *)

Definition profile_create (data : ProfileData) (userId : Z) : M Profile :=
  fun db =>
    if existsb (fun p => profile_userId p =? userId) (profiles db)
    then fail P2002 db
    else
      match userById db userId with
      | None => fail P2003 db
      | Some _ =>
          let p := mkProfile (nextProfileId db) (pd_bio data) (pd_avatar data)
                             (pd_website data) userId in
          (Ok p, set_profiles (profiles db ++ [p]) (nextProfileId db + 1) db)
      end.

(** [profile.update({ where: { userId }, data })] *)
Definition profile_update (userId : Z) (data : ProfileData) : M Profile :=
  fun db =>
    match profileOfUser db userId with
    | None => fail P2025 db
    | Some p =>
        let p' := mkProfile (profile_id p)
                            (orKeepOpt (pd_bio data) (profile_bio p))
                            (orKeepOpt (pd_avatar data) (profile_avatar p))
                            (orKeepOpt (pd_website data) (profile_website p))
                            (profile_userId p) in
        (Ok p',
         set_profiles (map (fun x => if profile_userId x =? userId
                                     then p' else x) (profiles db))
                      (nextProfileId db) db)
    end.

(** *** post *)

Definition post_update (id : Z) (data : PostUpdateInput) : M Post :=
  fun db =>
    match postById db id with
    | None => fail P2025 db
    | Some p =>
        let p' := mkPost (post_id p)
                         (orKeep (pu_title data) (post_title p))
                         (orKeepOpt (pu_content data) (post_content p))
                         (orKeep (pu_published data) (post_published p))
                         (post_authorId p) (post_createdAt p) (now db) in
        (Ok p',
         set_posts (map (fun x => if post_id x =? id then p' else x)
                        (posts db))
                   (nextPostId db) db)
    end.

(** Deleting a post takes its comments and its join rows. *)
Definition post_delete (id : Z) : M Post :=
  fun db =>
    match postById db id with
    | None => fail P2025 db
    | Some p =>
        (Ok p,
         mkDB (users db) (profiles db)
              (filter (fun x => negb (post_id x =? id)) (posts db))
              (categories db)
              (filter (fun j => negb (pc_postId j =? id)) (postCategories db))
              (filter (fun c => negb (comment_postId c =? id)) (comments db))
              (nextUserId db) (nextProfileId db) (nextPostId db)
              (nextCategoryId db) (nextPostCategoryId db) (nextCommentId db)
              (now db))
    end.

(** *** category *)

Definition category_create (data : CategoryCreateInput) : M Category :=
  fun db =>
    if existsb (fun c => String.eqb (category_name c) (cc_name data)
                         || String.eqb (category_slug c) (cc_slug data))
               (categories db)
    then fail P2002 db
    else
      let c := mkCategory (nextCategoryId db) (cc_name data) (cc_slug data) in
      (Ok c, set_categories (categories db ++ [c]) (nextCategoryId db + 1) db).

Definition category_update (id : Z) (data : CategoryUpdateInput) : M Category :=
  fun db =>
    match categoryById db id with
    | None => fail P2025 db
    | Some c =>
        let clash (new : option string) (col : Category -> string) :=
          match new with
          | Some v => existsb (fun x => String.eqb (col x) v
                                        && negb (category_id x =? id))
                              (categories db)
          | None => false
          end in
        if clash (cu_name data) category_name
           || clash (cu_slug data) category_slug
        then fail P2002 db
        else
          let c' := mkCategory (category_id c)
                               (orKeep (cu_name data) (category_name c))
                               (orKeep (cu_slug data) (category_slug c)) in
          (Ok c',
           set_categories (map (fun x => if category_id x =? id
                                         then c' else x) (categories db))
                          (nextCategoryId db) db)
    end.

(** Deleting a category takes its join rows. *)
Definition category_delete (id : Z) : M Category :=
  fun db =>
    match categoryById db id with
    | None => fail P2025 db
    | Some c =>
        (Ok c,
         mkDB (users db) (profiles db) (posts db)
              (filter (fun x => negb (category_id x =? id)) (categories db))
              (filter (fun j => negb (pc_categoryId j =? id))
                      (postCategories db))
              (comments db)
              (nextUserId db) (nextProfileId db) (nextPostId db)
              (nextCategoryId db) (nextPostCategoryId db) (nextCommentId db)
              (now db))
    end.

(** *** postCategory *)

(** [createMany({ data: rows, skipDuplicates: true })], row by row: a row
    whose [(postId, categoryId)] pair is already in the table (stored before
    the call or inserted earlier in it) is skipped, any other row is
    appended under the next id. *)
Fixpoint insertSkippingDuplicates (rows : list (Z * Z))
    (tbl : list PostCategory) (next : Z) (createdAt : Z)
    : list PostCategory * Z :=
  match rows with
  | [] => (tbl, next)
  | (postId, categoryId) :: rest =>
      if hasPair tbl postId categoryId
      then insertSkippingDuplicates rest tbl next createdAt
      else insertSkippingDuplicates rest
             (tbl ++ [mkPostCategory next postId categoryId createdAt])
             (next + 1) createdAt
  end.

(** The foreign keys of the rows that are not skipped must resolve. *)
Definition joinRowResolves (db : DB) (row : Z * Z) : bool :=
  let (postId, categoryId) := row in
  hasPair (postCategories db) postId categoryId
  || (existsb (fun p => post_id p =? postId) (posts db)
      && existsb (fun c => category_id c =? categoryId) (categories db)).

(** Answers the number of rows inserted ([{ count }]). *)
Definition postCategory_createMany_skipDuplicates (rows : list (Z * Z)) : M Z :=
  fun db =>
    if forallb (joinRowResolves db) rows then
      let (tbl, next) :=
        insertSkippingDuplicates rows (postCategories db)
                                 (nextPostCategoryId db) (now db) in
      (Ok (next - nextPostCategoryId db), set_postCategories tbl next db)
    else fail P2003 db.

(** [deleteMany({ where: { postId, categoryId } })] *)
Definition postCategory_deleteMany (postId categoryId : Z) : M Z :=
  fun db =>
    let keep := filter (fun j => negb ((pc_postId j =? postId)
                                       && (pc_categoryId j =? categoryId)))
                       (postCategories db) in
    (Ok (Z.of_nat (List.length (postCategories db) - List.length keep)),
     set_postCategories keep (nextPostCategoryId db) db).

(** *** comment *)

Definition comment_create (data : CommentCreateInput) : M Comment :=
  fun db =>
    match postById db (cmc_postId data), userById db (cmc_authorId data) with
    | Some _, Some _ =>
        let c := mkComment (nextCommentId db) (cmc_content data)
                           (cmc_postId data) (cmc_authorId data)
                           (now db) (now db) in
        (Ok c, set_comments (comments db ++ [c]) (nextCommentId db + 1) db)
    | _, _ => fail P2003 db
    end.

Definition comment_update (id : Z) (content : string) : M Comment :=
  fun db =>
    match commentById db id with
    | None => fail P2025 db
    | Some c =>
        let c' := mkComment (comment_id c) content (comment_postId c)
                            (comment_authorId c) (comment_createdAt c)
                            (now db) in
        (Ok c',
         set_comments (map (fun x => if comment_id x =? id then c' else x)
                           (comments db))
                      (nextCommentId db) db)
    end.

Definition comment_delete (id : Z) : M Comment :=
  fun db =>
    match commentById db id with
    | None => fail P2025 db
    | Some c =>
        (Ok c,
         set_comments (filter (fun x => negb (comment_id x =? id))
                              (comments db))
                      (nextCommentId db) db)
    end.

(** *** Nested writes *)

(** A nested write is one transaction: when a step fails, the rows written
    by the steps before it are rolled back. *)
Definition transaction {A} (m : M A) : M A :=
  fun db =>
    match m db with
    | (Ok a, db') => (Ok a, db')
    | (Err e, _) => (Err e, db)
    end.

(** [user.create({ data: { email, name, profile: { create } } })] *)
Definition user_create_withProfile (data : UserCreateInput)
    (profile : ProfileData) : M (User * Profile) :=
  transaction
    (bind (user_create data) (fun u =>
     bind (profile_create profile (user_id u)) (fun p =>
     ret (u, p)))).

Record PostCreateInput := mkPostCreateInput {
  pci_title : string;
  pci_content : option string;
  pci_published : option bool;
  pci_authorId : Z }.

Section PublishedDefault.

(** The value the schema gives [published] when a create omits it.  The
    schema file is not among the sources, so the default is a parameter. *)
Variable publishedDefault : bool.

Definition post_create (data : PostCreateInput) : M Post :=
  fun db =>
    match userById db (pci_authorId data) with
    | None => fail P2003 db
    | Some _ =>
        let p := mkPost (nextPostId db) (pci_title data) (pci_content data)
                        (orKeep (pci_published data) publishedDefault)
                        (pci_authorId data) (now db) (now db) in
        (Ok p, set_posts (posts db ++ [p]) (nextPostId db + 1) db)
    end.

(** [categories: { create: ids.map(id => ({ category: { connect: { id } } })) }],
    one join row after the other: connecting a category that does not exist
    fails with P2025, a second row for the same pair with P2002. *)
Fixpoint connectCategories (postId : Z) (categoryIds : list Z) : M unit :=
  match categoryIds with
  | [] => ret tt
  | categoryId :: rest =>
      fun db =>
        match categoryById db categoryId with
        | None => fail P2025 db
        | Some _ =>
            if hasPair (postCategories db) postId categoryId
            then fail P2002 db
            else
              connectCategories postId rest
                (set_postCategories
                   (postCategories db
                    ++ [mkPostCategory (nextPostCategoryId db) postId
                                       categoryId (now db)])
                   (nextPostCategoryId db + 1) db)
        end
  end.

Definition post_createWithCategories (data : PostCreateInput)
    (categoryIds : list Z) : M Post :=
  transaction
    (bind (post_create data) (fun p =>
     bind (connectCategories (post_id p) categoryIds) (fun _ =>
     ret p))).

End PublishedDefault.

(** *** deleteMany() without a [where] *)

(** Some row of [l] carries the key [k]. *)
Definition carries {A} (key : A -> Z) (l : list A) (k : Z) : bool :=
  existsb (fun x => key x =? k) l.

Definition comment_deleteMany : M Z :=
  fun db =>
    (Ok (Z.of_nat (List.length (comments db))),
     set_comments [] (nextCommentId db) db).

Definition postCategory_deleteAll : M Z :=
  fun db =>
    (Ok (Z.of_nat (List.length (postCategories db))),
     set_postCategories [] (nextPostCategoryId db) db).

Definition profile_deleteMany : M Z :=
  fun db =>
    (Ok (Z.of_nat (List.length (profiles db))),
     set_profiles [] (nextProfileId db) db).

(** Every post goes, and with each its comments and join rows. *)
Definition post_deleteMany : M Z :=
  fun db =>
    (Ok (Z.of_nat (List.length (posts db))),
     mkDB (users db) (profiles db) [] (categories db)
          (filter (fun j => negb (carries post_id (posts db) (pc_postId j)))
                  (postCategories db))
          (filter (fun c => negb (carries post_id (posts db) (comment_postId c)))
                  (comments db))
          (nextUserId db) (nextProfileId db) (nextPostId db)
          (nextCategoryId db) (nextPostCategoryId db) (nextCommentId db)
          (now db)).

Definition category_deleteMany : M Z :=
  fun db =>
    (Ok (Z.of_nat (List.length (categories db))),
     mkDB (users db) (profiles db) (posts db) []
          (filter (fun j => negb (carries category_id (categories db)
                                          (pc_categoryId j)))
                  (postCategories db))
          (comments db)
          (nextUserId db) (nextProfileId db) (nextPostId db)
          (nextCategoryId db) (nextPostCategoryId db) (nextCommentId db)
          (now db)).

(** Every user goes, and with each its profile, posts and comments, and the
    comments and join rows under those posts. *)
Definition user_deleteMany : M Z :=
  fun db =>
    let authored (p : Post) := carries user_id (users db) (post_authorId p) in
    let gone (postId : Z) := carries post_id (filter authored (posts db)) postId in
    (Ok (Z.of_nat (List.length (users db))),
     mkDB []
          (filter (fun p => negb (carries user_id (users db) (profile_userId p)))
                  (profiles db))
          (filter (fun p => negb (authored p)) (posts db))
          (categories db)
          (filter (fun j => negb (gone (pc_postId j))) (postCategories db))
          (filter (fun c => negb (carries user_id (users db) (comment_authorId c))
                            && negb (gone (comment_postId c)))
                  (comments db))
          (nextUserId db) (nextProfileId db) (nextPostId db)
          (nextCategoryId db) (nextPostCategoryId db) (nextCommentId db)
          (now db)).

(** An omitted ([undefined]) field of a [where] filters nothing. *)
Definition matches {A} (eqb : A -> A -> bool) (want : option A) (v : A) : bool :=
  match want with
  | Some w => eqb v w
  | None => true
  end.

End Prisma.

(* ------------------------------------------------------------------ *)
(** ** Result shapes: rows with their included relations *)

(** A relation that the schema makes mandatory ([author], [post],
    [category]) is still an [option] here: the lookup by foreign key is
    written out, and it answers [Some] whenever the store is referentially
    intact.  An included list without an [orderBy] is given in table
    order. *)

(** [categories: { include: { category: true } }] *)
Record PostCategoryWithCategory := mkPostCategoryWithCategory {
  pcc_row : PostCategory;
  pcc_category : option Category }.

(** [author: { include: { profile: true } }] *)
Record UserWithProfile := mkUserWithProfile {
  uwp_user : User;
  uwp_profile : option Profile }.

(** [comments: { include: { author: true } }] *)
Record CommentWithAuthor := mkCommentWithAuthor {
  cwa_comment : Comment;
  cwa_author : option User }.

(** [post: { include: { author: true } }] *)
Record PostWithAuthor := mkPostWithAuthor {
  pwa_post : Post;
  pwa_author : option User }.

Definition includeCategory (db : DB) (j : PostCategory)
    : PostCategoryWithCategory :=
  mkPostCategoryWithCategory j (Prisma.categoryById db (pc_categoryId j)).

Definition includeProfile (db : DB) (u : User) : UserWithProfile :=
  mkUserWithProfile u (Prisma.profileOfUser db (user_id u)).

Definition includeCommentAuthor (db : DB) (c : Comment) : CommentWithAuthor :=
  mkCommentWithAuthor c (Prisma.userById db (comment_authorId c)).

Definition includePostAuthor (db : DB) (p : Post) : PostWithAuthor :=
  mkPostWithAuthor p (Prisma.userById db (post_authorId p)).

Local Open Scope svc_scope.

(** [if (!row) throw new NotFoundException(message); return row] *)
Definition orNotFound {A} (row : option A) (message : string) : M A :=
  match row with
  | None => throw (NotFoundException message)
  | Some r => ret r
  end.

(* ------------------------------------------------------------------ *)
(** ** src/users/users.service.ts *)

Module UsersService.
Import Prisma.

(** [posts: { include: { categories: { include: { category: true } },
    comments: true } }] *)
Record PostOfUser := mkPostOfUser {
  pou_post : Post;
  pou_categories : list PostCategoryWithCategory;
  pou_comments : list Comment }.

Record UserWithRelations := mkUserWithRelations {
  uwr_user : User;
  uwr_profile : option Profile;
  uwr_posts : list PostOfUser;
  uwr_comments : list Comment }.

Record UserWithProfilePosts := mkUserWithProfilePosts {
  upp_user : User;
  upp_profile : option Profile;
  upp_posts : list Post }.

Record UserStats := mkUserStats {
  us_id : Z;
  us_email : string;
  us_name : option string;
  us_totalPosts : nat;
  us_totalComments : nat;
  us_hasProfile : bool }.

Definition create (data : UserCreateInput) : M User :=
  user_create data.

Definition includeRelations (db : DB) (u : User) : UserWithRelations :=
  mkUserWithRelations u
    (profileOfUser db (user_id u))
    (map (fun p => mkPostOfUser p
                     (map (includeCategory db) (joinsOfPost db (post_id p)))
                     (commentsOfPost db (post_id p)))
         (postsOfAuthor db (user_id u)))
    (commentsOfAuthor db (user_id u)).

Definition findOne (id : Z) : M UserWithRelations :=
  user <- reads (fun db => option_map (includeRelations db) (userById db id)) ;;
  orNotFound user ("User with ID " ++ string_of_Z id ++ " not found")%string.

Definition findByEmail (email : string) : M (option UserWithProfilePosts) :=
  reads (fun db =>
    option_map (fun u => mkUserWithProfilePosts u
                           (profileOfUser db (user_id u))
                           (postsOfAuthor db (user_id u)))
               (userByEmail db email)).

Definition update (id : Z) (data : UserUpdateInput) : M UserWithProfile :=
  u <- user_update id data ;;
  reads (fun db => includeProfile db u).

Definition updateProfile (userId : Z) (profileData : ProfileData) : M Profile :=
  user <- reads (fun db => option_map (includeProfile db) (userById db userId)) ;;
  match user with
  | None =>
      throw (NotFoundException
               ("User with ID " ++ string_of_Z userId ++ " not found")%string)
  | Some user =>
      match uwp_profile user with
      | Some _ => profile_update userId profileData
      | None => profile_create profileData userId
      end
  end.

Definition remove (id : Z) : M User :=
  user_delete id.

Definition getUserStats (userId : Z) : M UserStats :=
  user <- findOne userId ;;
  ret (mkUserStats (user_id (uwr_user user)) (user_email (uwr_user user))
                   (user_name (uwr_user user))
                   (List.length (uwr_posts user))
                   (List.length (uwr_comments user))
                   (match uwr_profile user with Some _ => true | None => false end)).

(** The body of [POST /users/with-profile]. *)
Record CreateUserWithProfileInput := mkCreateUserWithProfileInput {
  cuwp_email : string;
  cuwp_name : option string;
  cuwp_profile : ProfileData }.

Definition createWithProfile (data : CreateUserWithProfileInput)
    : M UserWithProfile :=
  created <- user_create_withProfile
               (mkUserCreateInput (cuwp_email data) (cuwp_name data))
               (cuwp_profile data) ;;
  reads (fun db => includeProfile db (fst created)).

(** [include: { profile: true, posts: true, comments: true }] *)
Record UserRelations := mkUserRelations {
  ur_profile : option Profile;
  ur_posts : list Post;
  ur_comments : list Comment }.

Record UserListItem := mkUserListItem {
  uli_user : User;
  uli_relations : option UserRelations }.

Section WithEngine.
Variable E : Engine.

(** [includeRelations = false]: the default applies when the argument is
    omitted. *)
Definition findAll (includeRelations : option bool) : M (list UserListItem) :=
  let includeRelations := orKeep includeRelations false in
  reads (fun db =>
    map (fun u =>
           mkUserListItem u
             (if includeRelations
              then Some (mkUserRelations (profileOfUser db (user_id u))
                                         (postsOfAuthor db (user_id u))
                                         (commentsOfAuthor db (user_id u)))
              else None))
        (sortDesc E user_createdAt (users db))).

End WithEngine.

End UsersService.

(* ------------------------------------------------------------------ *)
(** ** src/posts/posts.service.ts *)

Module PostsService.
Import Prisma.

Record PostWithRelations := mkPostWithRelations {
  pwr_post : Post;
  pwr_author : option UserWithProfile;
  pwr_categories : list PostCategoryWithCategory;
  pwr_comments : list CommentWithAuthor }.

Record PostWithAuthorCategories := mkPostWithAuthorCategories {
  pac_post : Post;
  pac_author : option User;
  pac_categories : list PostCategoryWithCategory }.

Record CommentWithAuthorPost := mkCommentWithAuthorPost {
  cap_comment : Comment;
  cap_author : option User;
  cap_post : option Post }.

Record CommentData := mkCommentData {
  cd_content : string;
  cd_authorId : Z }.

Definition includeAuthorCategories (db : DB) (p : Post)
    : PostWithAuthorCategories :=
  mkPostWithAuthorCategories p
    (userById db (post_authorId p))
    (map (includeCategory db) (joinsOfPost db (post_id p))).

Section WithEngine.
Variable E : Engine.

Definition includeRelations (db : DB) (p : Post) : PostWithRelations :=
  mkPostWithRelations p
    (option_map (includeProfile db) (userById db (post_authorId p)))
    (map (includeCategory db) (joinsOfPost db (post_id p)))
    (map (includeCommentAuthor db)
         (sortDesc E comment_createdAt (commentsOfPost db (post_id p)))).

Definition findOne (id : Z) : M PostWithRelations :=
  post <- reads (fun db => option_map (includeRelations db) (postById db id)) ;;
  orNotFound post ("Post with ID " ++ string_of_Z id ++ " not found")%string.

Definition addCategories (postId : Z) (categoryIds : list Z)
    : M PostWithRelations :=
  findOne postId ;;;
  postCategory_createMany_skipDuplicates
    (map (fun categoryId => (postId, categoryId)) categoryIds) ;;;
  findOne postId.

Definition removeCategory (postId categoryId : Z) : M PostWithRelations :=
  postCategory_deleteMany postId categoryId ;;;
  findOne postId.

Definition addComment (postId : Z) (data : CommentData)
    : M CommentWithAuthorPost :=
  findOne postId ;;;
  c <- comment_create (mkCommentCreateInput (cd_content data) postId
                                            (cd_authorId data)) ;;
  reads (fun db => mkCommentWithAuthorPost c
                     (userById db (comment_authorId c))
                     (postById db (comment_postId c))).

End WithEngine.

Definition update (id : Z) (data : PostUpdateInput)
    : M PostWithAuthorCategories :=
  p <- post_update id data ;;
  reads (fun db => includeAuthorCategories db p).

Definition remove (id : Z) : M Post :=
  post_delete id.

(** [where: { categories: { some: { categoryId } } }] *)
Definition findByCategory (categoryId : Z) : M (list PostWithAuthorCategories) :=
  reads (fun db =>
    map (includeAuthorCategories db)
        (filter (fun p => existsb (fun j => pc_categoryId j =? categoryId)
                                  (joinsOfPost db (post_id p)))
                (posts db))).

(** The body of [POST /posts/with-categories]. *)
Record PostWithCategoriesInput := mkPostWithCategoriesInput {
  pwci_title : string;
  pwci_content : option string;
  pwci_published : option bool;
  pwci_authorId : Z;
  pwci_categoryIds : list Z }.

Section WithPublishedDefault.
Variable publishedDefault : bool.

Definition create (data : PostCreateInput) : M PostWithAuthor :=
  p <- post_create publishedDefault data ;;
  reads (fun db => includePostAuthor db p).

(** [const { categoryIds, ...postData } = data] *)
Definition createWithCategories (data : PostWithCategoriesInput)
    : M PostWithAuthorCategories :=
  let categoryIds := pwci_categoryIds data in
  let postData := mkPostCreateInput (pwci_title data) (pwci_content data)
                                    (pwci_published data) (pwci_authorId data) in
  p <- post_createWithCategories publishedDefault postData categoryIds ;;
  reads (fun db => includeAuthorCategories db p).

End WithPublishedDefault.

Record PostFilters := mkPostFilters {
  pf_published : option bool;
  pf_authorId : option Z;
  pf_includeRelations : option bool }.

(** [include: { author: true, categories: { include: { category: true } },
    comments: { include: { author: true } } }] *)
Record PostRelations := mkPostRelations {
  prl_author : option User;
  prl_categories : list PostCategoryWithCategory;
  prl_comments : list CommentWithAuthor }.

Record PostListItem := mkPostListItem {
  pli_post : Post;
  pli_relations : option PostRelations }.



(** [filters?.field]: an omitted [filters] object has every field omitted. *)
Definition field {F A} (filters : option F) (get : F -> option A) : option A :=
  match filters with
  | Some f => get f
  | None => None
  end.

(** The [where] of [findAll]. *)
Definition selected (filters : option PostFilters) (p : Post) : bool :=
  matches Bool.eqb (field filters pf_published) (post_published p)
  && matches Z.eqb (field filters pf_authorId) (post_authorId p).

Section ListWithEngine.
Variable E : Engine.

Definition findAll (filters : option PostFilters) : M (list PostListItem) :=
  reads (fun db =>
    map (fun p =>
           mkPostListItem p
             (if orKeep (field filters pf_includeRelations) false
              then Some (mkPostRelations
                           (userById db (post_authorId p))
                           (map (includeCategory db)
                                (joinsOfPost db (post_id p)))
                           (map (includeCommentAuthor db)
                                (commentsOfPost db (post_id p))))
              else None))
        (sortDesc E post_createdAt (filter (selected filters) (posts db)))).


End ListWithEngine.

End PostsService.

(* ------------------------------------------------------------------ *)
(** ** src/categories/categories.service.ts *)

Module CategoriesService.
Import Prisma.

(** [post: { include: { author: true, comments: true } }] *)
Record PostWithAuthorComments := mkPostWithAuthorComments {
  pwc_post : Post;
  pwc_author : option User;
  pwc_comments : list Comment }.

Record JoinWithPost := mkJoinWithPost {
  jwp_row : PostCategory;
  jwp_post : option PostWithAuthorComments }.

Record CategoryWithPosts := mkCategoryWithPosts {
  cwp_category : Category;
  cwp_posts : list JoinWithPost }.

(** [include: { _count: { select: { posts: true } } }] *)
Record CategoryWithCount := mkCategoryWithCount {
  cwc_category : Category;
  cwc_count : nat }.

Definition alreadyExists : string :=
  "Category with this name or slug already exists".

Definition notFound (id : Z) : string :=
  ("Category with ID " ++ string_of_Z id ++ " not found")%string.

(** The [catch (error) { ... }] block of each method is a function of the
    caught value. *)
Definition create_catch (error : Exception) : M Category :=
  if code_is error "P2002" then throw (ConflictException alreadyExists)
  else throw error.

Definition create (data : CategoryCreateInput) : M Category :=
  try_catch (category_create data) create_catch.

Definition includePosts (db : DB) (c : Category) : CategoryWithPosts :=
  mkCategoryWithPosts c
    (map (fun j => mkJoinWithPost j
                     (option_map
                        (fun p => mkPostWithAuthorComments p
                                    (userById db (post_authorId p))
                                    (commentsOfPost db (post_id p)))
                        (postById db (pc_postId j))))
         (joinsOfCategory db (category_id c))).

Definition findOne (id : Z) : M CategoryWithPosts :=
  category <- reads (fun db => option_map (includePosts db)
                                          (categoryById db id)) ;;
  orNotFound category (notFound id).

Definition update_catch (id : Z) (error : Exception) : M Category :=
  if code_is error "P2002" then throw (ConflictException alreadyExists)
  else if code_is error "P2025" then throw (NotFoundException (notFound id))
  else throw error.

Definition update (id : Z) (data : CategoryUpdateInput) : M Category :=
  try_catch (category_update id data) (update_catch id).

Definition remove_catch (id : Z) (error : Exception) : M Category :=
  if code_is error "P2025" then throw (NotFoundException (notFound id))
  else throw error.

Definition remove (id : Z) : M Category :=
  try_catch (category_delete id) (remove_catch id).

Definition withCount (db : DB) (c : Category) : CategoryWithCount :=
  mkCategoryWithCount c (List.length (joinsOfCategory db (category_id c))).

Definition countKey (c : CategoryWithCount) : Z := Z.of_nat (cwc_count c).

Section WithEngine.
Variable E : Engine.

(** [limit = 10]: the default applies when the argument is omitted. *)
Definition getPopularCategories (limit : option Z) : M (list CategoryWithCount) :=
  let limit := match limit with Some n => n | None => 10 end in
  reads (fun db =>
    take limit (sortDesc E countKey (map (withCount db) (categories db)))).

End WithEngine.

(** [posts: { include: { post: { include: { author: true } } } }] *)
Record JoinWithPostAuthor := mkJoinWithPostAuthor {
  jpa_row : PostCategory;
  jpa_post : option PostWithAuthor }.

Record CategoryWithPostAuthors := mkCategoryWithPostAuthors {
  cpa_category : Category;
  cpa_posts : list JoinWithPostAuthor }.

Record CategoryStats := mkCategoryStats {
  cs_id : Z;
  cs_name : string;
  cs_slug : string;
  cs_totalPosts : nat }.

Definition categoryBySlug (db : DB) (slug : string) : option Category :=
  find (fun c => String.eqb (category_slug c) slug) (categories db).

Definition findBySlug (slug : string) : M CategoryWithPostAuthors :=
  category <- reads (fun db =>
    option_map (fun c => mkCategoryWithPostAuthors c
                           (map (fun j => mkJoinWithPostAuthor j
                                            (option_map (includePostAuthor db)
                                               (postById db (pc_postId j))))
                                (joinsOfCategory db (category_id c))))
               (categoryBySlug db slug)) ;;
  orNotFound category ("Category with slug '" ++ slug ++ "' not found")%string.

Definition getCategoryStats (id : Z) : M CategoryStats :=
  category <- findOne id ;;
  ret (mkCategoryStats (category_id (cwp_category category))
                       (category_name (cwp_category category))
                       (category_slug (cwp_category category))
                       (List.length (cwp_posts category))).

End CategoriesService.

(* ------------------------------------------------------------------ *)
(** ** src/comments/comments.service.ts *)

Module CommentsService.
Import Prisma.

Record CommentWithRelations := mkCommentWithRelations {
  cwr_comment : Comment;
  cwr_author : option UserWithProfile;
  cwr_post : option PostWithAuthor }.

Record CommentWithAuthorPost := mkCommentWithAuthorPost {
  cap_comment : Comment;
  cap_author : option User;
  cap_post : option Post }.

Record CommentWithAuthorProfile := mkCommentWithAuthorProfile {
  cpf_comment : Comment;
  cpf_author : option UserWithProfile }.

Record CommentWithPost := mkCommentWithPost {
  cwpo_comment : Comment;
  cwpo_post : option PostWithAuthor }.

Definition notFound (id : Z) : string :=
  ("Comment with ID " ++ string_of_Z id ++ " not found")%string.

Definition findOne (id : Z) : M CommentWithRelations :=
  comment <- reads (fun db =>
    option_map (fun c => mkCommentWithRelations c
                           (option_map (includeProfile db)
                                       (userById db (comment_authorId c)))
                           (option_map (includePostAuthor db)
                                       (postById db (comment_postId c))))
               (commentById db id)) ;;
  orNotFound comment (notFound id).

(** The [catch (error) { ... }] block shared, word for word, by [update]
    and [remove]. *)
Definition rethrow {A} (id : Z) (error : Exception) : M A :=
  if code_is error "P2025" then throw (NotFoundException (notFound id))
  else throw error.

Definition update (id : Z) (content : string) : M CommentWithAuthorPost :=
  try_catch
    (c <- comment_update id content ;;
     reads (fun db => mkCommentWithAuthorPost c
                        (userById db (comment_authorId c))
                        (postById db (comment_postId c))))
    (rethrow id).

Definition remove (id : Z) : M Comment :=
  try_catch (comment_delete id) (rethrow id).

Section WithEngine.
Variable E : Engine.

Definition findByPost (postId : Z) : M (list CommentWithAuthorProfile) :=
  reads (fun db =>
    map (fun c => mkCommentWithAuthorProfile c
                    (option_map (includeProfile db)
                                (userById db (comment_authorId c))))
        (sortDesc E comment_createdAt (commentsOfPost db postId))).

Definition findByUser (userId : Z) : M (list CommentWithPost) :=
  reads (fun db =>
    map (fun c => mkCommentWithPost c
                    (option_map (includePostAuthor db)
                                (postById db (comment_postId c))))
        (sortDesc E comment_createdAt (commentsOfAuthor db userId))).

End WithEngine.

(** [include: { author: true, post: { include: { author: true } } }] *)
Record CommentWithAuthorPostAuthor := mkCommentWithAuthorPostAuthor {
  capa_comment : Comment;
  capa_author : option User;
  capa_post : option PostWithAuthor }.

Record CommentFilters := mkCommentFilters {
  cf_postId : option Z;
  cf_authorId : option Z }.

Definition includeAuthorPostAuthor (db : DB) (c : Comment)
    : CommentWithAuthorPostAuthor :=
  mkCommentWithAuthorPostAuthor c
    (userById db (comment_authorId c))
    (option_map (includePostAuthor db) (postById db (comment_postId c))).

Definition create (data : CommentCreateInput) : M CommentWithAuthorPostAuthor :=
  c <- comment_create data ;;
  reads (fun db => includeAuthorPostAuthor db c).

(** The [where] of [findAll]; [filters?.field] is [undefined] when the
    [filters] object is omitted. *)
Definition selected (filters : option CommentFilters) (c : Comment) : bool :=
  matches Z.eqb (match filters with Some f => cf_postId f | None => None end)
          (comment_postId c)
  && matches Z.eqb (match filters with Some f => cf_authorId f | None => None end)
             (comment_authorId c).

Section ListWithEngine.
Variable E : Engine.

Definition findAll (filters : option CommentFilters)
    : M (list CommentWithAuthorPostAuthor) :=
  reads (fun db =>
    map (includeAuthorPostAuthor db)
        (sortDesc E comment_createdAt (filter (selected filters) (comments db)))).

End ListWithEngine.

End CommentsService.

(* ------------------------------------------------------------------ *)
(** ** src/prisma/prisma.service.ts *)

Module PrismaService.
Import Prisma.

(** [cleanDatabase] either refuses with a plain [Error] or returns after
    its six deletes. *)
Inductive CleanOutcome :=
| Refused (message : string)
| Cleaned (db : DB).

(** The six [deleteMany()] calls, in the order of the source (the seed
    script prisma/seed.ts opens with the same six calls). *)
Definition cleanSteps : list (M Z) :=
  [comment_deleteMany; postCategory_deleteAll; post_deleteMany;
   profile_deleteMany; category_deleteMany; user_deleteMany].

Definition runSteps (steps : list (M Z)) (db : DB) : DB :=
  fold_left (fun d step => snd (step d)) steps db.

(** [nodeEnv] is [process.env.NODE_ENV], [None] when the variable is unset. *)
Definition cleanDatabase (nodeEnv : option string) (db : DB) : CleanOutcome :=
  if match nodeEnv with
     | Some v => String.eqb v "production"
     | None => false
     end
  then Refused "Cannot clean database in production!"
  else Cleaned (runSteps cleanSteps db).

End PrismaService.

(* ------------------------------------------------------------------ *)
(** ** Scenarios *)

Module Scenario.
Import Prisma.

Definition run {A} (m : M A) (db : DB) : DB := snd (m db).

(** One user, [a@x.com]. *)
Definition oneUser : DB :=
  run (UsersService.create (mkUserCreateInput "a@x.com" (Some "A"))) emptyDB.


(** Two categories, created in this order, neither attached to a post. *)
Definition twoCategories : DB :=
  run (CategoriesService.create (mkCategoryCreateInput "Database" "database"))
    (run (CategoriesService.create
            (mkCategoryCreateInput "Tutorial" "tutorial")) oneUser).

(** The user's first post, written straight into the table. *)
Definition onePost : DB :=
  set_posts [mkPost 1 "Hello" None true 1 0 0] 2 twoCategories.

(** The post tagged with category 1. *)
Definition tagged : DB :=
  run (PostsService.addCategories stableEngine 1 [1]) onePost.

(** Three comments on the post, one per clock tick, the last two within the
    same tick. *)
Definition commented : DB :=
  run (PostsService.addComment stableEngine 1
         (PostsService.mkCommentData "third" 1))
    (run (PostsService.addComment stableEngine 1
            (PostsService.mkCommentData "second" 1))
       (tick 5
          (run (PostsService.addComment stableEngine 1
                  (PostsService.mkCommentData "first" 1)) tagged))).

End Scenario.

(* ------------------------------------------------------------------ *)
(** ** Vocabulary of the properties *)

(** The propagation policy in the specification's words: an error whose code
    is in [table] is re-signalled as the domain exception listed for it, any
    other error is passed on as it is. *)
Fixpoint resignal (table : list (string * Exception)) (error : Exception)
    : Exception :=
  match table with
  | [] => error
  | (c, domain) :: rest =>
      if code_is error c then domain else resignal rest error
  end.

(** The error of an outcome. *)
Definition errorOf {A} (r : Result A * DB) : option Exception :=
  match fst r with
  | Ok _ => None
  | Err e => Some e
  end.

(** A [catch] block [h] follows the policy with table [table]: whatever it
    is handed, it throws the re-signalled error and writes nothing. *)
Definition Handles {A} (h : Exception -> M A) (table : list (string * Exception))
    : Prop :=
  forall (e : Exception) (db : DB), h e db = (Err (resignal table e), db).

(** A service method [svc] over the client call [call] follows the policy
    with table [table]: it fails exactly when the call fails, with the
    call's error re-signalled, and leaves the store as the call left it. *)
Definition Resignals {A B} (svc : M A) (call : M B)
    (table : list (string * Exception)) : Prop :=
  forall db : DB,
    errorOf (svc db) = option_map (resignal table) (errorOf (call db))
    /\ snd (svc db) = snd (call db).

(** The one-to-one constraint: no two profile rows name the same user. *)
Definition OneProfilePerUser (db : DB) : Prop :=
  NoDup (map profile_userId (profiles db)).

(** The key of the join table's unique index. *)
Definition pairOf (j : PostCategory) : Z * Z := (pc_postId j, pc_categoryId j).

Definition NoDuplicatePairs (db : DB) : Prop :=
  NoDup (map pairOf (postCategories db)).

(** The row [profile.update] writes and the row [profile.create] writes. *)
Definition updatedProfile (p : Profile) (data : Prisma.ProfileData) : Profile :=
  mkProfile (profile_id p)
            (Prisma.orKeepOpt (Prisma.pd_bio data) (profile_bio p))
            (Prisma.orKeepOpt (Prisma.pd_avatar data) (profile_avatar p))
            (Prisma.orKeepOpt (Prisma.pd_website data) (profile_website p))
            (profile_userId p).

Definition createdProfile (db : DB) (userId : Z) (data : Prisma.ProfileData)
    : Profile :=
  mkProfile (nextProfileId db) (Prisma.pd_bio data) (Prisma.pd_avatar data)
            (Prisma.pd_website data) userId.


(** *** Store invariants *)

(** Every foreign key [fk x] of a row of [l] is one of [ids]. *)
Definition Refs {A} (fk : A -> Z) (l : list A) (ids : list Z) : Prop :=
  forall x, In x l -> In (fk x) ids.

(** Referential integrity: no row names a user, post or category that the
    store does not hold ("zero orphaned rows"). *)
Record Intact (db : DB) : Prop := mkIntact {
  profile_user : Refs profile_userId (profiles db) (map user_id (users db));
  post_author : Refs post_authorId (posts db) (map user_id (users db));
  join_post : Refs pc_postId (postCategories db) (map post_id (posts db));
  join_category :
    Refs pc_categoryId (postCategories db) (map category_id (categories db));
  comment_post : Refs comment_postId (comments db) (map post_id (posts db));
  comment_author :
    Refs comment_authorId (comments db) (map user_id (users db)) }.

(** Primary keys: the ids of a table are pairwise distinct and below the
    table's autoincrement counter. *)
Definition Fresh (ids : list Z) (next : Z) : Prop :=
  NoDup ids /\ forall i, In i ids -> i < next.

Record Keyed (db : DB) : Prop := mkKeyed {
  user_keys : Fresh (map user_id (users db)) (nextUserId db);
  profile_keys : Fresh (map profile_id (profiles db)) (nextProfileId db);
  post_keys : Fresh (map post_id (posts db)) (nextPostId db);
  category_keys : Fresh (map category_id (categories db)) (nextCategoryId db);
  join_keys :
    Fresh (map pc_id (postCategories db)) (nextPostCategoryId db);
  comment_keys : Fresh (map comment_id (comments db)) (nextCommentId db) }.

(** The unique columns of the schema. *)
Record Unique (db : DB) : Prop := mkUnique {
  unique_email : NoDup (map user_email (users db));
  unique_profile : OneProfilePerUser db;
  unique_name : NoDup (map category_name (categories db));
  unique_slug : NoDup (map category_slug (categories db));
  unique_pair : NoDuplicatePairs db }.

Definition Consistent (db : DB) : Prop :=
  Keyed db /\ Unique db /\ Intact db.

(** [m] keeps the invariant [P], however it ends. *)
Definition Preserves (P : DB -> Prop) {A} (m : M A) : Prop :=
  forall db, P db -> P (snd (m db)).

(** A component of [Consistent] that a write did not touch. *)
Ltac kept Hk Hu Hi :=
  first [ exact (user_keys _ Hk) | exact (profile_keys _ Hk)
        | exact (post_keys _ Hk) | exact (category_keys _ Hk)
        | exact (join_keys _ Hk) | exact (comment_keys _ Hk)
        | exact (unique_email _ Hu) | exact (unique_profile _ Hu)
        | exact (unique_name _ Hu) | exact (unique_slug _ Hu)
        | exact (unique_pair _ Hu)
        | exact (profile_user _ Hi) | exact (post_author _ Hi)
        | exact (join_post _ Hi) | exact (join_category _ Hi)
        | exact (comment_post _ Hi) | exact (comment_author _ Hi) ].

(** The components of [Consistent] after a write, untouched ones closed. *)
Ltac consistent_after Hk Hu Hi :=
  split; [|split]; constructor;
  unfold OneProfilePerUser, NoDuplicatePairs; simpl;
  try kept Hk Hu Hi.

(** A lookup that answered [None] sends [findOne] to its [throw]. *)
Ltac missing_row H :=
  unfold bind, Prisma.reads; rewrite H; simpl; reflexivity.

(* ------------------------------------------------------------------ *)
(** ** The engines meet [EngineOk] *)

Section InsertionSort.
Context {A : Type} (key : A -> Z).

Lemma insertDesc_perm (x : A) (l : list A) :
  Permutation (x :: l) (insertDesc key x l).
Proof.
  induction l as [|y l IH]; simpl.
  - apply Permutation_refl.
  - destruct (key y <=? key x).
    + apply Permutation_refl.
    + eapply perm_trans; [apply perm_swap|].
      now apply perm_skip.
Qed.

Lemma isortDesc_perm (l : list A) : Permutation l (isortDesc key l).
Proof.
  induction l as [|x l IH]; simpl.
  - constructor.
  - eapply perm_trans; [apply perm_skip, IH|]. apply insertDesc_perm.
Qed.

Lemma insertDesc_sorted (x : A) (l : list A) :
  StronglySorted (descBy key) l ->
  StronglySorted (descBy key) (insertDesc key x l).
Proof.
  induction 1 as [|y l Hs IH Hall]; simpl.
  - repeat constructor.
  - destruct (key y <=? key x) eqn:Hk.
    + apply Z.leb_le in Hk.
      constructor; [now constructor|].
      constructor; [exact Hk|].
      eapply Forall_impl; [|exact Hall].
      unfold descBy; intros; lia.
    + apply Z.leb_gt in Hk.
      constructor; [exact IH|].
      eapply Permutation_Forall; [apply insertDesc_perm|].
      constructor; [unfold descBy; lia | exact Hall].
Qed.

Lemma isortDesc_sorted (l : list A) :
  StronglySorted (descBy key) (isortDesc key l).
Proof.
  induction l as [|x l IH]; simpl.
  - constructor.
  - now apply insertDesc_sorted.
Qed.

End InsertionSort.

Lemma stableEngine_ok : EngineOk stableEngine.
Proof.
  split; intros A key l; simpl.
  - apply isortDesc_perm.
  - apply isortDesc_sorted.
Qed.

Lemma reverseEngine_ok : EngineOk reverseEngine.
Proof.
  split; intros A key l; simpl.
  - eapply perm_trans; [apply Permutation_rev|]. apply isortDesc_perm.
  - apply isortDesc_sorted.
Qed.

(* ------------------------------------------------------------------ *)
(** ** Lookups *)

Lemma find_none_iff {A} (f : A -> bool) (l : list A) :
  find f l = None <-> existsb f l = false.
Proof.
  induction l as [|x l IH]; simpl; [tauto|].
  destruct (f x); simpl; [split; discriminate | exact IH].
Qed.

Lemma find_some_existsb {A} (f : A -> bool) (l : list A) (x : A) :
  find f l = Some x -> existsb f l = true.
Proof.
  intros H. apply find_some in H. apply existsb_exists. now exists x.
Qed.

Lemma userById_id (db : DB) (id : Z) (u : User) :
  Prisma.userById db id = Some u -> user_id u = id /\ In u (users db).
Proof.
  intros H. apply find_some in H. destruct H as [Hin Hid].
  apply Z.eqb_eq in Hid. auto.
Qed.

Lemma postById_id (db : DB) (id : Z) (p : Post) :
  Prisma.postById db id = Some p -> post_id p = id /\ In p (posts db).
Proof.
  intros H. apply find_some in H. destruct H as [Hin Hid].
  apply Z.eqb_eq in Hid. auto.
Qed.

Lemma profileOfUser_userId (db : DB) (userId : Z) (p : Profile) :
  Prisma.profileOfUser db userId = Some p ->
  profile_userId p = userId /\ In p (profiles db).
Proof.
  intros H. apply find_some in H. destruct H as [Hin Hid].
  apply Z.eqb_eq in Hid. auto.
Qed.

(* ------------------------------------------------------------------ *)
(** ** Users: duplicate email, lookups *)

(** C1, as amended.  A create whose email is already stored fails and adds
    no row; what the caller sees is the client's own unique-violation error,
    code P2002, exactly as the store raised it: [UsersService.create] has no
    [catch], so the error is not turned into a [ConflictException]. *)
Theorem C1_create_duplicate_email_raw_P2002 :
  forall (db : DB) (data : Prisma.UserCreateInput),
    (exists u, In u (users db) /\ user_email u = Prisma.uc_email data) ->
    UsersService.create data db
    = (Err (PrismaClientKnownRequestError "P2002"), db).
Proof.
  intros db data [u [Hin Hmail]].
  unfold UsersService.create, Prisma.user_create.
  replace (existsb _ (users db)) with true; [reflexivity|].
  symmetry. apply existsb_exists. exists u. split; [exact Hin|].
  now apply String.eqb_eq.
Qed.

Lemma C1_create_duplicate_email_witness :
  (exists u, In u (users Scenario.oneUser) /\ user_email u = "a@x.com")
  /\ UsersService.create (Prisma.mkUserCreateInput "a@x.com" None)
                         Scenario.oneUser
     = (Err (PrismaClientKnownRequestError "P2002"), Scenario.oneUser).
Proof.
  assert (H : exists u, In u (users Scenario.oneUser)
                        /\ user_email u = "a@x.com")
    by (eexists; split; [left; reflexivity | reflexivity]).
  split; [exact H|].
  exact (C1_create_duplicate_email_raw_P2002 Scenario.oneUser
           (Prisma.mkUserCreateInput "a@x.com" None) H).
Defined.

(** C1, as stated, fails: a second create with a stored email does not
    surface a conflict (409) signal. *)
Lemma C1_duplicate_email_is_not_a_conflict_signal :
  ~ (forall (db : DB) (data : Prisma.UserCreateInput),
       (exists u, In u (users db) /\ user_email u = Prisma.uc_email data) ->
       exists e, fst (UsersService.create data db) = Err e
                 /\ httpStatus e = 409).
Proof.
  intros H.
  destruct (H Scenario.oneUser (Prisma.mkUserCreateInput "a@x.com" None))
    as [e [He Hs]].
  - eexists. split; [left; reflexivity | reflexivity].
  - vm_compute in He. inversion He; subst e. discriminate Hs.
Qed.

(** C7, as amended.  [findByEmail] on an email that no user row carries
    completes normally with the empty result ([null]) and leaves the store
    as it was; unlike [findOne] it has no [if (!user) throw]. *)
Theorem C7_findByEmail_no_match_returns_null :
  forall (db : DB) (email : string),
    Prisma.userByEmail db email = None ->
    UsersService.findByEmail email db = (Ok None, db).
Proof.
  intros db email H.
  unfold UsersService.findByEmail, Prisma.reads. now rewrite H.
Qed.

Lemma C7_findByEmail_no_match_witness :
  Prisma.userByEmail Scenario.oneUser "b@x.com" = None
  /\ UsersService.findByEmail "b@x.com" Scenario.oneUser
     = (Ok None, Scenario.oneUser).
Proof.
  split; [reflexivity|].
  apply (C7_findByEmail_no_match_returns_null Scenario.oneUser "b@x.com").
  reflexivity.
Defined.

(** C7, as stated, fails: the lookup of an unknown email raises no
    not-found (404) signal. *)
Lemma C7_findByEmail_raises_no_not_found :
  ~ (forall (db : DB) (email : string),
       Prisma.userByEmail db email = None ->
       exists e, fst (UsersService.findByEmail email db) = Err e
                 /\ httpStatus e = 404).
Proof.
  intros H.
  destruct (H Scenario.oneUser "b@x.com" eq_refl) as [e [He _]].
  vm_compute in He. discriminate He.
Qed.

(* ------------------------------------------------------------------ *)
(** ** findOne on an id that resolves to no row *)

Lemma orNotFound_none {A} (message : string) (db : DB) :
  @orNotFound A None message db = (Err (NotFoundException message), db).
Proof. reflexivity. Qed.


Lemma posts_findOne_missing (E : Engine) (db : DB) (id : Z) :
  Prisma.postById db id = None ->
  PostsService.findOne E id db
  = (Err (NotFoundException
            ("Post with ID " ++ string_of_Z id ++ " not found")%string), db).
Proof. intros H. unfold PostsService.findOne. missing_row H. Qed.

Lemma categories_findOne_missing (db : DB) (id : Z) :
  Prisma.categoryById db id = None ->
  CategoriesService.findOne id db
  = (Err (NotFoundException (CategoriesService.notFound id)), db).
Proof. intros H. unfold CategoriesService.findOne. missing_row H. Qed.

Lemma comments_findOne_missing (db : DB) (id : Z) :
  Prisma.commentById db id = None ->
  CommentsService.findOne id db
  = (Err (NotFoundException (CommentsService.notFound id)), db).
Proof. intros H. unfold CommentsService.findOne. missing_row H. Qed.



(* ------------------------------------------------------------------ *)
(** ** Posts: the existence check comes before the write *)



(* ------------------------------------------------------------------ *)
(** ** Error propagation, service by service *)

Lemma try_catch_resignals {A} (m : M A) (h : Exception -> M A)
    (table : list (string * Exception)) :
  Handles h table -> Resignals (try_catch m h) m table.
Proof.
  intros Hh db. unfold try_catch, errorOf.
  destruct (m db) as [[a|e] db']; simpl; [auto|].
  rewrite Hh. auto.
Qed.

Lemma bind_reads_resignals {A B} (m : M A) (f : A -> DB -> B) :
  Resignals (bind m (fun a => Prisma.reads (f a))) m [].
Proof.
  intros db. unfold bind, Prisma.reads, errorOf.
  destruct (m db) as [[a|e] db']; simpl; auto.
Qed.

Lemma resignals_refl {A} (m : M A) : Resignals m m [].
Proof.
  intros db. unfold errorOf. destruct (m db) as [[a|e] db']; simpl; auto.
Qed.

Lemma categories_create_catch_handles :
  Handles CategoriesService.create_catch
          [("P2002", ConflictException CategoriesService.alreadyExists)].
Proof.
  intros e db. unfold CategoriesService.create_catch. simpl.
  destruct (code_is e "P2002"); reflexivity.
Qed.

Lemma categories_update_catch_handles (id : Z) :
  Handles (CategoriesService.update_catch id)
          [("P2002", ConflictException CategoriesService.alreadyExists);
           ("P2025", NotFoundException (CategoriesService.notFound id))].
Proof.
  intros e db. unfold CategoriesService.update_catch. simpl.
  destruct (code_is e "P2002"); [reflexivity|].
  destruct (code_is e "P2025"); reflexivity.
Qed.

Lemma categories_remove_catch_handles (id : Z) :
  Handles (CategoriesService.remove_catch id)
          [("P2025", NotFoundException (CategoriesService.notFound id))].
Proof.
  intros e db. unfold CategoriesService.remove_catch. simpl.
  destruct (code_is e "P2025"); reflexivity.
Qed.

Lemma comments_rethrow_handles {A} (id : Z) :
  Handles (@CommentsService.rethrow A id)
          [("P2025", NotFoundException (CommentsService.notFound id))].
Proof.
  intros e db. unfold CommentsService.rethrow. simpl.
  destruct (code_is e "P2025"); reflexivity.
Qed.

Lemma resignals_trans_nil {A B C} (svc : M A) (mid : M B) (call : M C)
    (table : list (string * Exception)) :
  Resignals svc mid table -> Resignals mid call [] -> Resignals svc call table.
Proof.
  intros H1 H2 db. destruct (H1 db) as [E1 S1]. destruct (H2 db) as [E2 S2].
  split; [|congruence].
  rewrite E1, E2. destruct (errorOf (call db)); reflexivity.
Qed.

(** C2, as amended.  The two services that have [catch] blocks re-signal
    exactly the codes their blocks test and pass every other error on as it
    is: [CategoriesService.create] turns P2002 into the conflict exception,
    [CategoriesService.update] P2002 into the conflict and P2025 into the
    not-found exception, [CategoriesService.remove], [CommentsService.update]
    and [CommentsService.remove] P2025 into the not-found exception.  The
    update and remove methods of [UsersService] and [PostsService] have no
    [catch]: every error of the client, P2025 and P2002 included, reaches
    the caller unmodified (empty table). *)
Theorem C2_propagation_policy_per_service :
  forall id : Z,
    (* the catch blocks, on every caught value *)
    Handles CategoriesService.create_catch
            [("P2002", ConflictException CategoriesService.alreadyExists)]
    /\ Handles (CategoriesService.update_catch id)
               [("P2002", ConflictException CategoriesService.alreadyExists);
                ("P2025", NotFoundException (CategoriesService.notFound id))]
    /\ Handles (CategoriesService.remove_catch id)
               [("P2025", NotFoundException (CategoriesService.notFound id))]
    /\ Handles (@CommentsService.rethrow CommentsService.CommentWithAuthorPost id)
               [("P2025", NotFoundException (CommentsService.notFound id))]
    /\ Handles (@CommentsService.rethrow Comment id)
               [("P2025", NotFoundException (CommentsService.notFound id))]
    (* the methods over the client calls they wrap *)
    /\ (forall data,
           Resignals (CategoriesService.create data)
                     (Prisma.category_create data)
                     [("P2002", ConflictException CategoriesService.alreadyExists)])
    /\ (forall data,
           Resignals (CategoriesService.update id data)
                     (Prisma.category_update id data)
                     [("P2002", ConflictException CategoriesService.alreadyExists);
                      ("P2025", NotFoundException (CategoriesService.notFound id))])
    /\ Resignals (CategoriesService.remove id) (Prisma.category_delete id)
                 [("P2025", NotFoundException (CategoriesService.notFound id))]
    /\ (forall content,
           Resignals (CommentsService.update id content)
                     (Prisma.comment_update id content)
                     [("P2025", NotFoundException (CommentsService.notFound id))])
    /\ Resignals (CommentsService.remove id) (Prisma.comment_delete id)
                 [("P2025", NotFoundException (CommentsService.notFound id))]
    /\ (forall data,
           Resignals (UsersService.update id data) (Prisma.user_update id data) [])
    /\ Resignals (UsersService.remove id) (Prisma.user_delete id) []
    /\ (forall data,
           Resignals (PostsService.update id data) (Prisma.post_update id data) [])
    /\ Resignals (PostsService.remove id) (Prisma.post_delete id) [].
Proof.
  intros id.
  split; [apply categories_create_catch_handles|].
  split; [apply categories_update_catch_handles|].
  split; [apply categories_remove_catch_handles|].
  split; [apply comments_rethrow_handles|].
  split; [apply comments_rethrow_handles|].
  split; [intros data; apply try_catch_resignals,
                         categories_create_catch_handles|].
  split; [intros data; apply try_catch_resignals,
                         categories_update_catch_handles|].
  split; [apply try_catch_resignals, categories_remove_catch_handles|].
  split.
  { intros content. eapply resignals_trans_nil.
    - apply try_catch_resignals, comments_rethrow_handles.
    - apply bind_reads_resignals. }
  split; [apply try_catch_resignals, comments_rethrow_handles|].
  split; [intros data; apply bind_reads_resignals|].
  split; [apply resignals_refl|].
  split; [intros data; apply bind_reads_resignals|].
  apply resignals_refl.
Qed.

(** C2, as stated, fails: updating a user id that resolves to no row ends
    in the client's P2025 error itself, not in a not-found (404) signal. *)
Lemma C2_users_update_P2025_not_resignalled :
  ~ (forall (id : Z) (data : Prisma.UserUpdateInput) (db : DB) (e : Exception),
       errorOf (Prisma.user_update id data db) = Some e ->
       code_is e "P2025" = true ->
       exists e', errorOf (UsersService.update id data db) = Some e'
                  /\ httpStatus e' = 404).
Proof.
  intros H.
  destruct (H 999 (Prisma.mkUserUpdateInput None (Some "B")) Scenario.oneUser
              (PrismaClientKnownRequestError "P2025") eq_refl eq_refl)
    as [e' [He Hs]].
  vm_compute in He. inversion He; subst e'. discriminate Hs.
Qed.

Example categories_update_missing_is_not_found :
  fst (CategoriesService.update 999 (Prisma.mkCategoryUpdateInput None None)
                                Scenario.twoCategories)
  = Err (NotFoundException "Category with ID 999 not found").
Proof. reflexivity. Qed.

Example categories_update_taken_name_is_conflict :
  fst (CategoriesService.update 2
         (Prisma.mkCategoryUpdateInput (Some "Tutorial") None)
         Scenario.twoCategories)
  = Err (ConflictException "Category with this name or slug already exists").
Proof. reflexivity. Qed.

Example comments_remove_missing_is_not_found :
  fst (CommentsService.remove 999 Scenario.commented)
  = Err (NotFoundException "Comment with ID 999 not found").
Proof. reflexivity. Qed.

Example posts_remove_missing_is_raw_P2025 :
  fst (PostsService.remove 999 Scenario.commented)
  = Err (PrismaClientKnownRequestError "P2025").
Proof. reflexivity. Qed.

(* ------------------------------------------------------------------ *)
(** ** Users: updateProfile *)

Section ReplaceByKey.
Context {A : Type} (key : A -> Z).

(** Rewriting the rows that carry a key leaves the column of keys as it is,
    provided the new row carries that key. *)
Lemma map_replace_keys (k : Z) (a' : A) (l : list A) :
  key a' = k ->
  map key (map (fun x => if key x =? k then a' else x) l) = map key l.
Proof.
  intros Hk. induction l as [|x l IH]; simpl; [reflexivity|].
  rewrite IH. destruct (key x =? k) eqn:Hx; [|reflexivity].
  apply Z.eqb_eq in Hx. congruence.
Qed.

Lemma map_replace_absent (k : Z) (a' : A) (l : list A) :
  ~ In k (map key l) ->
  map (fun x => if key x =? k then a' else x) l = l.
Proof.
  induction l as [|x l IH]; simpl; intros Hn; [reflexivity|].
  destruct (key x =? k) eqn:Hx.
  - apply Z.eqb_eq in Hx. tauto.
  - rewrite IH; tauto.
Qed.

(** With unique keys, the rewrite touches one row, where it stands. *)
Lemma map_replace_in_place (k : Z) (a a' : A) (l : list A) :
  NoDup (map key l) ->
  find (fun x => key x =? k) l = Some a ->
  exists l1 l2,
    l = l1 ++ a :: l2
    /\ map (fun x => if key x =? k then a' else x) l = l1 ++ a' :: l2.
Proof.
  induction l as [|x l IH]; simpl; intros Hnd Hf; [discriminate|].
  inversion Hnd as [|? ? Hnotin Hnd']; subst.
  destruct (key x =? k) eqn:Hx.
  - inversion Hf; subst x. apply Z.eqb_eq in Hx.
    exists [], l. split; [reflexivity|]. simpl.
    rewrite map_replace_absent; [reflexivity | congruence].
  - destruct (IH Hnd' Hf) as [l1 [l2 [El Em]]].
    exists (x :: l1), l2. simpl. now rewrite Em, El at 1.
Qed.

End ReplaceByKey.

Lemma NoDup_snoc {A} (l : list A) (x : A) :
  NoDup l -> ~ In x l -> NoDup (l ++ [x]).
Proof.
  intros Hl Hx. apply NoDup_rev in Hl.
  rewrite <- (rev_involutive (l ++ [x])). apply NoDup_rev.
  rewrite rev_app_distr. simpl. constructor; [|exact Hl].
  now rewrite <- in_rev.
Qed.


Lemma updateProfile_existing (db : DB) (userId : Z) (data : Prisma.ProfileData)
    (u : User) (p : Profile) :
  Prisma.userById db userId = Some u ->
  Prisma.profileOfUser db userId = Some p ->
  UsersService.updateProfile userId data db
  = (Ok (updatedProfile p data),
     set_profiles (map (fun x => if profile_userId x =? userId
                                 then updatedProfile p data else x)
                       (profiles db))
                  (nextProfileId db) db).
Proof.
  intros Hu Hp.
  unfold UsersService.updateProfile, bind, Prisma.reads.
  rewrite Hu. simpl.
  pose proof (userById_id _ _ _ Hu) as [Hid _]. rewrite Hid, Hp.
  unfold Prisma.profile_update. now rewrite Hp.
Qed.





(* ------------------------------------------------------------------ *)
(** ** Posts: findByCategory *)

Lemma linked_iff (db : DB) (categoryId : Z) (p : Post) :
  existsb (fun j => pc_categoryId j =? categoryId)
          (Prisma.joinsOfPost db (post_id p)) = true
  <-> exists j, In j (postCategories db)
                /\ pc_postId j = post_id p /\ pc_categoryId j = categoryId.
Proof.
  rewrite existsb_exists. unfold Prisma.joinsOfPost.
  split; intros [j Hj]; exists j.
  - destruct Hj as [Hin Hc]. apply filter_In in Hin. destruct Hin as [Hin Hp].
    apply Z.eqb_eq in Hc. apply Z.eqb_eq in Hp. auto.
  - destruct Hj as [Hin [Hp Hc]]. split.
    + apply filter_In. split; [exact Hin|]. now apply Z.eqb_eq.
    + now apply Z.eqb_eq.
Qed.

(** C9.  [findByCategory] answers, without writing, a list of posts (each
    with its author and categories attached) in which a post row occurs
    exactly when it is in the post table and some join row carries both its
    id and the given category id. *)
Theorem C9_findByCategory_existential_filter :
  forall (db : DB) (categoryId : Z),
  exists l,
    PostsService.findByCategory categoryId db = (Ok l, db)
    /\ forall p : Post,
         In p (map PostsService.pac_post l)
         <-> (In p (posts db)
              /\ exists j, In j (postCategories db)
                           /\ pc_postId j = post_id p
                           /\ pc_categoryId j = categoryId).
Proof.
  intros db categoryId. eexists. split; [reflexivity|].
  intros p. rewrite map_map. simpl. rewrite map_id.
  rewrite filter_In. now rewrite linked_iff.
Qed.

Example findByCategory_tagged :
  map (fun r => post_id (PostsService.pac_post r))
      (match fst (PostsService.findByCategory 1 Scenario.commented) with
       | Ok l => l
       | Err _ => []
       end) = [1]
  /\ fst (PostsService.findByCategory 2 Scenario.commented) = Ok [].
Proof. split; reflexivity. Qed.

(* ------------------------------------------------------------------ *)
(** ** Comments, newest first *)

Lemma StronglySorted_map {A B} (R : B -> B -> Prop) (f : A -> B) (l : list A) :
  StronglySorted (fun a b => R (f a) (f b)) l -> StronglySorted R (map f l).
Proof.
  induction 1 as [|a l Hs IH Hall]; simpl; constructor; [exact IH|].
  apply Forall_map. exact Hall.
Qed.

Lemma sorted_under_map {A B} (E : Engine) (key : A -> Z) (key' : B -> Z)
    (f : A -> B) (l : list A) :
  EngineOk E ->
  (forall a, key' (f a) = key a) ->
  StronglySorted (descBy key') (map f (sortDesc E key l)).
Proof.
  intros HE Hk. apply StronglySorted_map.
  pose proof (sortDesc_sorted E HE A key l) as Hs.
  induction Hs as [|a l' Hs IH Hall]; constructor; [exact IH|].
  eapply Forall_impl; [|exact Hall].
  unfold descBy. intros b. now rewrite !Hk.
Qed.

(** C8.  With an engine that honours [ORDER BY ... DESC]: the [comments] of
    the object [PostsService.findOne] answers for an existing post are the
    comment rows of that post, each once, in descending order of
    [createdAt]; [findByPost] and [findByUser] answer the comment rows of the
    post, respectively of the user, in descending order of [createdAt]. *)
Theorem C8_comments_newest_first :
  forall (E : Engine), EngineOk E ->
  forall (db : DB) (id : Z),
    (forall post,
        Prisma.postById db id = Some post ->
        exists r,
          PostsService.findOne E id db = (Ok r, db)
          /\ PostsService.pwr_post r = post
          /\ StronglySorted (descBy (fun c => comment_createdAt (cwa_comment c)))
                            (PostsService.pwr_comments r)
          /\ Permutation (Prisma.commentsOfPost db id)
                         (map cwa_comment (PostsService.pwr_comments r)))
    /\ (exists l,
           CommentsService.findByPost E id db = (Ok l, db)
           /\ StronglySorted
                (descBy (fun c => comment_createdAt (CommentsService.cpf_comment c)))
                l
           /\ Permutation (Prisma.commentsOfPost db id)
                          (map CommentsService.cpf_comment l))
    /\ (exists l,
           CommentsService.findByUser E id db = (Ok l, db)
           /\ StronglySorted
                (descBy (fun c => comment_createdAt (CommentsService.cwpo_comment c)))
                l
           /\ Permutation (Prisma.commentsOfAuthor db id)
                          (map CommentsService.cwpo_comment l)).
Proof.
  intros E HE db id. split; [|split].
  - intros post Hpost.
    pose proof (postById_id _ _ _ Hpost) as [Hid _].
    eexists. split.
    { unfold PostsService.findOne, bind, Prisma.reads. rewrite Hpost.
      reflexivity. }
    simpl. split; [reflexivity|]. rewrite Hid. split.
    + now apply sorted_under_map.
    + rewrite map_map. simpl. rewrite map_id. now apply sortDesc_perm.
  - eexists. split; [reflexivity|]. split.
    + now apply sorted_under_map.
    + rewrite map_map. simpl. rewrite map_id. now apply sortDesc_perm.
  - eexists. split; [reflexivity|]. split.
    + now apply sorted_under_map.
    + rewrite map_map. simpl. rewrite map_id. now apply sortDesc_perm.
Qed.

Lemma C8_comments_newest_first_witness :
  EngineOk stableEngine
  /\ Prisma.postById Scenario.commented 1 <> None
  /\ (exists r,
         fst (PostsService.findOne stableEngine 1 Scenario.commented) = Ok r
         /\ map (fun c => comment_createdAt (cwa_comment c))
                (PostsService.pwr_comments r) = [5; 5; 0])
  /\ (exists l,
         fst (CommentsService.findByPost stableEngine 1 Scenario.commented)
         = Ok l
         /\ StronglySorted
              (descBy (fun c => comment_createdAt (CommentsService.cpf_comment c)))
              l).
Proof.
  pose proof (C8_comments_newest_first stableEngine stableEngine_ok
                Scenario.commented 1) as [Hone [Hpost _]].
  split; [exact stableEngine_ok|]. split; [discriminate|]. split.
  - destruct (Hone _ eq_refl) as [r [Hr _]].
    exists r. rewrite Hr. split; [reflexivity|].
    inversion Hr. reflexivity.
  - destruct Hpost as [l [Hl [Hs _]]].
    exists l. rewrite Hl. split; [reflexivity | exact Hs].
Defined.

(* ------------------------------------------------------------------ *)
(** ** Categories: getPopularCategories *)





Example engines_differ_on_ties :
  let ids E :=
    match fst (CategoriesService.getPopularCategories E None
                 Scenario.twoCategories) with
    | Ok l => map (fun c => category_id (CategoriesService.cwc_category c)) l
    | Err _ => []
    end in
  ids stableEngine = [1; 2] /\ ids reverseEngine = [2; 1].
Proof. split; reflexivity. Qed.


(* ------------------------------------------------------------------ *)
(** ** Posts: addCategories *)

Lemma hasPair_In (l : list PostCategory) (postId categoryId : Z) :
  Prisma.hasPair l postId categoryId = true
  <-> In (postId, categoryId) (map pairOf l).
Proof.
  unfold Prisma.hasPair. rewrite existsb_exists, in_map_iff.
  split; intros [j Hj]; exists j.
  - destruct Hj as [Hin Hb]. apply andb_true_iff in Hb. destruct Hb as [Hp Hc].
    apply Z.eqb_eq in Hp. apply Z.eqb_eq in Hc.
    unfold pairOf. split; [congruence | exact Hin].
  - destruct Hj as [Hb Hin]. unfold pairOf in Hb. inversion Hb; subst.
    split; [exact Hin|]. now rewrite !Z.eqb_refl.
Qed.

Lemma hasPair_false (l : list PostCategory) (postId categoryId : Z) :
  Prisma.hasPair l postId categoryId = false
  <-> ~ In (postId, categoryId) (map pairOf l).
Proof.
  rewrite <- hasPair_In. destruct (Prisma.hasPair l postId categoryId).
  - split; [discriminate | tauto].
  - split; [discriminate | reflexivity].
Qed.

Section InsertSkippingDuplicates.
Variable createdAt : Z.

(** The old rows stay where they are; each appended row carries a pair that
    was asked for and that neither the old table nor the rows appended
    before it held. *)
Lemma ins_appends (rows : list (Z * Z)) :
  forall (tbl : list PostCategory) (next : Z),
  exists added,
    fst (Prisma.insertSkippingDuplicates rows tbl next createdAt) = tbl ++ added
    /\ NoDup (map pairOf added)
    /\ forall j, In j added ->
         In (pairOf j) rows /\ ~ In (pairOf j) (map pairOf tbl).
Proof.
  induction rows as [|[p c] rest IH]; intros tbl next; simpl.
  - exists []. rewrite app_nil_r. repeat split; try constructor.
    all: destruct H.
  - destruct (Prisma.hasPair tbl p c) eqn:Hh.
    + destruct (IH tbl next) as [added [Ht [Hnd Hadd]]].
      exists added. repeat split; auto.
      * right. now apply Hadd.
      * now apply Hadd.
    + set (new := mkPostCategory next p c createdAt).
      destruct (IH (tbl ++ [new]) (next + 1)) as [added [Ht [Hnd Hadd]]].
      exists (new :: added). split; [|split].
      * rewrite Ht, <- app_assoc. reflexivity.
      * simpl. constructor; [|exact Hnd].
        intros Hin. apply in_map_iff in Hin. destruct Hin as [j [Hj Hin]].
        destruct (Hadd j Hin) as [_ Hfresh]. apply Hfresh.
        rewrite map_app, in_app_iff. right. simpl. left. now rewrite Hj.
      * intros j [Hj|Hj].
        -- subst j. simpl. split; [now left|]. now apply hasPair_false.
        -- destruct (Hadd j Hj) as [Hrow Hfresh]. split; [now right|].
           intros Hin. apply Hfresh. rewrite map_app, in_app_iff. now left.
Qed.

Lemma ins_keeps_pairs_unique (rows : list (Z * Z)) :
  forall (tbl : list PostCategory) (next : Z),
    NoDup (map pairOf tbl) ->
    NoDup (map pairOf
             (fst (Prisma.insertSkippingDuplicates rows tbl next createdAt))).
Proof.
  intros tbl next Hnd.
  destruct (ins_appends rows tbl next) as [added [Ht [Hnd' Hadd]]].
  rewrite Ht, map_app. apply NoDup_app; [exact Hnd | exact Hnd' |].
  intros x Hx Hx'. apply in_map_iff in Hx'. destruct Hx' as [j [Hj Hin]].
  destruct (Hadd j Hin) as [_ Hfresh]. subst x. contradiction.
Qed.

(** Afterwards every pair that was asked for is in the table. *)
Lemma ins_covers (rows : list (Z * Z)) :
  forall (tbl : list PostCategory) (next : Z) (p c : Z),
    In (p, c) rows \/ In (p, c) (map pairOf tbl) ->
    In (p, c) (map pairOf (fst (Prisma.insertSkippingDuplicates rows tbl next createdAt))).
Proof.
  induction rows as [|[p' c'] rest IH]; intros tbl next p c H; simpl.
  - destruct H as [[]|H]. exact H.
  - destruct (Prisma.hasPair tbl p' c') eqn:Hh.
    + apply IH. destruct H as [[H|H]|H]; auto.
      inversion H; subst. right. now apply hasPair_In.
    + apply IH. rewrite map_app, in_app_iff. simpl.
      destruct H as [[H|H]|H]; auto.
Qed.

(** A table that holds every pair asked for is left as it is. *)
Lemma ins_nothing_to_do (rows : list (Z * Z)) (tbl : list PostCategory)
    (next : Z) :
  (forall p c, In (p, c) rows -> In (p, c) (map pairOf tbl)) ->
  Prisma.insertSkippingDuplicates rows tbl next createdAt = (tbl, next).
Proof.
  induction rows as [|[p c] rest IH]; intros H; simpl; [reflexivity|].
  replace (Prisma.hasPair tbl p c) with true.
  - apply IH. intros p' c' Hin. apply H. now right.
  - symmetry. apply hasPair_In, H. now left.
Qed.

End InsertSkippingDuplicates.

Lemma posts_findOne_found (E : Engine) (db : DB) (id : Z) (p : Post) :
  Prisma.postById db id = Some p ->
  PostsService.findOne E id db = (Ok (PostsService.includeRelations E db p), db).
Proof.
  intros H. unfold PostsService.findOne, bind, Prisma.reads. now rewrite H.
Qed.

(** The two ways [addCategories] can end: nothing written and an error, or
    the join table extended by [createMany] and the post read back. *)
Lemma addCategories_cases (E : Engine) (db : DB) (postId : Z)
    (categoryIds : list Z) :
  let rows := map (fun categoryId => (postId, categoryId)) categoryIds in
  let r := PostsService.addCategories E postId categoryIds db in
  (snd r = db /\ exists e, fst r = Err e)
  \/ (exists post,
        fst r = Ok post
        /\ forallb (Prisma.joinRowResolves db) rows = true
        /\ snd r = set_postCategories
                     (fst (Prisma.insertSkippingDuplicates rows
                             (postCategories db) (nextPostCategoryId db)
                             (now db)))
                     (snd (Prisma.insertSkippingDuplicates rows
                             (postCategories db) (nextPostCategoryId db)
                             (now db)))
                     db).
Proof.
  intros rows r. subst r. unfold PostsService.addCategories, bind.
  destruct (Prisma.postById db postId) as [p|] eqn:Hp.
  - rewrite (posts_findOne_found E db postId p Hp).
    unfold Prisma.postCategory_createMany_skipDuplicates. fold rows.
    destruct (forallb (Prisma.joinRowResolves db) rows) eqn:Hfk.
    + right.
      destruct (Prisma.insertSkippingDuplicates rows (postCategories db)
                  (nextPostCategoryId db) (now db)) as [tbl next] eqn:Hins.
      rewrite (posts_findOne_found E _ postId p) by exact Hp.
      eexists. simpl. auto.
    + left. simpl. eauto.
  - rewrite (posts_findOne_missing E db postId Hp). left. simpl. eauto.
Qed.

Lemma rows_of_post (postId : Z) (categoryIds : list Z) (p c : Z) :
  In (p, c) (map (fun categoryId => (postId, categoryId)) categoryIds)
  <-> p = postId /\ In c categoryIds.
Proof.
  rewrite in_map_iff. split.
  - intros [x [Hx Hin]]. inversion Hx; subst. auto.
  - intros [Hp Hin]. subst. now exists c.
Qed.

(** C4.  For every post id and list of category ids, [addCategories] leaves
    the old join rows in place and appends rows only for pairs
    [(postId, categoryId)] that were asked for and that the table did not
    hold, one row per pair; a table without duplicate pairs stays without
    duplicate pairs; when the call succeeds every category asked for is
    attached, and it does succeed when the post and the categories exist;
    and the same call made again leaves the join table exactly as the first
    call left it. *)
Theorem C4_addCategories_idempotent :
  forall (E : Engine) (db : DB) (postId : Z) (categoryIds : list Z),
    let r := PostsService.addCategories E postId categoryIds db in
    (exists added,
        postCategories (snd r) = postCategories db ++ added
        /\ NoDup (map pairOf added)
        /\ forall j, In j added ->
             pc_postId j = postId
             /\ In (pc_categoryId j) categoryIds
             /\ Prisma.hasPair (postCategories db) postId (pc_categoryId j)
                = false)
    /\ (NoDuplicatePairs db -> NoDuplicatePairs (snd r))
    /\ (forall post, fst r = Ok post ->
          forall c, In c categoryIds ->
            Prisma.hasPair (postCategories (snd r)) postId c = true)
    /\ (Prisma.postById db postId <> None ->
        (forall c, In c categoryIds -> Prisma.categoryById db c <> None) ->
        exists post, fst r = Ok post)
    /\ postCategories
         (snd (PostsService.addCategories E postId categoryIds (snd r)))
       = postCategories (snd r).
Proof.
  intros E db postId categoryIds r.
  set (rows := map (fun categoryId => (postId, categoryId)) categoryIds).
  pose proof (addCategories_cases E db postId categoryIds) as Hcases.
  simpl in Hcases. fold r in Hcases. fold rows in Hcases.
  split; [|split; [|split; [|split]]].
  - destruct Hcases as [[Hdb _]|[post [_ [_ Hdb]]]]; rewrite Hdb.
    + exists []. rewrite app_nil_r. repeat split; try constructor.
      all: destruct H.
    + simpl.
      destruct (ins_appends (now db) rows (postCategories db)
                  (nextPostCategoryId db)) as [added [Ht [Hnd Hadd]]].
      exists added. split; [exact Ht|]. split; [exact Hnd|].
      intros j Hj. destruct (Hadd j Hj) as [Hrow Hfresh].
      unfold pairOf in Hrow, Hfresh. apply rows_of_post in Hrow.
      destruct Hrow as [Hp Hc]. repeat split; auto.
      apply hasPair_false. now rewrite <- Hp.
  - unfold NoDuplicatePairs. intros Hnd.
    destruct Hcases as [[Hdb _]|[post [_ [_ Hdb]]]]; rewrite Hdb;
      [exact Hnd|].
    simpl. now apply ins_keeps_pairs_unique.
  - intros post Hok c Hc.
    destruct Hcases as [[_ [e He]]|[post' [_ [_ Hdb]]]]; [congruence|].
    rewrite Hdb. simpl. apply hasPair_In, ins_covers. left.
    apply rows_of_post. auto.
  - intros Hpost Hcats.
    destruct Hcases as [[_ [e He]]|[post [Hok _]]]; [|now exists post].
    exfalso. unfold r, PostsService.addCategories, bind in He.
    destruct (Prisma.postById db postId) as [p|] eqn:Hp; [|congruence].
    rewrite (posts_findOne_found E db postId p Hp) in He.
    unfold Prisma.postCategory_createMany_skipDuplicates in He.
    fold rows in He.
    replace (forallb (Prisma.joinRowResolves db) rows) with true in He.
    + destruct (Prisma.insertSkippingDuplicates rows (postCategories db)
                  (nextPostCategoryId db) (now db)) as [tbl next].
      rewrite (posts_findOne_found E _ postId p) in He by exact Hp.
      discriminate He.
    + symmetry. apply forallb_forall. intros [p' c'] Hin.
      apply rows_of_post in Hin. destruct Hin as [Hp' Hc']. subst p'.
      unfold Prisma.joinRowResolves.
      apply orb_true_iff. right. apply andb_true_iff. split.
      * eapply find_some_existsb. exact Hp.
      * specialize (Hcats c' Hc').
        destruct (Prisma.categoryById db c') as [cat|] eqn:Hcat; [|congruence].
        eapply find_some_existsb. exact Hcat.
  - destruct Hcases as [[Hdb _]|[post [_ [_ Hdb]]]].
    + rewrite Hdb. fold r. now rewrite Hdb.
    + pose proof (addCategories_cases E (snd r) postId categoryIds) as Hagain.
      simpl in Hagain. fold rows in Hagain.
      destruct Hagain as [[Hsame _]|[post' [_ [_ Hsame]]]];
        rewrite Hsame; [reflexivity|].
      simpl. rewrite Hdb. simpl.
      rewrite ins_nothing_to_do; [reflexivity|].
      intros p c Hin. apply ins_covers. now left.
Qed.

Lemma C4_addCategories_witness :
  NoDuplicatePairs Scenario.tagged
  /\ Prisma.postById Scenario.tagged 1 <> None
  /\ (forall c, In c [1; 2; 2] -> Prisma.categoryById Scenario.tagged c <> None)
  /\ (exists post,
         fst (PostsService.addCategories stableEngine 1 [1; 2; 2]
                                         Scenario.tagged) = Ok post)
  /\ NoDuplicatePairs
       (snd (PostsService.addCategories stableEngine 1 [1; 2; 2]
                                        Scenario.tagged))
  /\ map pairOf
         (postCategories
            (snd (PostsService.addCategories stableEngine 1 [1; 2; 2]
                                             Scenario.tagged)))
     = [(1, 1); (1, 2)].
Proof.
  assert (Hnd : NoDuplicatePairs Scenario.tagged)
    by (repeat constructor; simpl; tauto).
  assert (Hcats : forall c, In c [1; 2; 2] ->
                            Prisma.categoryById Scenario.tagged c <> None).
  { intros c [H|[H|[H|[]]]]; subst c; discriminate. }
  destruct (C4_addCategories_idempotent stableEngine Scenario.tagged 1
              [1; 2; 2]) as [_ [Hkeep [_ [Hok _]]]].
  split; [exact Hnd|]. split; [discriminate|]. split; [exact Hcats|].
  split; [apply Hok; [discriminate | exact Hcats]|].
  split; [exact (Hkeep Hnd) | reflexivity].
Defined.

(* ------------------------------------------------------------------ *)
(** ** Statistics endpoints *)

Lemma users_findOne_found (db : DB) (id : Z) (u : User) :
  Prisma.userById db id = Some u ->
  UsersService.findOne id db = (Ok (UsersService.includeRelations db u), db).
Proof.
  intros H. unfold UsersService.findOne, bind, Prisma.reads. now rewrite H.
Qed.

Lemma categories_findOne_found (db : DB) (id : Z) (c : Category) :
  Prisma.categoryById db id = Some c ->
  CategoriesService.findOne id db
  = (Ok (CategoriesService.includePosts db c), db).
Proof.
  intros H. unfold CategoriesService.findOne, bind, Prisma.reads.
  now rewrite H.
Qed.

Lemma categoryById_id (db : DB) (id : Z) (c : Category) :
  Prisma.categoryById db id = Some c -> category_id c = id /\ In c (categories db).
Proof.
  intros H. apply find_some in H. destruct H as [Hin Hid].
  apply Z.eqb_eq in Hid. auto.
Qed.





Lemma take_incl {A} (n : Z) (l : list A) (x : A) : In x (take n l) -> In x l.
Proof.
  unfold take. destruct (0 <=? n); intros H.
  - rewrite <- (firstn_skipn (Z.to_nat n) l). apply in_or_app. now left.
  - rewrite <- (firstn_skipn (List.length l - Z.to_nat (- n)) l).
    apply in_or_app. now right.
Qed.

(** X3.  The two category endpoints count alike: with an engine that
    honours [ORDER BY], every entry of [getPopularCategories], whatever the
    limit, is a category of the table, and [getCategoryStats] on its id
    succeeds with [totalPosts] equal to the entry's post count, the number
    of join rows carrying the id. *)
Theorem X3_category_stats_agree_with_popular :
  forall (E : Engine), EngineOk E ->
  forall (db : DB) (limit : option Z) res entry,
    fst (CategoriesService.getPopularCategories E limit db) = Ok res ->
    In entry res ->
    In (CategoriesService.cwc_category entry) (categories db)
    /\ CategoriesService.cwc_count entry
       = List.length
           (filter (fun j => pc_categoryId j
                             =? category_id (CategoriesService.cwc_category entry))
                   (postCategories db))
    /\ exists st,
         CategoriesService.getCategoryStats
           (category_id (CategoriesService.cwc_category entry)) db
         = (Ok st, db)
         /\ CategoriesService.cs_id st
            = category_id (CategoriesService.cwc_category entry)
         /\ CategoriesService.cs_totalPosts st
            = CategoriesService.cwc_count entry.
Proof.
  intros E HE db limit res entry Hres Hin.
  unfold CategoriesService.getPopularCategories, Prisma.reads in Hres.
  simpl in Hres. inversion Hres as [Hres']. clear Hres.
  rewrite <- Hres' in Hin. apply take_incl in Hin.
  eapply Permutation_in in Hin;
    [|apply Permutation_sym; now apply sortDesc_perm].
  apply in_map_iff in Hin. destruct Hin as [c [Hc Hin]]. subst entry. simpl.
  split; [exact Hin|]. split; [reflexivity|].
  destruct (Prisma.categoryById db (category_id c)) as [c'|] eqn:Hfind.
  - destruct (categoryById_id _ _ _ Hfind) as [Hid _].
    unfold CategoriesService.getCategoryStats, bind.
    rewrite (categories_findOne_found db _ c' Hfind). simpl.
    eexists. split; [reflexivity|]. simpl. split; [exact Hid|].
    rewrite length_map, Hid. reflexivity.
  - exfalso. eapply find_none in Hfind; [|exact Hin]. simpl in Hfind.
    now rewrite Z.eqb_refl in Hfind.
Qed.

Lemma X3_category_stats_witness :
  EngineOk stableEngine
  /\ exists res entry st,
       fst (CategoriesService.getPopularCategories stableEngine (Some 1)
                                                   Scenario.commented) = Ok res
       /\ In entry res
       /\ fst (CategoriesService.getCategoryStats 1 Scenario.commented) = Ok st
       /\ CategoriesService.cs_totalPosts st = 1%nat.
Proof.
  split; [exact stableEngine_ok|].
  pose (entry := CategoriesService.mkCategoryWithCount
                   (mkCategory 1 "Tutorial" "tutorial") 1).
  destruct (X3_category_stats_agree_with_popular stableEngine stableEngine_ok
              Scenario.commented (Some 1) [entry] entry eq_refl
              (or_introl eq_refl)) as [_ [_ [st [Hst [_ Htotal]]]]].
  exists [entry], entry, st. split; [reflexivity|]. split; [now left|].
  simpl in Hst. rewrite Hst. split; [reflexivity | exact Htotal].
Defined.

(* ------------------------------------------------------------------ *)
(** ** Categories: create, findBySlug *)

Lemma categories_create_outcome (db : DB) (data : Prisma.CategoryCreateInput) :
  let taken :=
    existsb (fun c => String.eqb (category_name c) (Prisma.cc_name data)
                      || String.eqb (category_slug c) (Prisma.cc_slug data))
            (categories db) in
  let c := mkCategory (nextCategoryId db) (Prisma.cc_name data)
                      (Prisma.cc_slug data) in
  CategoriesService.create data db
  = if taken
    then (Err (ConflictException CategoriesService.alreadyExists), db)
    else (Ok c, set_categories (categories db ++ [c]) (nextCategoryId db + 1) db).
Proof.
  simpl. unfold CategoriesService.create, try_catch, Prisma.category_create.
  destruct (existsb _ (categories db)); reflexivity.
Qed.

Lemma find_app_none {A} (f : A -> bool) (l : list A) (x : A) :
  find f l = None -> find f (l ++ [x]) = if f x then Some x else None.
Proof.
  induction l as [|y l IH]; simpl; [reflexivity|].
  destruct (f y); [discriminate | exact IH].
Qed.

(** X4.  [CategoriesService.create] fails with the conflict exception,
    writing nothing, exactly when some category already has the name or the
    slug.  After a create that succeeded, [findBySlug] on the new slug
    answers the created category, and a second create that repeats its name
    or its slug is a conflict that writes nothing. *)
Theorem X4_category_create_then_lookup :
  forall (db : DB) (data : Prisma.CategoryCreateInput),
    ((exists c, In c (categories db)
                /\ (category_name c = Prisma.cc_name data
                    \/ category_slug c = Prisma.cc_slug data))
     -> CategoriesService.create data db
        = (Err (ConflictException
                  "Category with this name or slug already exists"), db))
    /\ ((forall c, In c (categories db) ->
           category_name c <> Prisma.cc_name data
           /\ category_slug c <> Prisma.cc_slug data)
        -> exists created db',
             CategoriesService.create data db = (Ok created, db')
             /\ category_name created = Prisma.cc_name data
             /\ category_slug created = Prisma.cc_slug data
             /\ categories db' = categories db ++ [created]
             /\ (exists r,
                    CategoriesService.findBySlug (Prisma.cc_slug data) db'
                    = (Ok r, db')
                    /\ CategoriesService.cpa_category r = created)
             /\ (forall again,
                    Prisma.cc_name again = Prisma.cc_name data
                    \/ Prisma.cc_slug again = Prisma.cc_slug data ->
                    CategoriesService.create again db'
                    = (Err (ConflictException
                              "Category with this name or slug already exists"),
                       db'))).
Proof.
  intros db data. pose proof (categories_create_outcome db data) as Hout.
  simpl in Hout. split.
  - intros [c [Hin Hc]]. rewrite Hout.
    replace (existsb _ (categories db)) with true; [reflexivity|].
    symmetry. apply existsb_exists. exists c. split; [exact Hin|].
    apply orb_true_iff. destruct Hc as [Hc|Hc]; [left|right];
      now apply String.eqb_eq.
  - intros Hfree. rewrite Hout.
    replace (existsb _ (categories db)) with false.
    2:{ symmetry. apply not_true_iff_false. intros Hex.
        apply existsb_exists in Hex. destruct Hex as [c [Hin Hc]].
        destruct (Hfree c Hin) as [Hn Hs].
        apply orb_true_iff in Hc. destruct Hc as [Hc|Hc];
          apply String.eqb_eq in Hc; contradiction. }
    do 2 eexists. split; [reflexivity|]. simpl.
    split; [reflexivity|]. split; [reflexivity|]. split; [reflexivity|].
    split.
    + unfold CategoriesService.findBySlug, bind, Prisma.reads,
        CategoriesService.categoryBySlug. simpl.
      rewrite find_app_none.
      * simpl. rewrite String.eqb_refl. simpl. eexists. split; reflexivity.
      * apply find_none_iff. apply not_true_iff_false. intros Hex.
        apply existsb_exists in Hex. destruct Hex as [c [Hin Hc]].
        apply String.eqb_eq in Hc. destruct (Hfree c Hin). contradiction.
    + intros again Hagain.
      rewrite (categories_create_outcome _ again). simpl.
      rewrite existsb_app. simpl.
      replace (String.eqb (Prisma.cc_name data) (Prisma.cc_name again)
               || String.eqb (Prisma.cc_slug data) (Prisma.cc_slug again))
        with true; [now rewrite orb_true_r|].
      symmetry. apply orb_true_iff.
      destruct Hagain as [H|H]; [left|right]; now apply String.eqb_eq.
Qed.

Lemma X4_category_create_witness :
  (forall c, In c (categories Scenario.twoCategories) ->
     category_name c <> "Web Development" /\ category_slug c <> "web-development")
  /\ (exists c, In c (categories Scenario.twoCategories)
                /\ (category_name c = "Tutorial" \/ category_slug c = "x"))
  /\ fst (CategoriesService.create
            (Prisma.mkCategoryCreateInput "Tutorial" "x") Scenario.twoCategories)
     = Err (ConflictException "Category with this name or slug already exists")
  /\ exists created,
       fst (CategoriesService.create
              (Prisma.mkCategoryCreateInput "Web Development" "web-development")
              Scenario.twoCategories) = Ok created
       /\ category_id created = 3.
Proof.
  assert (Hfree : forall c, In c (categories Scenario.twoCategories) ->
            category_name c <> "Web Development"
            /\ category_slug c <> "web-development").
  { intros c [H|[H|[]]]; subst c; split; discriminate. }
  assert (Htaken : exists c, In c (categories Scenario.twoCategories)
                             /\ (category_name c = "Tutorial"
                                 \/ category_slug c = "x")).
  { eexists. split; [left; reflexivity | left; reflexivity]. }
  destruct (X4_category_create_then_lookup Scenario.twoCategories
              (Prisma.mkCategoryCreateInput "Web Development" "web-development"))
    as [_ Hok].
  destruct (X4_category_create_then_lookup Scenario.twoCategories
              (Prisma.mkCategoryCreateInput "Tutorial" "x")) as [Hconf _].
  split; [exact Hfree|]. split; [exact Htaken|]. split.
  - now rewrite (Hconf Htaken).
  - destruct (Hok Hfree) as [created [db' [Hc _]]].
    exists created. rewrite Hc. split; [reflexivity|].
    vm_compute in Hc. inversion Hc. reflexivity.
Defined.

(* ------------------------------------------------------------------ *)
(** ** Posts: removeCategory *)


Lemma filter_all {A} (f : A -> bool) (l : list A) :
  (forall x, In x l -> f x = true) -> filter f l = l.
Proof.
  induction l as [|x l IH]; simpl; intros H; [reflexivity|].
  rewrite (H x (or_introl eq_refl)). rewrite IH; [reflexivity|]. auto.
Qed.

Lemma filter_none {A} (f : A -> bool) (l : list A) :
  (forall x, In x l -> f x = false) -> filter f l = [].
Proof.
  induction l as [|x l IH]; simpl; intros H; [reflexivity|].
  rewrite (H x (or_introl eq_refl)). apply IH. auto.
Qed.

(** The rows [deleteMany({ where: { postId, categoryId } })] keeps. *)
Lemma removeCategory_store (E : Engine) (db : DB) (postId categoryId : Z) :
  snd (PostsService.removeCategory E postId categoryId db)
  = set_postCategories
      (filter (fun j => negb ((pc_postId j =? postId)
                              && (pc_categoryId j =? categoryId)))
              (postCategories db))
      (nextPostCategoryId db) db.
Proof.
  unfold PostsService.removeCategory, bind, Prisma.postCategory_deleteMany.
  unfold PostsService.findOne, bind, Prisma.reads. simpl.
  match goal with |- context [Prisma.postById ?d postId] =>
    destruct (Prisma.postById d postId) end; reflexivity.
Qed.



Example removeCategory_unknown_post_still_deletes :
  let db := set_posts [] 2 Scenario.tagged in
  postCategories db <> []
  /\ PostsService.removeCategory stableEngine 1 1 db
     = (Err (NotFoundException "Post with ID 1 not found"),
        set_postCategories [] 2 db).
Proof. split; [discriminate | reflexivity]. Qed.

(** X6.  Tagging and untagging cancel: when the post does not carry the
    category, [addCategories] with that one category followed by
    [removeCategory] leaves the join table as it was before the two calls,
    whether the tagging succeeded or not. *)
Theorem X6_removeCategory_undoes_addCategories :
  forall (E : Engine) (db : DB) (postId categoryId : Z),
    Prisma.hasPair (postCategories db) postId categoryId = false ->
    postCategories
      (snd (PostsService.removeCategory E postId categoryId
              (snd (PostsService.addCategories E postId [categoryId] db))))
    = postCategories db.
Proof.
  intros E db postId categoryId Hfresh.
  rewrite removeCategory_store. simpl.
  assert (Hold : filter (fun j => negb ((pc_postId j =? postId)
                                        && (pc_categoryId j =? categoryId)))
                        (postCategories db) = postCategories db).
  { apply filter_all. intros j Hin.
    destruct ((pc_postId j =? postId) && (pc_categoryId j =? categoryId))
      eqn:Hj; [|reflexivity].
    exfalso. unfold Prisma.hasPair in Hfresh.
    apply not_true_iff_false in Hfresh. apply Hfresh.
    apply existsb_exists. now exists j. }
  destruct (addCategories_cases E db postId [categoryId])
    as [[Hdb _]|[post [_ [_ Hdb]]]]; rewrite Hdb.
  - exact Hold.
  - simpl.
    destruct (ins_appends (now db) [(postId, categoryId)] (postCategories db)
                (nextPostCategoryId db)) as [added [Ht [_ Hadd]]].
    simpl in Ht. rewrite Ht, filter_app, Hold.
    rewrite filter_none; [apply app_nil_r|].
    intros j Hj. destruct (Hadd j Hj) as [[Hrow|[]] _].
    unfold pairOf in Hrow. inversion Hrow. now rewrite !Z.eqb_refl.
Qed.

Lemma X6_removeCategory_undoes_witness :
  Prisma.hasPair (postCategories Scenario.tagged) 1 2 = false
  /\ postCategories (snd (PostsService.addCategories stableEngine 1 [2]
                                                     Scenario.tagged))
     <> postCategories Scenario.tagged
  /\ postCategories
       (snd (PostsService.removeCategory stableEngine 1 2
               (snd (PostsService.addCategories stableEngine 1 [2]
                                                Scenario.tagged))))
     = postCategories Scenario.tagged.
Proof.
  split; [reflexivity|]. split; [discriminate|].
  exact (X6_removeCategory_undoes_addCategories stableEngine Scenario.tagged
           1 2 eq_refl).
Defined.


(* ------------------------------------------------------------------ *)
(** ** The list endpoints *)

Lemma matches_spec {A} (eqb : A -> A -> bool) (want : option A) (v : A) :
  (forall x y, eqb x y = true <-> x = y) ->
  Prisma.matches eqb want v = true <-> (forall w, want = Some w -> v = w).
Proof.
  intros Heqb. destruct want as [w|]; simpl.
  - rewrite Heqb. split.
    + intros Hv w' Hw. congruence.
    + intros H. now apply H.
  - split; [intros _ w Hw; discriminate | reflexivity].
Qed.

Lemma bool_eqb_iff (x y : bool) : Bool.eqb x y = true <-> x = y.
Proof. destruct x, y; simpl; split; congruence. Qed.

(** X7.  [PostsService.findAll] writes nothing and, with an engine that
    honours [ORDER BY], lists newest first exactly the posts that agree with
    every filter that was supplied: an omitted [published] or [authorId]
    (or an omitted [filters] object) filters nothing, so drafts are listed
    unless [published] is given.  Relations are attached to every item
    when [includeRelations] is [true] and to none otherwise. *)
Theorem X7_posts_findAll_filters :
  forall (E : Engine), EngineOk E ->
  forall (db : DB) (filters : option PostsService.PostFilters),
  exists l,
    PostsService.findAll E filters db = (Ok l, db)
    /\ StronglySorted
         (descBy (fun i => post_createdAt (PostsService.pli_post i))) l
    /\ (forall p,
          In p (map PostsService.pli_post l)
          <-> In p (posts db)
              /\ (forall b, PostsService.field filters PostsService.pf_published
                            = Some b -> post_published p = b)
              /\ (forall a, PostsService.field filters PostsService.pf_authorId
                            = Some a -> post_authorId p = a))
    /\ List.length l
       = List.length (filter (PostsService.selected filters) (posts db))
    /\ (forall i, In i l ->
          (PostsService.pli_relations i <> None
           <-> PostsService.field filters PostsService.pf_includeRelations
               = Some true)).
Proof.
  intros E HE db filters. eexists. split; [reflexivity|].
  split; [now apply sorted_under_map|].
  split.
  { intros p. rewrite map_map. simpl. rewrite map_id.
    split.
    - intros Hin.
      eapply Permutation_in in Hin;
        [|apply Permutation_sym; now apply sortDesc_perm].
      apply filter_In in Hin. destruct Hin as [Hin Hsel].
      unfold PostsService.selected in Hsel. apply andb_true_iff in Hsel.
      destruct Hsel as [Hpub Hauth].
      split; [exact Hin|]. split.
      * exact (proj1 (matches_spec _ _ _ bool_eqb_iff) Hpub).
      * exact (proj1 (matches_spec _ _ _ Z.eqb_eq) Hauth).
    - intros [Hin [Hpub Hauth]].
      eapply Permutation_in; [now apply sortDesc_perm|].
      apply filter_In. split; [exact Hin|].
      unfold PostsService.selected. apply andb_true_iff. split.
      + now apply (proj2 (matches_spec _ _ _ bool_eqb_iff)).
      + now apply (proj2 (matches_spec _ _ _ Z.eqb_eq)). }
  split.
  { rewrite length_map. symmetry. apply Permutation_length.
    now apply sortDesc_perm. }
  intros i Hi. apply in_map_iff in Hi. destruct Hi as [p [Hi _]]. subst i.
  simpl.
  destruct (PostsService.field filters PostsService.pf_includeRelations)
    as [[|]|]; simpl; split; congruence.
Qed.

Lemma X7_posts_findAll_witness :
  EngineOk stableEngine
  /\ (exists l,
        fst (PostsService.findAll stableEngine None Scenario.commented) = Ok l
        /\ map (fun i => post_id (PostsService.pli_post i)) l = [1])
  /\ fst (PostsService.findAll stableEngine
            (Some (PostsService.mkPostFilters (Some false) None None))
            Scenario.commented) = Ok [].
Proof.
  split; [exact stableEngine_ok|].
  destruct (X7_posts_findAll_filters stableEngine stableEngine_ok
              Scenario.commented None) as [l [Hl _]].
  destruct (X7_posts_findAll_filters stableEngine stableEngine_ok
              Scenario.commented
              (Some (PostsService.mkPostFilters (Some false) None None)))
    as [l' [Hl' [_ [_ [Hlen _]]]]].
  split.
  - exists l. rewrite Hl. split; [reflexivity|].
    inversion Hl. reflexivity.
  - rewrite Hl'. simpl. destruct l'; [reflexivity | discriminate Hlen].
Defined.

(** X8.  [CommentsService.findAll] writes nothing and, with an engine that
    honours [ORDER BY], lists newest first exactly the comments that agree
    with the supplied [postId] and [authorId]; with no filter it lists every
    comment, and with [postId] alone it lists the rows that [findByPost]
    lists for that post. *)
Theorem X8_comments_findAll_filters :
  forall (E : Engine), EngineOk E ->
  forall (db : DB) (filters : option CommentsService.CommentFilters),
  exists l,
    CommentsService.findAll E filters db = (Ok l, db)
    /\ StronglySorted
         (descBy (fun i => comment_createdAt (CommentsService.capa_comment i)))
         l
    /\ (forall c,
          In c (map CommentsService.capa_comment l)
          <-> In c (comments db)
              /\ (forall f p, filters = Some f ->
                    CommentsService.cf_postId f = Some p ->
                    comment_postId c = p)
              /\ (forall f a, filters = Some f ->
                    CommentsService.cf_authorId f = Some a ->
                    comment_authorId c = a))
    /\ (filters = None ->
        Permutation (comments db) (map CommentsService.capa_comment l))
    /\ (forall p byPost,
          filters = Some (CommentsService.mkCommentFilters (Some p) None) ->
          fst (CommentsService.findByPost E p db) = Ok byPost ->
          Permutation (map CommentsService.cpf_comment byPost)
                      (map CommentsService.capa_comment l)).
Proof.
  intros E HE db filters. eexists. split; [reflexivity|].
  split; [now apply sorted_under_map|].
  rewrite map_map. simpl. rewrite map_id.
  split.
  { intros c. split.
    - intros Hin.
      eapply Permutation_in in Hin;
        [|apply Permutation_sym; now apply sortDesc_perm].
      apply filter_In in Hin. destruct Hin as [Hin Hsel].
      unfold CommentsService.selected in Hsel. apply andb_true_iff in Hsel.
      destruct Hsel as [Hp Ha].
      pose proof (proj1 (matches_spec _ _ _ Z.eqb_eq) Hp) as Hpost.
      pose proof (proj1 (matches_spec _ _ _ Z.eqb_eq) Ha) as Hauthor.
      split; [exact Hin|]. split; intros f x Hf Hx; subst filters; auto.
    - intros [Hin [Hp Ha]].
      eapply Permutation_in; [now apply sortDesc_perm|].
      apply filter_In. split; [exact Hin|].
      unfold CommentsService.selected. apply andb_true_iff.
      split; apply (proj2 (matches_spec _ _ _ Z.eqb_eq)); intros w Hw;
        destruct filters as [f|]; try discriminate; eauto. }
  split.
  { intros Hnone. subst filters.
    eapply perm_trans; [|now apply sortDesc_perm].
    rewrite filter_all; [apply Permutation_refl | reflexivity]. }
  intros p byPost Hf Hby. subst filters.
  unfold CommentsService.findByPost, Prisma.reads in Hby. simpl in Hby.
  inversion Hby as [Hby']. clear Hby.
  rewrite map_map. simpl. rewrite map_id.
  eapply perm_trans; [apply Permutation_sym; now apply sortDesc_perm|].
  eapply perm_trans; [|now apply sortDesc_perm].
  unfold Prisma.commentsOfPost, CommentsService.selected. simpl.
  erewrite filter_ext; [apply Permutation_refl|].
  intros c. simpl. now rewrite andb_true_r.
Qed.

Lemma X8_comments_findAll_witness :
  EngineOk reverseEngine
  /\ exists l,
       fst (CommentsService.findAll reverseEngine
              (Some (CommentsService.mkCommentFilters (Some 1) None))
              Scenario.commented) = Ok l
       /\ map (fun i => comment_createdAt (CommentsService.capa_comment i)) l
          = [5; 5; 0].
Proof.
  split; [exact reverseEngine_ok|].
  destruct (X8_comments_findAll_filters reverseEngine reverseEngine_ok
              Scenario.commented
              (Some (CommentsService.mkCommentFilters (Some 1) None)))
    as [l [Hl _]].
  exists l. rewrite Hl. split; [reflexivity|].
  inversion Hl. reflexivity.
Defined.

(** X9.  [UsersService.findAll] writes nothing and, with an engine that
    honours [ORDER BY], lists every user row once, newest first.  The
    profile, posts and comments are attached to each item (the profile row
    of the user, the posts and comments whose [authorId] is the user's id)
    exactly when [includeRelations] is [true]; omitted, it counts as
    [false]. *)
Theorem X9_users_findAll_lists_everyone :
  forall (E : Engine), EngineOk E ->
  forall (db : DB) (includeRelations : option bool),
  exists l,
    UsersService.findAll E includeRelations db = (Ok l, db)
    /\ StronglySorted
         (descBy (fun i => user_createdAt (UsersService.uli_user i))) l
    /\ Permutation (users db) (map UsersService.uli_user l)
    /\ (forall i, In i l ->
          UsersService.uli_relations i
          = if orKeep includeRelations false
            then Some (UsersService.mkUserRelations
                         (Prisma.profileOfUser db
                            (user_id (UsersService.uli_user i)))
                         (filter (fun p => post_authorId p
                                           =? user_id (UsersService.uli_user i))
                                 (posts db))
                         (filter (fun c => comment_authorId c
                                           =? user_id (UsersService.uli_user i))
                                 (comments db)))
            else None).
Proof.
  intros E HE db includeRelations. eexists. split; [reflexivity|].
  split; [now apply sorted_under_map|].
  split.
  { rewrite map_map. simpl. rewrite map_id. now apply sortDesc_perm. }
  intros i Hi. apply in_map_iff in Hi. destruct Hi as [u [Hi _]]. subst i.
  reflexivity.
Qed.

Lemma X9_users_findAll_witness :
  EngineOk stableEngine
  /\ exists l,
       fst (UsersService.findAll stableEngine None Scenario.commented) = Ok l
       /\ map UsersService.uli_relations l = [None].
Proof.
  split; [exact stableEngine_ok|].
  destruct (X9_users_findAll_lists_everyone stableEngine stableEngine_ok
              Scenario.commented None) as [l [Hl _]].
  exists l. rewrite Hl. split; [reflexivity|].
  inversion Hl. reflexivity.
Defined.

(* ------------------------------------------------------------------ *)
(** ** Fresh ids *)

Lemma Fresh_next_unused (ids : list Z) (next : Z) :
  Fresh ids next -> ~ In next ids.
Proof. intros [_ Hlt] Hin. specialize (Hlt next Hin). lia. Qed.

Lemma Refs_next_unused {A} (fk : A -> Z) (l : list A) (ids : list Z) (next : Z) :
  Refs fk l ids -> Fresh ids next ->
  filter (fun x => fk x =? next) l = [].
Proof.
  intros Hrefs Hfresh. apply filter_none. intros x Hin.
  apply Z.eqb_neq. intros Heq.
  apply (Fresh_next_unused ids next Hfresh). rewrite <- Heq. now apply Hrefs.
Qed.

Lemma find_key_snoc {A} (key : A -> Z) (l : list A) (x : A) :
  ~ In (key x) (map key l) ->
  find (fun y => key y =? key x) (l ++ [x]) = Some x.
Proof.
  intros Hnew. rewrite find_app_none.
  - now rewrite Z.eqb_refl.
  - apply find_none_iff. apply not_true_iff_false. intros Hex.
    apply existsb_exists in Hex. destruct Hex as [y [Hin Hy]].
    apply Z.eqb_eq in Hy. apply Hnew. rewrite <- Hy. now apply in_map.
Qed.

(* ------------------------------------------------------------------ *)
(** ** Posts: create *)

Lemma posts_create_outcome (d : bool) (data : Prisma.PostCreateInput) (db : DB) :
  let p := mkPost (nextPostId db) (Prisma.pci_title data)
                  (Prisma.pci_content data)
                  (orKeep (Prisma.pci_published data) d)
                  (Prisma.pci_authorId data) (now db) (now db) in
  PostsService.create d data db
  = match Prisma.userById db (Prisma.pci_authorId data) with
    | None => (Err (PrismaClientKnownRequestError "P2003"), db)
    | Some u =>
        (Ok (mkPostWithAuthor p (Some u)),
         set_posts (posts db ++ [p]) (nextPostId db + 1) db)
    end.
Proof.
  simpl. unfold PostsService.create, bind, Prisma.post_create, Prisma.reads.
  destruct (Prisma.userById db (Prisma.pci_authorId data)) as [u|] eqn:Hu;
    [|reflexivity].
  simpl. unfold includePostAuthor. simpl.
  unfold Prisma.userById in *. simpl. now rewrite Hu.
Qed.

Lemma sortDesc_nil {A} (E : Engine) (key : A -> Z) :
  EngineOk E -> sortDesc E key (@nil A) = [].
Proof.
  intros HE. apply Permutation_nil. now apply sortDesc_perm.
Qed.

(** X10.  [PostsService.create] with an [authorId] that names no user fails
    with the client's foreign-key error P2003, untranslated, and writes
    nothing.  Otherwise it appends one post under the table's next id,
    stamped with the clock, [published] as given or else the schema default,
    and answers it with its author; in a consistent store [findOne] on the
    new id then answers that post with no categories and no comments. *)
Theorem X10_posts_create_then_findOne :
  forall (E : Engine), EngineOk E ->
  forall (publishedDefault : bool) (data : Prisma.PostCreateInput) (db : DB),
    (Prisma.userById db (Prisma.pci_authorId data) = None ->
     PostsService.create publishedDefault data db
     = (Err (PrismaClientKnownRequestError "P2003"), db))
    /\ (forall author,
          Prisma.userById db (Prisma.pci_authorId data) = Some author ->
          exists p db',
            PostsService.create publishedDefault data db
            = (Ok (mkPostWithAuthor p (Some author)), db')
            /\ p = mkPost (nextPostId db) (Prisma.pci_title data)
                          (Prisma.pci_content data)
                          (match Prisma.pci_published data with
                           | Some b => b
                           | None => publishedDefault
                           end)
                          (Prisma.pci_authorId data) (now db) (now db)
            /\ posts db' = posts db ++ [p]
            /\ (Consistent db ->
                exists r,
                  PostsService.findOne E (post_id p) db' = (Ok r, db')
                  /\ PostsService.pwr_post r = p
                  /\ PostsService.pwr_categories r = []
                  /\ PostsService.pwr_comments r = [])).
Proof.
  intros E HE d data db.
  pose proof (posts_create_outcome d data db) as Hout. simpl in Hout.
  split.
  - intros Hu. now rewrite Hout, Hu.
  - intros author Hu. rewrite Hout, Hu.
    do 2 eexists. split; [reflexivity|]. split; [reflexivity|].
    split; [reflexivity|].
    intros [Hk [_ Hi]]. simpl.
    set (p := mkPost (nextPostId db) _ _ _ _ _ _).
    assert (Hfind : Prisma.postById
                      (set_posts (posts db ++ [p]) (nextPostId db + 1) db)
                      (nextPostId db) = Some p).
    { unfold Prisma.postById. simpl.
      apply (find_key_snoc post_id (posts db) p).
      apply Fresh_next_unused, Hk. }
    rewrite (posts_findOne_found E _ _ p Hfind).
    eexists. split; [reflexivity|]. simpl. split; [reflexivity|].
    unfold Prisma.joinsOfPost, Prisma.commentsOfPost. simpl.
    rewrite (Refs_next_unused pc_postId _ _ _ (join_post db Hi) (post_keys db Hk)).
    rewrite (Refs_next_unused comment_postId _ _ _ (comment_post db Hi)
               (post_keys db Hk)).
    split; [reflexivity|]. now rewrite sortDesc_nil.
Qed.

Lemma commented_consistent : Consistent Scenario.commented.
Proof.
  split; [|split]; constructor;
    unfold Fresh, Refs, OneProfilePerUser, NoDuplicatePairs; simpl;
    repeat match goal with
           | |- _ /\ _ => split
           | |- NoDup _ => constructor
           | |- ~ _ => simpl; intuition discriminate
           | |- forall _, _ => intro
           end;
    try solve [intuition (subst; simpl; (lia || tauto))].
Qed.

Lemma X10_posts_create_witness :
  EngineOk stableEngine
  /\ Consistent Scenario.commented
  /\ Prisma.userById Scenario.commented 1 <> None
  /\ Prisma.userById Scenario.commented 7 = None
  /\ fst (PostsService.create false
            (Prisma.mkPostCreateInput "Draft" None None 7) Scenario.commented)
     = Err (PrismaClientKnownRequestError "P2003")
  /\ exists r,
       fst (PostsService.findOne stableEngine 2
              (snd (PostsService.create false
                      (Prisma.mkPostCreateInput "Draft" None None 1)
                      Scenario.commented))) = Ok r
       /\ post_published (PostsService.pwr_post r) = false
       /\ PostsService.pwr_comments r = [].
Proof.
  split; [exact stableEngine_ok|]. split; [exact commented_consistent|].
  split; [discriminate|]. split; [reflexivity|].
  destruct (X10_posts_create_then_findOne stableEngine stableEngine_ok false
              (Prisma.mkPostCreateInput "Draft" None None 7) Scenario.commented)
    as [Hmissing _].
  destruct (X10_posts_create_then_findOne stableEngine stableEngine_ok false
              (Prisma.mkPostCreateInput "Draft" None None 1) Scenario.commented)
    as [_ Hok].
  split; [now rewrite (Hmissing eq_refl)|].
  destruct (Hok _ eq_refl) as [p [db' [Hc [Hp [_ Hfind]]]]].
  destruct (Hfind commented_consistent) as [r [Hr [Hpost [_ Hcom]]]].
  exists r. rewrite Hc. simpl. subst p. simpl in Hr. rewrite Hr.
  split; [reflexivity|]. split; [now rewrite Hpost | exact Hcom].
Defined.

(* ------------------------------------------------------------------ *)
(** ** Posts: createWithCategories *)

Section ConnectCategories.
Variable postId : Z.





End ConnectCategories.










(* ------------------------------------------------------------------ *)
(** ** Users: createWithProfile *)

Lemma createWithProfile_outcome (data : UsersService.CreateUserWithProfileInput)
    (db : DB) :
  let u := mkUser (nextUserId db) (UsersService.cuwp_email data)
                  (UsersService.cuwp_name data) (now db) (now db) in
  let p := createdProfile db (nextUserId db) (UsersService.cuwp_profile data) in
  let db' := set_profiles (profiles db ++ [p]) (nextProfileId db + 1)
               (set_users (users db ++ [u]) (nextUserId db + 1) db) in
  UsersService.createWithProfile data db
  = if existsb (fun x => String.eqb (user_email x)
                                    (UsersService.cuwp_email data)) (users db)
       || existsb (fun x => profile_userId x =? nextUserId db) (profiles db)
    then (Err (PrismaClientKnownRequestError "P2002"), db)
    else (Ok (includeProfile db' u), db').
Proof.
  simpl. unfold UsersService.createWithProfile, bind,
    Prisma.user_create_withProfile, Prisma.transaction, bind,
    Prisma.user_create. simpl.
  destruct (existsb _ (users db)); [reflexivity|]. simpl.
  unfold Prisma.profile_create. simpl.
  destruct (existsb _ (profiles db)); [reflexivity|].
  unfold Prisma.userById. simpl.
  destruct (find _ (users db ++ _)) eqn:Hfind; [reflexivity|].
  exfalso.
  match type of Hfind with
  | find _ (_ ++ [?x]) = None =>
      assert (Hin : In x (users db ++ [x]))
        by (apply in_or_app; right; now left);
      apply (find_none _ _ Hfind) in Hin
  end.
  simpl in Hin. rewrite Z.eqb_refl in Hin. discriminate.
Qed.

Lemma next_user_unreferenced (db : DB) :
  Consistent db ->
  ~ In (nextUserId db) (map user_id (users db))
  /\ ~ In (nextUserId db) (map profile_userId (profiles db))
  /\ filter (fun p => post_authorId p =? nextUserId db) (posts db) = []
  /\ filter (fun c => comment_authorId c =? nextUserId db) (comments db) = [].
Proof.
  intros [Hk [_ Hi]].
  pose proof (Fresh_next_unused _ _ (user_keys db Hk)) as Hnew.
  split; [exact Hnew|]. split.
  - intros Hin. apply in_map_iff in Hin. destruct Hin as [p [Hp Hin]].
    apply Hnew. rewrite <- Hp. now apply (profile_user db Hi).
  - split.
    + exact (Refs_next_unused post_authorId _ _ _ (post_author db Hi)
               (user_keys db Hk)).
    + exact (Refs_next_unused comment_authorId _ _ _ (comment_author db Hi)
               (user_keys db Hk)).
Qed.

(** X13.  [createWithProfile] writes the user and the profile together or
    not at all: its only failure is the unique violation P2002, and then the
    store is as before, so no user is left without the profile and no
    profile without the user.  An email that is already stored is such a
    failure.  In a consistent store an email that is not stored yet always
    succeeds: one user and one profile are appended, the profile holding the
    supplied fields and the new user's id; [findOne] on the new id then
    shows that profile and no posts or comments, and a later
    [updateProfile] rewrites that profile row instead of adding one. *)
Theorem X13_createWithProfile_atomic :
  forall (data : UsersService.CreateUserWithProfileInput) (db : DB),
    let r := UsersService.createWithProfile data db in
    (forall e, fst r = Err e ->
       e = PrismaClientKnownRequestError "P2002" /\ snd r = db)
    /\ ((exists x, In x (users db)
                   /\ user_email x = UsersService.cuwp_email data) ->
        r = (Err (PrismaClientKnownRequestError "P2002"), db))
    /\ (Consistent db ->
        (forall x, In x (users db) ->
           user_email x <> UsersService.cuwp_email data) ->
        exists u p,
          fst r = Ok (mkUserWithProfile u (Some p))
          /\ u = mkUser (nextUserId db) (UsersService.cuwp_email data)
                        (UsersService.cuwp_name data) (now db) (now db)
          /\ p = mkProfile (nextProfileId db)
                   (Prisma.pd_bio (UsersService.cuwp_profile data))
                   (Prisma.pd_avatar (UsersService.cuwp_profile data))
                   (Prisma.pd_website (UsersService.cuwp_profile data))
                   (user_id u)
          /\ users (snd r) = users db ++ [u]
          /\ profiles (snd r) = profiles db ++ [p]
          /\ (exists shown,
                 UsersService.findOne (user_id u) (snd r) = (Ok shown, snd r)
                 /\ UsersService.uwr_user shown = u
                 /\ UsersService.uwr_profile shown = Some p
                 /\ UsersService.uwr_posts shown = []
                 /\ UsersService.uwr_comments shown = [])
          /\ (forall change,
                 profiles (snd (UsersService.updateProfile (user_id u) change
                                                           (snd r)))
                 = profiles db ++ [updatedProfile p change])).
Proof.
  intros data db r. subst r.
  pose proof (createWithProfile_outcome data db) as Hout. simpl in Hout.
  rewrite Hout. clear Hout.
  set (u := mkUser (nextUserId db) _ _ _ _).
  set (p := createdProfile db (nextUserId db) _).
  set (db' := set_profiles _ _ _).
  split; [|split].
  - intros e. destruct (_ || _); simpl; [|discriminate].
    intros He. inversion He. auto.
  - intros [x [Hin Hx]].
    replace (existsb _ (users db)) with true; [reflexivity|].
    symmetry. apply existsb_exists. exists x. split; [exact Hin|].
    now apply String.eqb_eq.
  - intros Hcons Hfree.
    destruct (next_user_unreferenced db Hcons) as [Hnu [Hnp [Hposts Hcomments]]].
    replace (existsb _ (users db)) with false.
    2:{ symmetry. apply not_true_iff_false. intros Hex.
        apply existsb_exists in Hex. destruct Hex as [x [Hin Hx]].
        apply String.eqb_eq in Hx. now apply (Hfree x). }
    replace (existsb _ (profiles db)) with false.
    2:{ symmetry. apply not_true_iff_false. intros Hex.
        apply existsb_exists in Hex. destruct Hex as [x [Hin Hx]].
        apply Z.eqb_eq in Hx. apply Hnp. rewrite <- Hx. now apply in_map. }
    simpl.
    assert (Hu : Prisma.userById db' (nextUserId db) = Some u).
    { unfold Prisma.userById. simpl.
      now apply (find_key_snoc user_id (users db) u). }
    assert (Hp : Prisma.profileOfUser db' (nextUserId db) = Some p).
    { unfold Prisma.profileOfUser. simpl.
      now apply (find_key_snoc profile_userId (profiles db) p). }
    exists u, p. unfold includeProfile. simpl. rewrite Hp.
    split; [reflexivity|]. split; [reflexivity|]. split; [reflexivity|].
    split; [reflexivity|]. split; [reflexivity|]. split.
    + rewrite (users_findOne_found db' _ u Hu).
      eexists. split; [reflexivity|]. unfold UsersService.includeRelations.
      simpl. rewrite Hp.
      unfold Prisma.postsOfAuthor, Prisma.commentsOfAuthor. simpl.
      rewrite Hposts, Hcomments. auto.
    + intros change. rewrite (updateProfile_existing db' _ change u p Hu Hp).
      simpl. rewrite map_app. simpl. rewrite Z.eqb_refl.
      now rewrite (map_replace_absent profile_userId _ _ _ Hnp).
Qed.

Lemma X13_createWithProfile_witness :
  Consistent Scenario.commented
  /\ (exists x, In x (users Scenario.commented) /\ user_email x = "a@x.com")
  /\ (forall x, In x (users Scenario.commented) -> user_email x <> "b@x.com")
  /\ UsersService.createWithProfile
       (UsersService.mkCreateUserWithProfileInput "a@x.com" None
          (Prisma.mkProfileData (Some "hello world!") None None))
       Scenario.commented
     = (Err (PrismaClientKnownRequestError "P2002"), Scenario.commented)
  /\ exists u p,
       fst (UsersService.createWithProfile
              (UsersService.mkCreateUserWithProfileInput "b@x.com" None
                 (Prisma.mkProfileData (Some "hello world!") None None))
              Scenario.commented) = Ok (mkUserWithProfile u (Some p))
       /\ user_id u = 2 /\ profile_bio p = Some "hello world!".
Proof.
  assert (Htaken : exists x, In x (users Scenario.commented)
                             /\ user_email x = "a@x.com").
  { eexists. split; [left; reflexivity | reflexivity]. }
  assert (Hfree : forall x, In x (users Scenario.commented) ->
                            user_email x <> "b@x.com").
  { intros x [H|[]]; subst x; discriminate. }
  destruct (X13_createWithProfile_atomic
              (UsersService.mkCreateUserWithProfileInput "a@x.com" None
                 (Prisma.mkProfileData (Some "hello world!") None None))
              Scenario.commented) as [_ [Hdup _]].
  destruct (X13_createWithProfile_atomic
              (UsersService.mkCreateUserWithProfileInput "b@x.com" None
                 (Prisma.mkProfileData (Some "hello world!") None None))
              Scenario.commented) as [_ [_ Hok]].
  split; [exact commented_consistent|]. split; [exact Htaken|].
  split; [exact Hfree|]. split; [exact (Hdup Htaken)|].
  destruct (Hok commented_consistent Hfree) as [u [p [Hr [Hu [Hp _]]]]].
  exists u, p. split; [exact Hr|]. subst u p. split; reflexivity.
Defined.

(* ------------------------------------------------------------------ *)
(** ** Comments: create, update, remove *)





Lemma commentById_id (db : DB) (id : Z) (c : Comment) :
  Prisma.commentById db id = Some c -> comment_id c = id /\ In c (comments db).
Proof.
  intros H. apply find_some in H. destruct H as [Hin Hid].
  apply Z.eqb_eq in Hid. auto.
Qed.



(** X16.  [CommentsService.remove] on an id that resolves to no row throws
    the not-found exception and writes nothing.  Otherwise it answers the
    deleted comment; every comment with another id stays, in order, and no
    other table is written; afterwards [findOne] and a second [remove] on
    the id both throw not-found. *)
Theorem X16_comments_remove_then_not_found :
  forall (db : DB) (id : Z),
    (Prisma.commentById db id = None ->
     CommentsService.remove id db
     = (Err (NotFoundException
               ("Comment with ID " ++ string_of_Z id ++ " not found")%string),
        db))
    /\ (forall c,
          Prisma.commentById db id = Some c ->
          exists db',
            CommentsService.remove id db = (Ok c, db')
            /\ comments db'
               = filter (fun x => negb (comment_id x =? id)) (comments db)
            /\ (users db' = users db /\ profiles db' = profiles db
                /\ posts db' = posts db /\ categories db' = categories db
                /\ postCategories db' = postCategories db)
            /\ fst (CommentsService.findOne id db')
               = Err (NotFoundException
                        ("Comment with ID " ++ string_of_Z id
                         ++ " not found")%string)
            /\ CommentsService.remove id db'
               = (Err (NotFoundException
                         ("Comment with ID " ++ string_of_Z id
                          ++ " not found")%string), db')).
Proof.
  intros db id. split.
  - intros Hc. unfold CommentsService.remove, try_catch,
      Prisma.comment_delete. now rewrite Hc.
  - intros c Hc.
    unfold CommentsService.remove at 1, try_catch, Prisma.comment_delete.
    rewrite Hc. eexists. split; [reflexivity|]. simpl.
    split; [reflexivity|]. split; [auto|].
    set (db' := set_comments _ _ db).
    assert (Hgone : Prisma.commentById db' id = None).
    { apply find_none_iff. apply not_true_iff_false. intros Hex.
      apply existsb_exists in Hex. destruct Hex as [x [Hin Hx]].
      simpl in Hin. apply filter_In in Hin. destruct Hin as [_ Hneq].
      rewrite Hx in Hneq. discriminate. }
    split.
    + now rewrite (comments_findOne_missing db' id Hgone).
    + unfold CommentsService.remove, try_catch, Prisma.comment_delete.
      now rewrite Hgone.
Qed.

Lemma X16_comments_remove_witness :
  Prisma.commentById Scenario.commented 2 <> None
  /\ map comment_id
         (comments (snd (CommentsService.remove 2 Scenario.commented)))
     = [1; 3]
  /\ fst (CommentsService.findOne 2
            (snd (CommentsService.remove 2 Scenario.commented)))
     = Err (NotFoundException "Comment with ID 2 not found").
Proof.
  destruct (X16_comments_remove_then_not_found Scenario.commented 2)
    as [_ Hok].
  destruct (Hok _ eq_refl) as [db' [Hrun [Hrows [_ [Hfind _]]]]].
  split; [discriminate|]. rewrite Hrun. simpl.
  split; [rewrite Hrows; reflexivity | exact Hfind].
Defined.

(* ------------------------------------------------------------------ *)
(** ** Keeping the store consistent *)

(** *** Lists of rows *)

Lemma NoDup_map_filter {A B} (f : A -> B) (g : A -> bool) (l : list A) :
  NoDup (map f l) -> NoDup (map f (filter g l)).
Proof.
  induction l as [|x l IH]; simpl; intros H; [constructor|].
  inversion H as [|? ? Hnotin Hnd]; subst.
  destruct (g x); simpl; [|now apply IH].
  constructor; [|now apply IH].
  intros Hin. apply Hnotin. apply in_map_iff in Hin.
  destruct Hin as [y [Hy Hin]]. apply filter_In in Hin.
  apply in_map_iff. exists y. tauto.
Qed.

Lemma NoDup_map_snoc {A B} (f : A -> B) (l : list A) (x : A) :
  NoDup (map f l) -> ~ In (f x) (map f l) -> NoDup (map f (l ++ [x])).
Proof. intros Hnd Hnew. rewrite map_app. simpl. now apply NoDup_snoc. Qed.

Lemma not_existsb_notin {A B} (f : A -> B) (eqb : B -> B -> bool) (v : B)
    (l : list A) :
  (forall x y, eqb x y = true <-> x = y) ->
  existsb (fun x => eqb (f x) v) l = false -> ~ In v (map f l).
Proof.
  intros Heqb Hex Hin. apply in_map_iff in Hin. destruct Hin as [x [Hx Hin]].
  apply not_true_iff_false in Hex. apply Hex. apply existsb_exists.
  exists x. split; [exact Hin|]. now apply Heqb.
Qed.

Lemma Fresh_snoc (ids : list Z) (next : Z) :
  Fresh ids next -> Fresh (ids ++ [next]) (next + 1).
Proof.
  intros [Hnd Hlt]. split.
  - apply NoDup_snoc; [exact Hnd|]. intros Hin. specialize (Hlt _ Hin). lia.
  - intros i Hin. apply in_app_iff in Hin. destruct Hin as [Hin|[Hin|[]]].
    + specialize (Hlt _ Hin). lia.
    + lia.
Qed.

Lemma Fresh_filter {A} (key : A -> Z) (g : A -> bool) (l : list A) (next : Z) :
  Fresh (map key l) next -> Fresh (map key (filter g l)) next.
Proof.
  intros [Hnd Hlt]. split; [now apply NoDup_map_filter|].
  intros i Hin. apply Hlt. apply in_map_iff in Hin.
  destruct Hin as [x [Hx Hin]]. apply filter_In in Hin.
  apply in_map_iff. exists x. tauto.
Qed.

Lemma Refs_filter {A} (fk : A -> Z) (g : A -> bool) (l : list A) (ids : list Z) :
  Refs fk l ids -> Refs fk (filter g l) ids.
Proof. intros H x Hin. apply filter_In in Hin. now apply H. Qed.

Lemma Refs_snoc {A} (fk : A -> Z) (l : list A) (x : A) (ids : list Z) :
  Refs fk l ids -> In (fk x) ids -> Refs fk (l ++ [x]) ids.
Proof.
  intros H Hx y Hin. apply in_app_iff in Hin.
  destruct Hin as [Hin|[Hin|[]]]; [now apply H | now subst y].
Qed.

Lemma Refs_more {A B} (fk : A -> Z) (l : list A) (key : B -> Z)
    (target : list B) (y : B) :
  Refs fk l (map key target) -> Refs fk l (map key (target ++ [y])).
Proof.
  intros H x Hin. rewrite map_app. apply in_or_app. left. now apply H.
Qed.

Lemma Refs_replace {A} (fk : A -> Z) (key : A -> Z) (k : Z) (a' : A)
    (l : list A) (ids : list Z) :
  Refs fk l ids -> In (fk a') ids ->
  Refs fk (map (fun x => if key x =? k then a' else x) l) ids.
Proof.
  intros H Ha x Hin. apply in_map_iff in Hin. destruct Hin as [y [Hy Hin]].
  destruct (key y =? k); subst x; [exact Ha | now apply H].
Qed.

(** Deleting the target row [k] together with the rows that name it. *)
Lemma Refs_delete {A B} (fk : A -> Z) (l : list A) (key : B -> Z)
    (target : list B) (k : Z) :
  Refs fk l (map key target) ->
  Refs fk (filter (fun x => negb (fk x =? k)) l)
       (map key (filter (fun y => negb (key y =? k)) target)).
Proof.
  intros H x Hin. apply filter_In in Hin. destruct Hin as [Hin Hk].
  specialize (H x Hin). apply in_map_iff in H. destruct H as [y [Hy Hiny]].
  apply in_map_iff. exists y. split; [exact Hy|].
  apply filter_In. split; [exact Hiny|]. now rewrite Hy.
Qed.

Lemma find_some_in_keys {A} (key : A -> Z) (k : Z) (l : list A) (a : A) :
  find (fun x => key x =? k) l = Some a -> In k (map key l).
Proof.
  intros H. apply find_some in H. destruct H as [Hin Hk].
  apply Z.eqb_eq in Hk. rewrite <- Hk. now apply in_map.
Qed.

(** Rewriting the row with key [k] keeps a column unique when the new value
    is carried by no row with another key. *)
Lemma NoDup_map_replace {A B} (key : A -> Z) (col : A -> B) (k : Z)
    (a a' : A) (l : list A) :
  NoDup (map key l) -> NoDup (map col l) ->
  find (fun x => key x =? k) l = Some a ->
  (forall x, In x l -> key x <> k -> col x <> col a') ->
  NoDup (map col (map (fun x => if key x =? k then a' else x) l)).
Proof.
  intros Hkeys Hcol Hfind Hother.
  destruct (map_replace_in_place key k a a' l Hkeys Hfind)
    as [l1 [l2 [Hl Hl']]].
  rewrite Hl'. rewrite Hl in Hcol, Hother, Hkeys.
  assert (Hk : key a = k).
  { apply find_some in Hfind. now apply Z.eqb_eq. }
  assert (Hrest : forall x, In x l1 \/ In x l2 -> col x <> col a').
  { intros x Hx. apply Hother.
    - apply in_or_app. simpl. tauto.
    - intros Hkx. rewrite map_app in Hkeys. simpl in Hkeys.
      apply NoDup_remove_2 in Hkeys. apply Hkeys.
      rewrite <- Hk in Hkx. rewrite <- Hkx.
      apply in_or_app. destruct Hx; [left|right]; now apply in_map. }
  rewrite map_app in *. simpl in *.
  apply NoDup_remove_1 in Hcol.
  apply NoDup_app_remove_l in Hcol as Hc2.
  assert (Hnew : ~ In (col a') (map col l1 ++ map col l2)).
  { intros Hin. apply in_app_iff in Hin.
    destruct Hin as [Hin|Hin]; apply in_map_iff in Hin;
      destruct Hin as [x [Hx Hin]]; symmetry in Hx;
      revert Hx; apply not_eq_sym; apply Hrest; auto. }
  clear - Hcol Hnew.
  induction (map col l1) as [|y ys IH]; simpl in *.
  - constructor; [tauto | exact Hcol].
  - inversion Hcol as [|? ? Hy Hys]; subst. constructor.
    + intros Hin. apply in_app_iff in Hin. simpl in Hin.
      destruct Hin as [Hin|[Hin|Hin]].
      * apply Hy. apply in_or_app. now left.
      * apply Hnew. now left.
      * apply Hy. apply in_or_app. now right.
    + apply IH; [exact Hys|]. tauto.
Qed.

(** *** Combinators *)

Lemma preserves_ret (P : DB -> Prop) {A} (a : A) : Preserves P (ret a).
Proof. intros db H. exact H. Qed.

Lemma preserves_throw (P : DB -> Prop) {A} (e : Exception) :
  Preserves P (@throw A e).
Proof. intros db H. exact H. Qed.

Lemma preserves_reads (P : DB -> Prop) {A} (f : DB -> A) :
  Preserves P (Prisma.reads f).
Proof. intros db H. exact H. Qed.

Lemma preserves_bind (P : DB -> Prop) {A B} (m : M A) (k : A -> M B) :
  Preserves P m -> (forall a, Preserves P (k a)) -> Preserves P (bind m k).
Proof.
  intros Hm Hk db H. unfold bind. specialize (Hm db H).
  destruct (m db) as [[a|e] db']; simpl in *; [now apply Hk | exact Hm].
Qed.

Lemma preserves_try_catch (P : DB -> Prop) {A} (m : M A)
    (h : Exception -> M A) :
  Preserves P m -> (forall e, Preserves P (h e)) -> Preserves P (try_catch m h).
Proof.
  intros Hm Hh db H. unfold try_catch. specialize (Hm db H).
  destruct (m db) as [[a|e] db']; simpl in *; [exact Hm | now apply Hh].
Qed.

Lemma preserves_transaction (P : DB -> Prop) {A} (m : M A) :
  Preserves P m -> Preserves P (Prisma.transaction m).
Proof.
  intros Hm db H. unfold Prisma.transaction. specialize (Hm db H).
  destruct (m db) as [[a|e] db']; simpl in *; [exact Hm | exact H].
Qed.

Lemma preserves_orNotFound (P : DB -> Prop) {A} (row : option A)
    (message : string) :
  Preserves P (orNotFound row message).
Proof. intros db H. destruct row; exact H. Qed.

(** *** The client's writes *)

Lemma user_create_consistent (data : Prisma.UserCreateInput) :
  Preserves Consistent (Prisma.user_create data).
Proof.
  intros db [Hk [Hu Hi]]. unfold Prisma.user_create.
  destruct (existsb _ (users db)) eqn:Hex; simpl;
    [exact (conj Hk (conj Hu Hi))|].
  consistent_after Hk Hu Hi.
  - rewrite map_app. apply Fresh_snoc, Hk.
  - apply NoDup_map_snoc; [apply Hu|]. simpl.
    now apply (not_existsb_notin user_email String.eqb _ _ String.eqb_eq).
  - apply Refs_more, Hi.
  - apply Refs_more, Hi.
  - apply Refs_more, Hi.
Qed.

Lemma NoDup_map_inj {A B} (f : A -> B) (l : list A) (x y : A) :
  NoDup (map f l) -> In x l -> In y l -> f x = f y -> x = y.
Proof.
  induction l as [|a l IH]; simpl; intros Hnd Hx Hy Hf; [destruct Hx|].
  inversion Hnd as [|? ? Hnotin Hnd']; subst.
  destruct Hx as [Hx|Hx], Hy as [Hy|Hy]; subst; auto.
  - exfalso. apply Hnotin. rewrite Hf. now apply in_map.
  - exfalso. apply Hnotin. rewrite <- Hf. now apply in_map.
Qed.

(** Rows whose post survives a cascade still name a stored post. *)
Lemma Refs_cascade {A} (fk : A -> Z) (l : list A) (dead : Post -> bool)
    (keep : A -> bool) (table : list Post) :
  Refs fk l (map post_id table) ->
  (forall x, keep x = true ->
     existsb (fun p => post_id p =? fk x) (filter dead table) = false) ->
  Refs fk (filter keep l) (map post_id (filter (fun p => negb (dead p)) table)).
Proof.
  intros H Hkeep x Hin. apply filter_In in Hin. destruct Hin as [Hin Hk].
  specialize (H x Hin). apply in_map_iff in H. destruct H as [p [Hp Hinp]].
  apply in_map_iff. exists p. split; [exact Hp|].
  apply filter_In. split; [exact Hinp|].
  destruct (dead p) eqn:Hd; [|reflexivity].
  exfalso. specialize (Hkeep x Hk). apply not_true_iff_false in Hkeep.
  apply Hkeep. apply existsb_exists. exists p. split.
  - apply filter_In. auto.
  - now apply Z.eqb_eq.
Qed.

Lemma user_update_consistent (id : Z) (data : Prisma.UserUpdateInput) :
  Preserves Consistent (Prisma.user_update id data).
Proof.
  intros db [Hk [Hu Hi]]. unfold Prisma.user_update.
  destruct (Prisma.userById db id) as [u|] eqn:Hfind;
    [|exact (conj Hk (conj Hu Hi))].
  destruct (userById_id _ _ _ Hfind) as [Hid Hin].
  match goal with |- context [if ?b then _ else _] => destruct b eqn:Htaken end;
    [exact (conj Hk (conj Hu Hi))|].
  consistent_after Hk Hu Hi;
    try (rewrite (map_replace_keys user_id id) by exact Hid;
         kept Hk Hu Hi).
  apply (NoDup_map_replace user_id user_email id u);
    [apply Hk | apply Hu | exact Hfind |].
  intros x Hx Hkx. simpl.
  destruct (Prisma.uu_email data) as [e|]; simpl.
  - intros He. apply not_true_iff_false in Htaken. apply Htaken.
    apply existsb_exists. exists x. split; [exact Hx|].
    apply andb_true_iff. split; [now apply String.eqb_eq|].
    apply negb_true_iff. now apply Z.eqb_neq.
  - intros He. apply Hkx. rewrite <- Hid. f_equal.
    now apply (NoDup_map_inj user_email (users db) x u (unique_email _ Hu)).
Qed.

Lemma user_delete_consistent (id : Z) :
  Preserves Consistent (Prisma.user_delete id).
Proof.
  intros db [Hk [Hu Hi]]. unfold Prisma.user_delete.
  destruct (Prisma.userById db id) as [u|] eqn:Hfind;
    [|exact (conj Hk (conj Hu Hi))].
  consistent_after Hk Hu Hi;
    try (apply Fresh_filter; kept Hk Hu Hi);
    try (apply NoDup_map_filter; kept Hk Hu Hi).
  - apply Refs_delete, Hi.
  - apply Refs_delete, Hi.
  - apply (Refs_cascade pc_postId _ (fun p => post_authorId p =? id));
      [apply Hi|].
    intros j Hj. now apply negb_true_iff in Hj.
  - apply Refs_filter, Hi.
  - apply (Refs_cascade comment_postId _ (fun p => post_authorId p =? id));
      [apply Hi|].
    intros c Hc. apply andb_true_iff in Hc. destruct Hc as [_ Hc].
    now apply negb_true_iff in Hc.
  - intros c Hin. apply filter_In in Hin. destruct Hin as [Hin Hc].
    apply andb_true_iff in Hc. destruct Hc as [Hc _].
    apply (Refs_delete comment_authorId (comments db) user_id (users db) id
             (comment_author _ Hi)).
    apply filter_In. auto.
Qed.

Lemma profile_create_consistent (data : Prisma.ProfileData) (userId : Z) :
  Preserves Consistent (Prisma.profile_create data userId).
Proof.
  intros db [Hk [Hu Hi]]. unfold Prisma.profile_create.
  destruct (existsb _ (profiles db)) eqn:Hex; [exact (conj Hk (conj Hu Hi))|].
  destruct (Prisma.userById db userId) as [u|] eqn:Hfind;
    [|exact (conj Hk (conj Hu Hi))].
  consistent_after Hk Hu Hi.
  - rewrite map_app. apply Fresh_snoc, Hk.
  - apply NoDup_map_snoc; [apply Hu|]. simpl.
    now apply (not_existsb_notin profile_userId Z.eqb _ _ Z.eqb_eq).
  - apply Refs_snoc; [apply Hi|]. simpl.
    now apply (find_some_in_keys user_id userId (users db) u).
Qed.

Lemma profile_update_consistent (userId : Z) (data : Prisma.ProfileData) :
  Preserves Consistent (Prisma.profile_update userId data).
Proof.
  intros db [Hk [Hu Hi]]. unfold Prisma.profile_update.
  destruct (Prisma.profileOfUser db userId) as [p|] eqn:Hfind;
    [|exact (conj Hk (conj Hu Hi))].
  destruct (profileOfUser_userId _ _ _ Hfind) as [Hid Hin].
  consistent_after Hk Hu Hi.
  - destruct (map_replace_in_place profile_userId userId p
                (updatedProfile p data) (profiles db)
                (unique_profile _ Hu) Hfind) as [l1 [l2 [Hl Hl']]].
    unfold updatedProfile in Hl'. rewrite Hl'.
    pose proof (profile_keys _ Hk) as Hfresh. rewrite Hl in Hfresh.
    rewrite map_app in *. exact Hfresh.
  - rewrite (map_replace_keys profile_userId userId) by exact Hid.
    apply Hu.
  - apply Refs_replace; [apply Hi|]. simpl. now apply (profile_user _ Hi).
Qed.

Lemma user_create_withProfile_consistent (data : Prisma.UserCreateInput)
    (profile : Prisma.ProfileData) :
  Preserves Consistent (Prisma.user_create_withProfile data profile).
Proof.
  apply preserves_transaction, preserves_bind;
    [apply user_create_consistent|].
  intros u. apply preserves_bind; [apply profile_create_consistent|].
  intros p. apply preserves_ret.
Qed.

Lemma post_create_consistent (d : bool) (data : Prisma.PostCreateInput) :
  Preserves Consistent (Prisma.post_create d data).
Proof.
  intros db [Hk [Hu Hi]]. unfold Prisma.post_create.
  destruct (Prisma.userById db (Prisma.pci_authorId data)) as [u|] eqn:Hfind;
    [|exact (conj Hk (conj Hu Hi))].
  consistent_after Hk Hu Hi.
  - rewrite map_app. apply Fresh_snoc, Hk.
  - apply Refs_snoc; [apply Hi|]. simpl.
    now apply (find_some_in_keys user_id _ (users db) u).
  - apply Refs_more, Hi.
  - apply Refs_more, Hi.
Qed.

Lemma connectCategories_consistent (postId : Z) (categoryIds : list Z) :
  forall db : DB,
    In postId (map post_id (posts db)) ->
    Consistent db ->
    Consistent (snd (Prisma.connectCategories postId categoryIds db)).
Proof.
  induction categoryIds as [|c rest IH]; intros db Hpost Hcons; simpl;
    [exact Hcons|].
  destruct (Prisma.categoryById db c) as [cat|] eqn:Hc; [|exact Hcons].
  destruct (Prisma.hasPair (postCategories db) postId c) eqn:Hh;
    [exact Hcons|].
  apply IH; [exact Hpost|].
  destruct Hcons as [Hk [Hu Hi]]. consistent_after Hk Hu Hi.
  - rewrite map_app. apply Fresh_snoc, Hk.
  - apply NoDup_map_snoc; [apply Hu|]. simpl. now apply hasPair_false.
  - apply Refs_snoc; [apply Hi | exact Hpost].
  - apply Refs_snoc; [apply Hi|]. simpl.
    now apply (find_some_in_keys category_id c (categories db) cat).
Qed.

Lemma post_createWithCategories_consistent (d : bool)
    (data : Prisma.PostCreateInput) (categoryIds : list Z) :
  Preserves Consistent (Prisma.post_createWithCategories d data categoryIds).
Proof.
  apply preserves_transaction. intros db Hcons. unfold bind.
  pose proof (post_create_consistent d data db Hcons) as Hcreated.
  unfold Prisma.post_create in *.
  destruct (Prisma.userById db (Prisma.pci_authorId data)); [|exact Hcons].
  simpl in *.
  match goal with
  | |- context [Prisma.connectCategories ?k ?ids ?d1] =>
      pose proof (connectCategories_consistent k ids d1) as Hrun;
      destruct (Prisma.connectCategories k ids d1) as [[[]|e] db2]
  end; simpl in *; apply Hrun; try exact Hcreated;
    rewrite map_app; apply in_or_app; right; now left.
Qed.

Lemma post_update_consistent (id : Z) (data : Prisma.PostUpdateInput) :
  Preserves Consistent (Prisma.post_update id data).
Proof.
  intros db [Hk [Hu Hi]]. unfold Prisma.post_update.
  destruct (Prisma.postById db id) as [p|] eqn:Hfind;
    [|exact (conj Hk (conj Hu Hi))].
  destruct (postById_id _ _ _ Hfind) as [Hid Hin].
  consistent_after Hk Hu Hi;
    try (rewrite (map_replace_keys post_id id) by exact Hid;
         kept Hk Hu Hi).
  apply Refs_replace; [apply Hi|]. simpl. now apply (post_author _ Hi).
Qed.

Lemma post_delete_consistent (id : Z) :
  Preserves Consistent (Prisma.post_delete id).
Proof.
  intros db [Hk [Hu Hi]]. unfold Prisma.post_delete.
  destruct (Prisma.postById db id) as [p|] eqn:Hfind;
    [|exact (conj Hk (conj Hu Hi))].
  consistent_after Hk Hu Hi;
    try (apply Fresh_filter; kept Hk Hu Hi);
    try (apply NoDup_map_filter; kept Hk Hu Hi);
    try (apply Refs_delete; kept Hk Hu Hi);
    try (apply Refs_filter; kept Hk Hu Hi).
Qed.

Lemma category_create_consistent (data : Prisma.CategoryCreateInput) :
  Preserves Consistent (Prisma.category_create data).
Proof.
  intros db [Hk [Hu Hi]]. unfold Prisma.category_create.
  destruct (existsb _ (categories db)) eqn:Hex;
    [exact (conj Hk (conj Hu Hi))|].
  assert (Hboth : existsb (fun c => String.eqb (category_name c)
                                               (Prisma.cc_name data))
                          (categories db) = false
                  /\ existsb (fun c => String.eqb (category_slug c)
                                                  (Prisma.cc_slug data))
                             (categories db) = false).
  { split; apply not_true_iff_false; intros H;
      apply not_true_iff_false in Hex; apply Hex;
      apply existsb_exists in H; destruct H as [c [Hin Hc]];
      apply existsb_exists; exists c; (split; [exact Hin|]);
      rewrite Hc; auto using orb_true_r. }
  destruct Hboth as [Hname Hslug].
  consistent_after Hk Hu Hi.
  - rewrite map_app. apply Fresh_snoc, Hk.
  - apply NoDup_map_snoc; [apply Hu|]. simpl.
    now apply (not_existsb_notin category_name String.eqb _ _ String.eqb_eq).
  - apply NoDup_map_snoc; [apply Hu|]. simpl.
    now apply (not_existsb_notin category_slug String.eqb _ _ String.eqb_eq).
  - apply Refs_more, Hi.
Qed.

Lemma category_update_consistent (id : Z) (data : Prisma.CategoryUpdateInput) :
  Preserves Consistent (Prisma.category_update id data).
Proof.
  intros db [Hk [Hu Hi]]. unfold Prisma.category_update.
  destruct (Prisma.categoryById db id) as [c|] eqn:Hfind;
    [|exact (conj Hk (conj Hu Hi))].
  destruct (categoryById_id _ _ _ Hfind) as [Hid Hin].
  match goal with |- context [if ?b then _ else _] => destruct b eqn:Hclash end;
    [exact (conj Hk (conj Hu Hi))|].
  apply orb_false_iff in Hclash. destruct Hclash as [Hname Hslug].
  assert (Hcol : forall (col : Category -> string) (new : option string),
            NoDup (map col (categories db)) ->
            match new with
            | Some v => existsb (fun x => String.eqb (col x) v
                                          && negb (category_id x =? id))
                                (categories db)
            | None => false
            end = false ->
            forall x, In x (categories db) -> category_id x <> id ->
                      col x <> orKeep new (col c)).
  { intros col new Hnd Hfree x Hx Hkx. destruct new as [v|]; simpl.
    - intros Hv. apply not_true_iff_false in Hfree. apply Hfree.
      apply existsb_exists. exists x. split; [exact Hx|].
      apply andb_true_iff. split; [now apply String.eqb_eq|].
      apply negb_true_iff. now apply Z.eqb_neq.
    - intros Hv. apply Hkx. rewrite <- Hid. f_equal.
      now apply (NoDup_map_inj col (categories db) x c Hnd). }
  consistent_after Hk Hu Hi;
    try (rewrite (map_replace_keys category_id id) by exact Hid;
         kept Hk Hu Hi).
  - apply (NoDup_map_replace category_id category_name id c);
      [apply Hk | apply Hu | exact Hfind |].
    simpl. apply Hcol; [apply Hu | exact Hname].
  - apply (NoDup_map_replace category_id category_slug id c);
      [apply Hk | apply Hu | exact Hfind |].
    simpl. apply Hcol; [apply Hu | exact Hslug].
Qed.

Lemma category_delete_consistent (id : Z) :
  Preserves Consistent (Prisma.category_delete id).
Proof.
  intros db [Hk [Hu Hi]]. unfold Prisma.category_delete.
  destruct (Prisma.categoryById db id) as [c|] eqn:Hfind;
    [|exact (conj Hk (conj Hu Hi))].
  consistent_after Hk Hu Hi;
    try (apply Fresh_filter; kept Hk Hu Hi);
    try (apply NoDup_map_filter; kept Hk Hu Hi);
    try (apply Refs_delete; kept Hk Hu Hi);
    try (apply Refs_filter; kept Hk Hu Hi).
Qed.

Lemma ins_keeps_ids_fresh (createdAt : Z) (rows : list (Z * Z)) :
  forall (tbl : list PostCategory) (next : Z),
    Fresh (map pc_id tbl) next ->
    Fresh (map pc_id
             (fst (Prisma.insertSkippingDuplicates rows tbl next createdAt)))
          (snd (Prisma.insertSkippingDuplicates rows tbl next createdAt)).
Proof.
  induction rows as [|[p c] rest IH]; intros tbl next Hf; simpl; [exact Hf|].
  destruct (Prisma.hasPair tbl p c); [now apply IH|].
  apply IH. rewrite map_app. now apply Fresh_snoc.
Qed.

Lemma createMany_consistent (rows : list (Z * Z)) :
  Preserves Consistent (Prisma.postCategory_createMany_skipDuplicates rows).
Proof.
  intros db [Hk [Hu Hi]]. unfold Prisma.postCategory_createMany_skipDuplicates.
  destruct (forallb (Prisma.joinRowResolves db) rows) eqn:Hfk;
    [|exact (conj Hk (conj Hu Hi))].
  pose proof (ins_keeps_ids_fresh (now db) rows _ _ (join_keys _ Hk)) as Hids.
  pose proof (ins_keeps_pairs_unique (now db) rows _ (nextPostCategoryId db)
                (unique_pair _ Hu)) as Hpairs.
  destruct (ins_appends (now db) rows (postCategories db)
              (nextPostCategoryId db)) as [added [Ht [_ Hadd]]].
  destruct (Prisma.insertSkippingDuplicates rows (postCategories db)
              (nextPostCategoryId db) (now db)) as [tbl next].
  simpl in *. subst tbl.
  assert (Hres : forall j, In j added ->
            In (pc_postId j) (map post_id (posts db))
            /\ In (pc_categoryId j) (map category_id (categories db))).
  { intros j Hj. destruct (Hadd j Hj) as [Hrow Hnew].
    rewrite forallb_forall in Hfk. specialize (Hfk _ Hrow).
    unfold Prisma.joinRowResolves, pairOf in Hfk.
    apply hasPair_false in Hnew. unfold pairOf in Hnew. rewrite Hnew in Hfk.
    simpl in Hfk. apply andb_true_iff in Hfk. destruct Hfk as [Hp Hc].
    apply existsb_exists in Hp. destruct Hp as [p [Hp Hpid]].
    apply existsb_exists in Hc. destruct Hc as [c [Hc Hcid]].
    apply Z.eqb_eq in Hpid. apply Z.eqb_eq in Hcid.
    rewrite <- Hpid, <- Hcid. split; now apply in_map. }
  consistent_after Hk Hu Hi.
  - exact Hids.
  - exact Hpairs.
  - intros j Hj. apply in_app_iff in Hj.
    destruct Hj as [Hj|Hj]; [now apply (join_post _ Hi) | now apply Hres].
  - intros j Hj. apply in_app_iff in Hj.
    destruct Hj as [Hj|Hj]; [now apply (join_category _ Hi) | now apply Hres].
Qed.

Lemma postCategory_deleteMany_consistent (postId categoryId : Z) :
  Preserves Consistent (Prisma.postCategory_deleteMany postId categoryId).
Proof.
  intros db [Hk [Hu Hi]]. unfold Prisma.postCategory_deleteMany.
  consistent_after Hk Hu Hi;
    try (apply Fresh_filter; kept Hk Hu Hi);
    try (apply NoDup_map_filter; kept Hk Hu Hi);
    try (apply Refs_filter; kept Hk Hu Hi).
Qed.

Lemma comment_create_consistent (data : Prisma.CommentCreateInput) :
  Preserves Consistent (Prisma.comment_create data).
Proof.
  intros db [Hk [Hu Hi]]. unfold Prisma.comment_create.
  destruct (Prisma.postById db (Prisma.cmc_postId data)) as [p|] eqn:Hp;
    [|exact (conj Hk (conj Hu Hi))].
  destruct (Prisma.userById db (Prisma.cmc_authorId data)) as [u|] eqn:Hu';
    [|exact (conj Hk (conj Hu Hi))].
  consistent_after Hk Hu Hi.
  - rewrite map_app. apply Fresh_snoc, Hk.
  - apply Refs_snoc; [apply Hi|]. simpl.
    now apply (find_some_in_keys post_id _ (posts db) p).
  - apply Refs_snoc; [apply Hi|]. simpl.
    now apply (find_some_in_keys user_id _ (users db) u).
Qed.

Lemma comment_update_consistent (id : Z) (content : string) :
  Preserves Consistent (Prisma.comment_update id content).
Proof.
  intros db [Hk [Hu Hi]]. unfold Prisma.comment_update.
  destruct (Prisma.commentById db id) as [c|] eqn:Hfind;
    [|exact (conj Hk (conj Hu Hi))].
  destruct (commentById_id _ _ _ Hfind) as [Hid Hin].
  consistent_after Hk Hu Hi.
  - rewrite (map_replace_keys comment_id id) by exact Hid. apply Hk.
  - apply Refs_replace; [apply Hi|]. simpl. now apply (comment_post _ Hi).
  - apply Refs_replace; [apply Hi|]. simpl. now apply (comment_author _ Hi).
Qed.

Lemma comment_delete_consistent (id : Z) :
  Preserves Consistent (Prisma.comment_delete id).
Proof.
  intros db [Hk [Hu Hi]]. unfold Prisma.comment_delete.
  destruct (Prisma.commentById db id) as [c|] eqn:Hfind;
    [|exact (conj Hk (conj Hu Hi))].
  consistent_after Hk Hu Hi;
    try (apply Fresh_filter; kept Hk Hu Hi);
    try (apply Refs_filter; kept Hk Hu Hi).
Qed.

(** *** The services *)

Lemma posts_findOne_preserves (P : DB -> Prop) (E : Engine) (id : Z) :
  Preserves P (PostsService.findOne E id).
Proof.
  apply preserves_bind; [apply preserves_reads|].
  intros post. apply preserves_orNotFound.
Qed.

Lemma emptyDB_consistent : Consistent emptyDB.
Proof.
  split; [|split]; constructor;
    unfold Fresh, Refs, OneProfilePerUser, NoDuplicatePairs; simpl;
    try constructor; try constructor; intros ? [].
Qed.

(** X17.  The empty store is consistent, and every writing method of the
    four services, whatever its arguments and whether it returns or throws,
    leaves a consistent store consistent: ids stay distinct and below the
    autoincrement counters, emails, profile owners, category names, slugs
    and (post, category) pairs stay unique, and no profile, post, join row
    or comment names a user, post or category that is not stored. *)
Theorem X17_services_keep_the_store_consistent :
  Consistent emptyDB
  /\ (forall data, Preserves Consistent (UsersService.create data))
  /\ (forall data, Preserves Consistent (UsersService.createWithProfile data))
  /\ (forall id data, Preserves Consistent (UsersService.update id data))
  /\ (forall id data, Preserves Consistent (UsersService.updateProfile id data))
  /\ (forall id, Preserves Consistent (UsersService.remove id))
  /\ (forall d data, Preserves Consistent (PostsService.create d data))
  /\ (forall d data,
        Preserves Consistent (PostsService.createWithCategories d data))
  /\ (forall id data, Preserves Consistent (PostsService.update id data))
  /\ (forall E id ids, Preserves Consistent (PostsService.addCategories E id ids))
  /\ (forall E id c, Preserves Consistent (PostsService.removeCategory E id c))
  /\ (forall E id data, Preserves Consistent (PostsService.addComment E id data))
  /\ (forall id, Preserves Consistent (PostsService.remove id))
  /\ (forall data, Preserves Consistent (CategoriesService.create data))
  /\ (forall id data, Preserves Consistent (CategoriesService.update id data))
  /\ (forall id, Preserves Consistent (CategoriesService.remove id))
  /\ (forall data, Preserves Consistent (CommentsService.create data))
  /\ (forall id content,
        Preserves Consistent (CommentsService.update id content))
  /\ (forall id, Preserves Consistent (CommentsService.remove id)).
Proof.
  split; [exact emptyDB_consistent|].
  split; [exact user_create_consistent|].
  split.
  { intros data. apply preserves_bind;
      [apply user_create_withProfile_consistent|].
    intros created. apply preserves_reads. }
  split.
  { intros id data. apply preserves_bind; [apply user_update_consistent|].
    intros u. apply preserves_reads. }
  split.
  { intros id data. apply preserves_bind; [apply preserves_reads|].
    intros [user|]; [|apply preserves_throw].
    destruct (uwp_profile user);
      [apply profile_update_consistent | apply profile_create_consistent]. }
  split; [exact user_delete_consistent|].
  split.
  { intros d data. apply preserves_bind; [apply post_create_consistent|].
    intros p. apply preserves_reads. }
  split.
  { intros d data. apply preserves_bind;
      [apply post_createWithCategories_consistent|].
    intros p. apply preserves_reads. }
  split.
  { intros id data. apply preserves_bind; [apply post_update_consistent|].
    intros p. apply preserves_reads. }
  split.
  { intros E id ids. apply preserves_bind; [apply posts_findOne_preserves|].
    intros _. apply preserves_bind; [apply createMany_consistent|].
    intros _. apply posts_findOne_preserves. }
  split.
  { intros E id c. apply preserves_bind;
      [apply postCategory_deleteMany_consistent|].
    intros _. apply posts_findOne_preserves. }
  split.
  { intros E id data. apply preserves_bind; [apply posts_findOne_preserves|].
    intros _. apply preserves_bind; [apply comment_create_consistent|].
    intros c. apply preserves_reads. }
  split; [exact post_delete_consistent|].
  split.
  { intros data. apply preserves_try_catch; [apply category_create_consistent|].
    intros e. unfold CategoriesService.create_catch.
    destruct (code_is e "P2002"); apply preserves_throw. }
  split.
  { intros id data. apply preserves_try_catch;
      [apply category_update_consistent|].
    intros e. unfold CategoriesService.update_catch.
    destruct (code_is e "P2002"); [apply preserves_throw|].
    destruct (code_is e "P2025"); apply preserves_throw. }
  split.
  { intros id. apply preserves_try_catch; [apply category_delete_consistent|].
    intros e. unfold CategoriesService.remove_catch.
    destruct (code_is e "P2025"); apply preserves_throw. }
  split.
  { intros data. apply preserves_bind; [apply comment_create_consistent|].
    intros c. apply preserves_reads. }
  split.
  { intros id content. apply preserves_try_catch.
    - apply preserves_bind; [apply comment_update_consistent|].
      intros c. apply preserves_reads.
    - intros e. unfold CommentsService.rethrow.
      destruct (code_is e "P2025"); apply preserves_throw. }
  intros id. apply preserves_try_catch; [apply comment_delete_consistent|].
  intros e. unfold CommentsService.rethrow.
  destruct (code_is e "P2025"); apply preserves_throw.
Qed.

Lemma X17_services_keep_consistent_witness :
  Consistent Scenario.commented
  /\ Consistent (snd (UsersService.remove 1 Scenario.commented))
  /\ users (snd (UsersService.remove 1 Scenario.commented)) = []
  /\ comments (snd (UsersService.remove 1 Scenario.commented)) = [].
Proof.
  destruct X17_services_keep_the_store_consistent
    as [_ [_ [_ [_ [_ [Hremove _]]]]]].
  split; [exact commented_consistent|].
  split; [exact (Hremove 1 _ commented_consistent)|].
  split; reflexivity.
Defined.

(* ------------------------------------------------------------------ *)
(** ** Deletes and their cascades *)

Lemma find_filter_out {A} (key : A -> Z) (k : Z) (l : list A) :
  find (fun x => key x =? k) (filter (fun x => negb (key x =? k)) l) = None.
Proof.
  apply find_none_iff. apply not_true_iff_false. intros Hex.
  apply existsb_exists in Hex. destruct Hex as [x [Hin Hx]].
  apply filter_In in Hin. destruct Hin as [_ Hneq].
  rewrite Hx in Hneq. discriminate.
Qed.

Lemma filter_filter_out {A} (key : A -> Z) (k : Z) (l : list A) :
  filter (fun x => key x =? k) (filter (fun x => negb (key x =? k)) l) = [].
Proof.
  apply filter_none. intros x Hin. apply filter_In in Hin.
  destruct Hin as [_ Hneq]. now apply negb_true_iff in Hneq.
Qed.

(** X18.  [UsersService.remove] on an id that resolves to no row fails with
    the client's P2025 error, untranslated, and writes nothing.  Otherwise
    it answers the deleted user and takes with it the user's profile,
    posts and comments and every comment and join row under those posts:
    afterwards no row of any table names the user or one of the user's
    posts.  Nothing else goes: the other users, their profiles and posts,
    their comments on surviving posts, and all categories stay. *)
Theorem X18_users_remove_cascades :
  forall (db : DB) (id : Z),
    (Prisma.userById db id = None ->
     UsersService.remove id db
     = (Err (PrismaClientKnownRequestError "P2025"), db))
    /\ (forall u,
          Prisma.userById db id = Some u ->
          exists db',
            UsersService.remove id db = (Ok u, db')
            /\ Prisma.userById db' id = None
            /\ Prisma.profileOfUser db' id = None
            /\ Prisma.postsOfAuthor db' id = []
            /\ Prisma.commentsOfAuthor db' id = []
            /\ (forall p, In p (posts db) -> post_authorId p = id ->
                  Prisma.commentsOfPost db' (post_id p) = []
                  /\ Prisma.joinsOfPost db' (post_id p) = [])
            /\ (forall x, In x (users db) -> user_id x <> id ->
                  In x (users db'))
            /\ (forall x, In x (profiles db) -> profile_userId x <> id ->
                  In x (profiles db'))
            /\ (forall p, In p (posts db) -> post_authorId p <> id ->
                  In p (posts db'))
            /\ (forall c, In c (comments db) -> comment_authorId c <> id ->
                  (forall p, In p (posts db) -> post_id p = comment_postId c ->
                             post_authorId p <> id) ->
                  In c (comments db'))
            /\ categories db' = categories db).
Proof.
  intros db id. unfold UsersService.remove, Prisma.user_delete. split.
  - intros Hu. now rewrite Hu.
  - intros u Hu. rewrite Hu. eexists. split; [reflexivity|].
    set (gone := fun postId =>
           existsb (fun p => post_id p =? postId) (Prisma.postsOfAuthor db id)).
    assert (Hgone : forall p, In p (posts db) -> post_authorId p = id ->
                              gone (post_id p) = true).
    { intros p Hin Hp. apply existsb_exists. exists p. split.
      - apply filter_In. split; [exact Hin | now apply Z.eqb_eq].
      - apply Z.eqb_refl. }
    split; [apply (find_filter_out user_id)|].
    split; [apply (find_filter_out profile_userId)|].
    split; [apply (filter_filter_out post_authorId)|].
    split.
    { unfold Prisma.commentsOfAuthor. simpl. apply filter_none.
      intros c Hin. apply filter_In in Hin. destruct Hin as [_ Hc].
      apply andb_true_iff in Hc. destruct Hc as [Hc _].
      now apply negb_true_iff in Hc. }
    split.
    { intros p Hin Hp. specialize (Hgone p Hin Hp).
      unfold Prisma.commentsOfPost, Prisma.joinsOfPost. simpl.
      split; apply filter_none; intros x Hx; apply filter_In in Hx;
        destruct Hx as [_ Hx]; apply Z.eqb_neq; intros Heq;
        fold (gone (comment_postId x)) in Hx || fold (gone (pc_postId x)) in Hx;
        rewrite Heq, Hgone in Hx; simpl in Hx;
        rewrite ?andb_false_r in Hx; discriminate. }
    split.
    { intros x Hin Hx. simpl. apply filter_In. split; [exact Hin|].
      apply negb_true_iff. now apply Z.eqb_neq. }
    split.
    { intros x Hin Hx. simpl. apply filter_In. split; [exact Hin|].
      apply negb_true_iff. now apply Z.eqb_neq. }
    split.
    { intros x Hin Hx. simpl. apply filter_In. split; [exact Hin|].
      apply negb_true_iff. now apply Z.eqb_neq. }
    split; [|reflexivity].
    intros c Hin Hc Hposts. simpl. apply filter_In. split; [exact Hin|].
    apply andb_true_iff. split.
    + apply negb_true_iff. now apply Z.eqb_neq.
    + apply negb_true_iff. apply not_true_iff_false. intros Hex.
      apply existsb_exists in Hex. destruct Hex as [p [Hp Hpid]].
      apply filter_In in Hp. destruct Hp as [Hp Hauthor].
      apply Z.eqb_eq in Hpid. apply Z.eqb_eq in Hauthor.
      now apply (Hposts p Hp Hpid).
Qed.

Lemma X18_users_remove_witness :
  Prisma.userById Scenario.commented 1 <> None
  /\ Prisma.userById Scenario.commented 5 = None
  /\ UsersService.remove 5 Scenario.commented
     = (Err (PrismaClientKnownRequestError "P2025"), Scenario.commented)
  /\ exists db',
       snd (UsersService.remove 1 Scenario.commented) = db'
       /\ posts db' = [] /\ postCategories db' = [] /\ comments db' = []
       /\ categories db' = categories Scenario.commented.
Proof.
  destruct (X18_users_remove_cascades Scenario.commented 5) as [Hmiss _].
  destruct (X18_users_remove_cascades Scenario.commented 1) as [_ Hok].
  split; [discriminate|]. split; [reflexivity|]. split; [exact (Hmiss eq_refl)|].
  destruct (Hok _ eq_refl) as [db' [Hrun [_ [_ [_ [_ [_ [_ [_ [_ [_ Hcat]]]]]]]]]]].
  exists db'. rewrite Hrun. simpl. split; [reflexivity|].
  inversion Hrun. subst db'. repeat split.
Defined.

(** X19.  [PostsService.remove] on an id that resolves to no row fails with
    the client's P2025 error, untranslated, and writes nothing.  Otherwise
    it answers the deleted post and takes with it the comments and the join
    rows of that post and nothing else: users, profiles and categories are
    untouched, and the posts, comments and join rows of other post ids stay
    in their order. *)
Theorem X19_posts_remove_cascades :
  forall (db : DB) (id : Z),
    (Prisma.postById db id = None ->
     PostsService.remove id db
     = (Err (PrismaClientKnownRequestError "P2025"), db))
    /\ (forall p,
          Prisma.postById db id = Some p ->
          exists db',
            PostsService.remove id db = (Ok p, db')
            /\ Prisma.postById db' id = None
            /\ Prisma.commentsOfPost db' id = []
            /\ Prisma.joinsOfPost db' id = []
            /\ posts db' = filter (fun x => negb (post_id x =? id)) (posts db)
            /\ comments db'
               = filter (fun c => negb (comment_postId c =? id)) (comments db)
            /\ postCategories db'
               = filter (fun j => negb (pc_postId j =? id)) (postCategories db)
            /\ users db' = users db /\ profiles db' = profiles db
            /\ categories db' = categories db).
Proof.
  intros db id. unfold PostsService.remove, Prisma.post_delete. split.
  - intros Hp. now rewrite Hp.
  - intros p Hp. rewrite Hp. eexists. split; [reflexivity|].
    split; [apply (find_filter_out post_id)|].
    split; [apply (filter_filter_out comment_postId)|].
    split; [apply (filter_filter_out pc_postId)|].
    simpl. repeat split.
Qed.

Lemma X19_posts_remove_witness :
  Prisma.postById Scenario.commented 1 <> None
  /\ Prisma.postById Scenario.commented 3 = None
  /\ fst (PostsService.remove 3 Scenario.commented)
     = Err (PrismaClientKnownRequestError "P2025")
  /\ comments (snd (PostsService.remove 1 Scenario.commented)) = []
  /\ users (snd (PostsService.remove 1 Scenario.commented))
     = users Scenario.commented.
Proof.
  destruct (X19_posts_remove_cascades Scenario.commented 3) as [Hmiss _].
  destruct (X19_posts_remove_cascades Scenario.commented 1) as [_ Hok].
  split; [discriminate|]. split; [reflexivity|].
  split; [now rewrite (Hmiss eq_refl)|].
  destruct (Hok _ eq_refl)
    as [db' [Hrun [_ [_ [_ [_ [Hcom [_ [Husers _]]]]]]]]].
  rewrite Hrun. simpl. split; [rewrite Hcom; reflexivity | exact Husers].
Defined.

(** X20.  [CategoriesService.remove] on an id that resolves to no row throws
    the not-found exception and writes nothing.  Otherwise it answers the
    deleted category and takes with it the join rows of that category and
    nothing else: no post and no comment is deleted, and afterwards
    [findByCategory] on the id lists no post and [findOne] on it throws
    not-found. *)
Theorem X20_categories_remove_untags_posts :
  forall (db : DB) (id : Z),
    (Prisma.categoryById db id = None ->
     CategoriesService.remove id db
     = (Err (NotFoundException
               ("Category with ID " ++ string_of_Z id ++ " not found")%string),
        db))
    /\ (forall c,
          Prisma.categoryById db id = Some c ->
          exists db',
            CategoriesService.remove id db = (Ok c, db')
            /\ categories db'
               = filter (fun x => negb (category_id x =? id)) (categories db)
            /\ postCategories db'
               = filter (fun j => negb (pc_categoryId j =? id))
                        (postCategories db)
            /\ posts db' = posts db /\ comments db' = comments db
            /\ users db' = users db /\ profiles db' = profiles db
            /\ PostsService.findByCategory id db' = (Ok [], db')
            /\ fst (CategoriesService.findOne id db')
               = Err (NotFoundException
                        ("Category with ID " ++ string_of_Z id
                         ++ " not found")%string)).
Proof.
  intros db id.
  unfold CategoriesService.remove, try_catch, Prisma.category_delete. split.
  - intros Hc. now rewrite Hc.
  - intros c Hc. rewrite Hc. eexists. split; [reflexivity|]. simpl.
    do 6 (split; [reflexivity|]).
    split.
    + unfold PostsService.findByCategory, Prisma.reads. f_equal. f_equal.
      match goal with |- map _ (filter ?f ?l) = [] =>
        rewrite (filter_none f l); [reflexivity|] end.
      intros p _. apply not_true_iff_false. intros Hex.
      apply existsb_exists in Hex. destruct Hex as [j [Hin Hj]].
      unfold Prisma.joinsOfPost in Hin. simpl in Hin.
      apply filter_In in Hin. destruct Hin as [Hin _].
      apply filter_In in Hin. destruct Hin as [_ Hneq].
      rewrite Hj in Hneq. discriminate.
    + rewrite categories_findOne_missing; [reflexivity|].
      apply (find_filter_out category_id).
Qed.

Lemma X20_categories_remove_witness :
  Prisma.categoryById Scenario.commented 1 <> None
  /\ Prisma.categoryById Scenario.commented 8 = None
  /\ fst (CategoriesService.remove 8 Scenario.commented)
     = Err (NotFoundException "Category with ID 8 not found")
  /\ posts (snd (CategoriesService.remove 1 Scenario.commented))
     = posts Scenario.commented
  /\ postCategories (snd (CategoriesService.remove 1 Scenario.commented)) = [].
Proof.
  destruct (X20_categories_remove_untags_posts Scenario.commented 8)
    as [Hmiss _].
  destruct (X20_categories_remove_untags_posts Scenario.commented 1)
    as [_ Hok].
  split; [discriminate|]. split; [reflexivity|].
  split; [now rewrite (Hmiss eq_refl)|].
  destruct (Hok _ eq_refl) as [db' [Hrun [_ [Hjoins [Hposts _]]]]].
  rewrite Hrun. simpl. split; [exact Hposts | rewrite Hjoins; reflexivity].
Defined.

(* ------------------------------------------------------------------ *)
(** ** Updates *)

Lemma find_unique_column {A} (col : A -> string) (l : list A) (x : A) :
  NoDup (map col l) -> In x l ->
  find (fun y => String.eqb (col y) (col x)) l = Some x.
Proof.
  induction l as [|a l IH]; simpl; intros Hnd Hin; [destruct Hin|].
  inversion Hnd as [|? ? Hnotin Hnd']; subst.
  destruct (String.eqb (col a) (col x)) eqn:Ha.
  - apply String.eqb_eq in Ha. destruct Hin as [Hin|Hin]; [now subst|].
    exfalso. apply Hnotin. rewrite Ha. now apply in_map.
  - destruct Hin as [Hin|Hin]; [|now apply IH].
    subst a. now rewrite String.eqb_refl in Ha.
Qed.






(** X23.  [CategoriesService.update] throws the not-found exception when
    the id resolves to no row and the conflict exception when the new name
    or the new slug belongs to another category, writing nothing either
    way.  When neither belongs to another category it answers the category
    with the supplied fields overwritten and the id kept, and a consistent
    store stays consistent, so names and slugs stay unique. *)
Theorem X23_categories_update_outcomes :
  forall (db : DB) (id : Z) (data : Prisma.CategoryUpdateInput),
    (Prisma.categoryById db id = None ->
     CategoriesService.update id data db
     = (Err (NotFoundException
               ("Category with ID " ++ string_of_Z id ++ " not found")%string),
        db))
    /\ (forall c other,
          Prisma.categoryById db id = Some c ->
          In other (categories db) -> category_id other <> id ->
          Prisma.cu_name data = Some (category_name other)
          \/ Prisma.cu_slug data = Some (category_slug other) ->
          CategoriesService.update id data db
          = (Err (ConflictException
                    "Category with this name or slug already exists"), db))
    /\ (forall c,
          Prisma.categoryById db id = Some c ->
          (forall other, In other (categories db) -> category_id other <> id ->
             Prisma.cu_name data <> Some (category_name other)
             /\ Prisma.cu_slug data <> Some (category_slug other)) ->
          exists db',
            CategoriesService.update id data db
            = (Ok (mkCategory id
                     (match Prisma.cu_name data with
                      | Some n => n
                      | None => category_name c
                      end)
                     (match Prisma.cu_slug data with
                      | Some s => s
                      | None => category_slug c
                      end)), db')
            /\ List.length (categories db') = List.length (categories db)
            /\ postCategories db' = postCategories db
            /\ (Consistent db -> Consistent db')).
Proof.
  intros db id data.
  assert (Hclash : forall (col : Category -> string) (new : option string),
            match new with
            | Some v => existsb (fun x => String.eqb (col x) v
                                          && negb (category_id x =? id))
                                (categories db)
            | None => false
            end = true
            <-> exists other, In other (categories db)
                              /\ category_id other <> id
                              /\ new = Some (col other)).
  { intros col [v|]; split.
    - intros Hex. apply existsb_exists in Hex. destruct Hex as [x [Hin Hb]].
      apply andb_true_iff in Hb. destruct Hb as [Hv Hne].
      apply String.eqb_eq in Hv. apply negb_true_iff in Hne.
      apply Z.eqb_neq in Hne. exists x. repeat split; congruence.
    - intros [x [Hin [Hne Hv]]]. apply existsb_exists. exists x.
      split; [exact Hin|]. apply andb_true_iff. split.
      + apply String.eqb_eq. congruence.
      + apply negb_true_iff. now apply Z.eqb_neq.
    - discriminate.
    - intros [x [_ [_ Hv]]]. discriminate. }
  split; [|split].
  - intros Hc. unfold CategoriesService.update, try_catch,
      Prisma.category_update. now rewrite Hc.
  - intros c other Hc Hin Hne Hnew.
    unfold CategoriesService.update, try_catch, Prisma.category_update.
    rewrite Hc.
    match goal with |- context [if ?b then _ else _] =>
      replace b with true; [reflexivity|] end.
    symmetry. apply orb_true_iff.
    destruct Hnew as [Hn|Hs]; [left|right]; apply Hclash; eauto.
  - intros c Hc Hfree.
    pose proof (category_update_consistent id data db) as Hkeep.
    unfold CategoriesService.update, try_catch. unfold Prisma.category_update in *.
    rewrite Hc in *. destruct (categoryById_id _ _ _ Hc) as [Hid _].
    match goal with |- context [if ?b then _ else _] =>
      replace b with false in * end.
    + simpl in *. rewrite Hid in Hkeep |- *. unfold orKeep in *.
      eexists. split; [reflexivity|]. simpl.
      split; [now rewrite length_map|]. split; [reflexivity | exact Hkeep].
    + symmetry. apply orb_false_iff.
      split; apply not_true_iff_false; intros Hex; apply Hclash in Hex;
        destruct Hex as [x [Hin [Hne Hv]]]; destruct (Hfree x Hin Hne);
        contradiction.
Qed.

Lemma X23_categories_update_witness :
  Prisma.categoryById Scenario.commented 2 <> None
  /\ fst (CategoriesService.update 2
            (Prisma.mkCategoryUpdateInput None (Some "tutorial"))
            Scenario.commented)
     = Err (ConflictException "Category with this name or slug already exists")
  /\ fst (CategoriesService.update 2
            (Prisma.mkCategoryUpdateInput (Some "Database") (Some "db"))
            Scenario.commented)
     = Ok (mkCategory 2 "Database" "db").
Proof.
  destruct (X23_categories_update_outcomes Scenario.commented 2
              (Prisma.mkCategoryUpdateInput None (Some "tutorial")))
    as [_ [Hconf _]].
  destruct (X23_categories_update_outcomes Scenario.commented 2
              (Prisma.mkCategoryUpdateInput (Some "Database") (Some "db")))
    as [_ [_ Hok]].
  split; [discriminate|]. split.
  - rewrite (Hconf _ (mkCategory 1 "Tutorial" "tutorial") eq_refl);
      [reflexivity | now left | discriminate | now right].
  - destruct (Hok _ eq_refl) as [db' [Hrun _]].
    + intros other [H|[H|[]]] Hne; subst other; simpl in *;
        [split; discriminate | contradiction].
    + now rewrite Hrun.
Defined.

(* ------------------------------------------------------------------ *)
(** ** PrismaService: cleanDatabase *)

(** X24.  [cleanDatabase] refuses, touching nothing, exactly when
    [NODE_ENV] is "production".  Otherwise it returns a store whose six
    tables are empty and whose autoincrement counters and clock are as
    before (ids are not reused).  Its deletes come in an order that needs no
    cascade: after the first [k] of them the first [k] tables of the
    sequence comments, join rows, posts, profiles, categories, users are
    empty and every other table is still as it was. *)
Theorem X24_cleanDatabase_empties_in_order :
  forall (nodeEnv : option string) (db : DB),
    (nodeEnv = Some "production" ->
     PrismaService.cleanDatabase nodeEnv db
     = PrismaService.Refused "Cannot clean database in production!")
    /\ (nodeEnv <> Some "production" ->
        PrismaService.cleanDatabase nodeEnv db
        = PrismaService.Cleaned
            (mkDB [] [] [] [] [] []
                  (nextUserId db) (nextProfileId db) (nextPostId db)
                  (nextCategoryId db) (nextPostCategoryId db)
                  (nextCommentId db) (now db)))
    /\ (forall k : nat,
          let d := PrismaService.runSteps (firstn k PrismaService.cleanSteps) db in
          comments d = (if (1 <=? k)%nat then [] else comments db)
          /\ postCategories d = (if (2 <=? k)%nat then [] else postCategories db)
          /\ posts d = (if (3 <=? k)%nat then [] else posts db)
          /\ profiles d = (if (4 <=? k)%nat then [] else profiles db)
          /\ categories d = (if (5 <=? k)%nat then [] else categories db)
          /\ users d = (if (6 <=? k)%nat then [] else users db)).
Proof.
  intros nodeEnv db. split; [|split].
  - intros Henv. subst nodeEnv. reflexivity.
  - intros Henv. unfold PrismaService.cleanDatabase.
    replace (match nodeEnv with
             | Some v => String.eqb v "production"
             | None => false
             end) with false; [reflexivity|].
    destruct nodeEnv as [v|]; [|reflexivity].
    symmetry. apply String.eqb_neq. congruence.
  - intros k. do 6 (destruct k as [|k]; [repeat split|]).
    simpl. rewrite firstn_nil. repeat split.
Qed.

Lemma X24_cleanDatabase_witness :
  Some "test" <> Some "production"
  /\ PrismaService.cleanDatabase (Some "production") Scenario.commented
     = PrismaService.Refused "Cannot clean database in production!"
  /\ PrismaService.cleanDatabase (Some "test") Scenario.commented
     = PrismaService.Cleaned (mkDB [] [] [] [] [] [] 2 1 2 3 2 4 5)
  /\ PrismaService.cleanDatabase None Scenario.commented
     = PrismaService.Cleaned (mkDB [] [] [] [] [] [] 2 1 2 3 2 4 5).
Proof.
  destruct (X24_cleanDatabase_empties_in_order (Some "production")
              Scenario.commented) as [Hprod _].
  destruct (X24_cleanDatabase_empties_in_order (Some "test")
              Scenario.commented) as [_ [Htest _]].
  destruct (X24_cleanDatabase_empties_in_order None Scenario.commented)
    as [_ [Hnone _]].
  split; [discriminate|]. split; [exact (Hprod eq_refl)|].
  split; [apply Htest; discriminate | apply Hnone; discriminate].
Defined.

(* ------------------------------------------------------------------ *)
(** ** Lookups by a unique column *)

(** X25.  [findBySlug] writes nothing.  It throws the not-found exception,
    quoting the slug, when no category carries the slug.  With unique slugs
    it answers the category that carries the slug together with that
    category's join rows, in table order; in a referentially intact store
    each of them comes with its post and the post's author. *)
Theorem X25_findBySlug_outcomes :
  forall (db : DB) (slug : string),
    snd (CategoriesService.findBySlug slug db) = db
    /\ ((forall c, In c (categories db) -> category_slug c <> slug) ->
        fst (CategoriesService.findBySlug slug db)
        = Err (NotFoundException
                 ("Category with slug '" ++ slug ++ "' not found")%string))
    /\ (forall c,
          In c (categories db) -> category_slug c = slug ->
          NoDup (map category_slug (categories db)) ->
          exists r,
            fst (CategoriesService.findBySlug slug db) = Ok r
            /\ CategoriesService.cpa_category r = c
            /\ map CategoriesService.jpa_row (CategoriesService.cpa_posts r)
               = filter (fun j => pc_categoryId j =? category_id c)
                        (postCategories db)
            /\ (Intact db ->
                forall x, In x (CategoriesService.cpa_posts r) ->
                  exists p author,
                    CategoriesService.jpa_post x
                    = Some (mkPostWithAuthor p (Some author))
                    /\ post_id p = pc_postId (CategoriesService.jpa_row x))).
Proof.
  intros db slug.
  unfold CategoriesService.findBySlug, bind, Prisma.reads. split; [|split].
  - simpl. destruct (CategoriesService.categoryBySlug db slug); reflexivity.
  - intros Hnone.
    replace (CategoriesService.categoryBySlug db slug) with (@None Category);
      [reflexivity|].
    symmetry. apply find_none_iff. apply not_true_iff_false. intros Hex.
    apply existsb_exists in Hex. destruct Hex as [c [Hin Hc]].
    apply String.eqb_eq in Hc. now apply (Hnone c).
  - intros c Hin Hslug Hnd. subst slug.
    unfold CategoriesService.categoryBySlug.
    rewrite (find_unique_column category_slug _ c Hnd Hin). simpl.
    eexists. split; [reflexivity|]. simpl. split; [reflexivity|].
    split; [now rewrite map_map, map_id|].
    intros Hi x Hx. apply in_map_iff in Hx. destruct Hx as [j [Hx Hj]].
    subst x. simpl. unfold Prisma.joinsOfCategory in Hj.
    apply filter_In in Hj. destruct Hj as [Hj _].
    pose proof (join_post _ Hi j Hj) as Hpost.
    destruct (Prisma.postById db (pc_postId j)) as [p|] eqn:Hp.
    + destruct (postById_id _ _ _ Hp) as [Hid Hinp].
      pose proof (post_author _ Hi p Hinp) as Hauthor.
      unfold includePostAuthor. simpl.
      destruct (Prisma.userById db (post_authorId p)) as [a|] eqn:Ha.
      * exists p, a. auto.
      * exfalso. apply in_map_iff in Hauthor.
        destruct Hauthor as [a [Ha' Hina]].
        eapply find_none in Ha; [|exact Hina]. simpl in Ha.
        apply Z.eqb_neq in Ha. contradiction.
    + exfalso. apply in_map_iff in Hpost. destruct Hpost as [p [Hp' Hinp]].
      eapply find_none in Hp; [|exact Hinp]. simpl in Hp.
      apply Z.eqb_neq in Hp. contradiction.
Qed.

Lemma X25_findBySlug_witness :
  (forall c, In c (categories Scenario.commented) -> category_slug c <> "x")
  /\ NoDup (map category_slug (categories Scenario.commented))
  /\ Intact Scenario.commented
  /\ fst (CategoriesService.findBySlug "x" Scenario.commented)
     = Err (NotFoundException "Category with slug 'x' not found")
  /\ exists r,
       fst (CategoriesService.findBySlug "tutorial" Scenario.commented) = Ok r
       /\ category_id (CategoriesService.cpa_category r) = 1
       /\ List.length (CategoriesService.cpa_posts r) = 1%nat.
Proof.
  destruct (X25_findBySlug_outcomes Scenario.commented "x") as [_ [Hnone _]].
  destruct (X25_findBySlug_outcomes Scenario.commented "tutorial")
    as [_ [_ Hfound]].
  assert (Hfree : forall c, In c (categories Scenario.commented) ->
                            category_slug c <> "x").
  { intros c [H|[H|[]]]; subst c; discriminate. }
  assert (Hnd : NoDup (map category_slug (categories Scenario.commented)))
    by apply (unique_slug _ (proj1 (proj2 commented_consistent))).
  split; [exact Hfree|]. split; [exact Hnd|].
  split; [apply commented_consistent|]. split; [exact (Hnone Hfree)|].
  destruct (Hfound (mkCategory 1 "Tutorial" "tutorial")
              (or_introl eq_refl) eq_refl Hnd) as [r [Hr [Hc [Hrows _]]]].
  exists r. split; [exact Hr|]. split; [now rewrite Hc|].
  rewrite <- (length_map CategoriesService.jpa_row), Hrows. reflexivity.
Defined.

(** X26.  When no user carries the email, [UsersService.create] appends one
    user under the table's next id, stamped with the clock, and answers it;
    [findByEmail] on the email then answers that user, and in a consistent
    store [getUserStats] on the new id reports no posts, no comments and no
    profile. *)
Theorem X26_users_create_then_lookup :
  forall (db : DB) (data : Prisma.UserCreateInput),
    (forall x, In x (users db) -> user_email x <> Prisma.uc_email data) ->
    let u := mkUser (nextUserId db) (Prisma.uc_email data)
                    (Prisma.uc_name data) (now db) (now db) in
    exists db',
      UsersService.create data db = (Ok u, db')
      /\ users db' = users db ++ [u]
      /\ nextUserId db' = nextUserId db + 1
      /\ (exists found,
             UsersService.findByEmail (Prisma.uc_email data) db'
             = (Ok (Some found), db')
             /\ UsersService.upp_user found = u)
      /\ (Consistent db ->
          fst (UsersService.getUserStats (user_id u) db')
          = Ok (UsersService.mkUserStats (user_id u) (Prisma.uc_email data)
                                         (Prisma.uc_name data) 0 0 false)).
Proof.
  intros db data Hfree u.
  unfold UsersService.create, Prisma.user_create.
  assert (Hnone : find (fun x => String.eqb (user_email x)
                                            (Prisma.uc_email data)) (users db)
                  = None).
  { apply find_none_iff. apply not_true_iff_false. intros Hex.
    apply existsb_exists in Hex. destruct Hex as [x [Hin Hx]].
    apply String.eqb_eq in Hx. now apply (Hfree x). }
  rewrite (proj1 (find_none_iff _ _) Hnone). fold u.
  eexists. split; [reflexivity|]. simpl.
  split; [reflexivity|]. split; [reflexivity|]. split.
  - unfold UsersService.findByEmail, Prisma.reads, Prisma.userByEmail. simpl.
    rewrite (find_app_none _ _ u Hnone). simpl. rewrite String.eqb_refl.
    eexists. split; reflexivity.
  - intros Hcons.
    destruct (next_user_unreferenced db Hcons) as [Hnu [Hnp [Hposts Hcomments]]].
    unfold UsersService.getUserStats, bind.
    erewrite users_findOne_found.
    2:{ unfold Prisma.userById. simpl.
        apply (find_key_snoc user_id (users db) u Hnu). }
    simpl. unfold Prisma.postsOfAuthor, Prisma.commentsOfAuthor,
      Prisma.profileOfUser. simpl.
    rewrite Hposts, Hcomments. simpl.
    replace (find _ (profiles db)) with (@None Profile); [reflexivity|].
    symmetry. apply find_none_iff. apply not_true_iff_false. intros Hex.
    apply existsb_exists in Hex. destruct Hex as [x [Hin Hx]].
    apply Z.eqb_eq in Hx. apply Hnp. rewrite <- Hx. now apply in_map.
Qed.

Lemma X26_users_create_witness :
  (forall x, In x (users Scenario.commented) -> user_email x <> "b@x.com")
  /\ Consistent Scenario.commented
  /\ fst (UsersService.create (Prisma.mkUserCreateInput "b@x.com" None)
                              Scenario.commented)
     = Ok (mkUser 2 "b@x.com" None 5 5).
Proof.
  assert (Hfree : forall x, In x (users Scenario.commented) ->
                            user_email x <> "b@x.com").
  { intros x [H|[]]; subst x; discriminate. }
  split; [exact Hfree|]. split; [exact commented_consistent|].
  destruct (X26_users_create_then_lookup Scenario.commented
              (Prisma.mkUserCreateInput "b@x.com" None) Hfree)
    as [db' [Hrun _]].
  now rewrite Hrun.
Defined.
